(** * The Laika test client: assignment cache, resolver and request pipeline

    A shallow embedding of [laika-test-client.js] (the classes
    [AssignmentCache] and [LaikaTestClient]) together with the properties
    its specification states about them.

    JavaScript values are embedded as the inductive type [JsVal] with the
    language's own truthiness; the [Map] held by the cache is a [gmap] from
    key strings to entries; the asynchronous methods of the client are
    computations in a state-and-exception monad over a [World] that holds
    the cache, the wall clock and the log of requests handed to the
    transport. *)

From Stdlib Require Import ZArith QArith String Ascii List Bool Lia DecimalString.
From stdpp Require Import base gmap strings.

Open Scope Z_scope.

(** ** JavaScript values *)

(** A JavaScript number: a finite double is a rational number, and the
    comparisons the client performs on numbers are exact on them. *)
Inductive JsNum : Type :=
| NaN
| PosInf
| NegInf
| Fin (q : Q).

Definition Qlt_bool (a b : Q) : bool := negb (Qle_bool b a).

(** [a < b] on numbers; every comparison with [NaN] is false. *)
Definition num_lt (a b : JsNum) : bool :=
  match a, b with
  | NaN, _ | _, NaN => false
  | PosInf, _ => false
  | _, PosInf => true
  | _, NegInf => false
  | NegInf, _ => true
  | Fin x, Fin y => Qlt_bool x y
  end.

(** [a > b] on numbers. *)
Definition num_gt (a b : JsNum) : bool := num_lt b a.

Definition num_of_Z (z : Z) : JsNum := Fin (inject_Z z).

#[warnings="-register-all"]
Inductive JsVal : Type :=
| JUndefined
| JNull
| JBool (b : bool)
| JNum (n : JsNum)
| JStr (s : string)
| JArr (items : list JsVal)
| JObj (props : list (string * JsVal)).

(** ToBoolean. *)
Definition truthy (v : JsVal) : bool :=
  match v with
  | JUndefined | JNull => false
  | JBool b => b
  | JNum NaN => false
  | JNum (Fin q) => negb (Qeq_bool q 0)
  | JNum _ => true
  | JStr s => negb (String.eqb s "")
  | JArr _ | JObj _ => true
  end.

(** [a || b]. *)
Definition js_or (a b : JsVal) : JsVal := if truthy a then a else b.

(** [typeof v === 'number']. *)
Definition is_number (v : JsVal) : bool :=
  match v with JNum _ => true | _ => false end.

(** [v !== undefined]. *)
Definition is_defined (v : JsVal) : bool :=
  match v with JUndefined => false | _ => true end.

(** [v < k] and [v > k] for a value already known to be a number; on any
    other value the client never evaluates them. *)
Definition val_lt (v : JsVal) (k : Z) : bool :=
  match v with JNum n => num_lt n (num_of_Z k) | _ => false end.

Definition val_gt (v : JsVal) (k : Z) : bool :=
  match v with JNum n => num_gt n (num_of_Z k) | _ => false end.

(** [list.includes(v)] for a list of string literals: only a string value
    equal to one of them is included. *)
Definition includes_val (l : list string) (v : JsVal) : bool :=
  match v with
  | JStr s => existsb (String.eqb s) l
  | _ => false
  end.

Fixpoint assoc (name : string) (props : list (string * JsVal)) : JsVal :=
  match props with
  | [] => JUndefined
  | (k, v) :: rest => if String.eqb k name then v else assoc name rest
  end.

(** [haystack.startsWith(needle)]. *)
Fixpoint starts_with (needle haystack : string) : bool :=
  match needle, haystack with
  | EmptyString, _ => true
  | String _ _, EmptyString => false
  | String a needle', String b haystack' => Ascii.eqb a b && starts_with needle' haystack'
  end.

(** [haystack.includes(needle)] on strings. *)
Fixpoint includes (needle haystack : string) : bool :=
  starts_with needle haystack
  || match haystack with
     | EmptyString => false
     | String _ rest => includes needle rest
     end.

(** An identifier argument that may be left out: [None] stands for
    [null] and [undefined]. *)
Definition Ident : Type := option string.

(** Truthiness of an optional string: absent and empty are both falsy. *)
Definition present (i : Ident) : bool :=
  match i with
  | Some s => negb (String.eqb s "")
  | None => false
  end.

(** [i || fallback] for an optional string. *)
Definition ident_or (i : Ident) (fallback : string) : string :=
  match i with
  | Some s => if String.eqb s "" then fallback else s
  | None => fallback
  end.

(** ** Errors *)

(** What a [LaikaServiceError] carries in its [response] field. *)
Inductive ErrResponse : Type :=
| NoResponse
| ResponseBody (parsed : JsVal)
| Caught (name : string).

Inductive JsError : Type :=
| LaikaServiceError (message : string) (statusCode : option Z) (response : ErrResponse)
| NetworkError (message : string)
| ValidationError (message : string)
| AssignmentNotFoundError (message : string)
| TypeError.

Definition error_name (e : JsError) : string :=
  match e with
  | LaikaServiceError _ _ _ => "LaikaServiceError"
  | NetworkError _ => "NetworkError"
  | ValidationError _ => "ValidationError"
  | AssignmentNotFoundError _ => "AssignmentNotFoundError"
  | TypeError => "TypeError"
  end.

Definition is_ServiceError (e : JsError) : bool :=
  match e with LaikaServiceError _ _ _ => true | _ => false end.

Definition is_NetworkError (e : JsError) : bool :=
  match e with NetworkError _ => true | _ => false end.

Definition is_ValidationError (e : JsError) : bool :=
  match e with ValidationError _ => true | _ => false end.

Definition is_AssignmentNotFoundError (e : JsError) : bool :=
  match e with AssignmentNotFoundError _ => true | _ => false end.

Inductive Result (A : Type) : Type :=
| Ok (a : A)
| Throw (e : JsError).

Arguments Ok {A} a.
Arguments Throw {A} e.

(** [v.name]: reading a property of [null] or [undefined] is a
    [TypeError]; the properties the client reads ([success], [data],
    [meta], [error], [assignment_id]) exist on plain objects only. *)
Definition get_prop (v : JsVal) (name : string) : Result JsVal :=
  match v with
  | JUndefined | JNull => Throw TypeError
  | JObj props => Ok (assoc name props)
  | _ => Ok JUndefined
  end.

(** ** AssignmentCache *)

Record CacheEntry : Type := mkEntry {
  assignment : JsVal;
  expiresAt : Z
}.

Module AssignmentCache.

(** The object: the [Map] and the time to live, in milliseconds. *)
Record t : Type := mk {
  cache : gmap string CacheEntry;
  ttl : Z
}.

(** [constructor(ttlMs = 30 * 60 * 1000)]. *)
Definition new (ttlMs : option Z) : t :=
  {| cache := ∅; ttl := default (30 * 60 * 1000) ttlMs |}.

Definition _generateKey (experimentId : string) (userId sessionId : Ident) : string :=
  let userKey := ident_or userId "null" in
  let sessionKey := ident_or sessionId "null" in
  experimentId +:+ ":" +:+ userKey +:+ ":" +:+ sessionKey.

(** [store], with the value of [Date.now()] as [now]. *)
Definition store (now : Z) (experimentId : string) (userId sessionId : Ident)
    (a : JsVal) (c : t) : t :=
  let key := _generateKey experimentId userId sessionId in
  let expires := now + ttl c in
  {| cache := <[key := mkEntry a expires]> (cache c); ttl := ttl c |}.

(** [get], with the value of [Date.now()] as [now]: the value returned and
    the cache it leaves behind. *)
Definition get (now : Z) (experimentId : string) (userId sessionId : Ident)
    (c : t) : JsVal * t :=
  let key := _generateKey experimentId userId sessionId in
  match cache c !! key with
  | None => (JNull, c)
  | Some entry =>
      if now >? expiresAt entry
      then (JNull, {| cache := delete key (cache c); ttl := ttl c |})
      else (assignment entry, c)
  end.

Definition clear (c : t) : t := {| cache := ∅; ttl := ttl c |}.

(** [cleanup]: every entry with [now > expiresAt] is deleted. *)
Definition cleanup (now : Z) (c : t) : t :=
  {| cache := filter (λ kv : string * CacheEntry, ¬ (now > expiresAt kv.2)) (cache c);
     ttl := ttl c |}.

End AssignmentCache.

(** ** The world a client runs in *)

(** The configuration fixed by the constructor. *)
Record Config : Type := mkConfig {
  apiKey : string;
  baseUrl : string;
  timeout : Z;
  cacheTtl : Z
}.

(** One call of [_makeRequest], as the transport sees it. *)
Record Request : Type := mkRequest {
  req_method : string;
  req_base : string;
  req_path : string;
  req_authorization : string;
  req_timeout : Z;
  req_data : JsVal
}.

(** What the transport answers: an exception while the request is set up
    (a malformed URL or header), the [error] event, the [timeout] event, or
    a response with its status code and the outcome of [JSON.parse] on its
    text ([None] when the text does not parse). *)
Inductive Reply : Type :=
| SetupFailure
| ConnectionError
| TimedOut
| Response (statusCode : Z) (body : option JsVal).

Record Exchange : Type := mkExchange {
  reply : Reply;
  elapsed : Z
}.

(** What the client takes from its host: the request executor, which may
    answer by the time and by everything sent before, and the built-in
    functions of the language that the client calls. *)
Record Runtime : Type := mkRuntime {
  http_request : Z -> list Request -> Request -> Exchange;
  Date_parse : string -> option Z;
  Number_toString : JsNum -> string;
  URLSearchParams_toString : list (string * string) -> string
}.

Record World : Type := mkWorld {
  config : Config;
  assignmentCache : AssignmentCache.t;
  cleanupInterval : bool;
  clock : Z;
  requests : list Request
}.

Definition set_cache (c : AssignmentCache.t) (w : World) : World :=
  {| config := config w; assignmentCache := c;
     cleanupInterval := cleanupInterval w; clock := clock w;
     requests := requests w |}.

(** ** The monad of client methods: state and exceptions *)

Definition M (A : Type) : Type := World -> Result A * World.

Definition ret {A : Type} (a : A) : M A := fun w => (Ok a, w).

Definition throw {A : Type} (e : JsError) : M A := fun w => (Throw e, w).

Definition bind {A B : Type} (m : M A) (k : A -> M B) : M B :=
  fun w =>
    match m w with
    | (Ok a, w') => k a w'
    | (Throw e, w') => (Throw e, w')
    end.

(** [try { m } catch (error) { handler error }]: what [m] did to the world
    before it threw stays done. *)
Definition try_catch {A : Type} (m : M A) (handler : JsError -> M A) : M A :=
  fun w =>
    match m w with
    | (Ok a, w') => (Ok a, w')
    | (Throw e, w') => handler e w'
    end.

Definition lift {A : Type} (r : Result A) : M A := fun w => (r, w).

Declare Scope js_scope.
Delimit Scope js_scope with js.
Notation "'let*' x := c 'in' k" := (bind c (fun x => k))
  (at level 10, x name, c at level 100, k at level 200) : js_scope.
Notation "c ;;; k" := (bind c (fun _ => k))
  (at level 100, k at level 200, right associativity) : js_scope.
Open Scope js_scope.

(** ToString, over the host's number formatting. *)
Fixpoint js_to_string (numstr : JsNum -> string) (v : JsVal) : string :=
  match v with
  | JUndefined => "undefined"
  | JNull => "null"
  | JBool true => "true"
  | JBool false => "false"
  | JNum n => numstr n
  | JStr s => s
  | JArr items =>
      (fix join (l : list JsVal) : string :=
         match l with
         | [] => ""
         | x :: rest =>
             match x with
             | JUndefined | JNull => ""
             | _ => js_to_string numstr x
             end
             +:+ match rest with
                 | [] => ""
                 | _ :: _ => "," +:+ join rest
                 end
         end) items
  | JObj _ => "[object Object]"
  end.

Definition quote : string := String "034"%char EmptyString.

(** ** LaikaTestClient *)

(** The [options] object of [trackOutcome] and its wrappers, of the declared
    type [TrackingOptions]; a field left out is [None] for the identifiers
    and [JUndefined] for the values.  [null] passed in place of the object,
    which the destructuring of [trackOutcome] answers with a [TypeError], is
    not a value of this type. *)
Record TrackingOptions : Type := mkTracking {
  t_experimentId : Ident;
  t_userId : Ident;
  t_sessionId : Ident;
  t_score : JsVal;
  t_userFeedback : JsVal;
  t_assignmentId : Ident
}.

(** The [filters] object of [getExperimentEvents], of the declared type
    [EventFilters]: the dates are strings or are left out.  [null] in place
    of the object and a date that is not a string, both of which the source
    answers with a [TypeError], are not values of this type. *)
Record EventFilters : Type := mkFilters {
  f_startDate : Ident;
  f_endDate : Ident;
  f_userId : Ident;
  f_sessionId : Ident;
  f_minScore : JsVal;
  f_maxScore : JsVal;
  f_feedback : Ident;
  f_outcome : JsVal;
  f_page : JsVal;
  f_limit : JsVal
}.

(** The [options] object of the constructor. *)
Record ClientOptions : Type := mkOptions {
  o_baseUrl : Ident;
  o_timeout : option Z;
  o_cacheTtl : option Z
}.

(** [isNaN(date.getTime())]: the time value of an invalid date is [NaN]. *)
Definition time_isNaN (time : option Z) : bool :=
  match time with
  | None => true
  | Some _ => false
  end.

(** [n || fallback] for an optional number: absent and zero are falsy. *)
Definition number_or (n : option Z) (fallback : Z) : Z :=
  match n with
  | Some z => if z =? 0 then fallback else z
  | None => fallback
  end.

(** A destructuring default: it applies to [undefined] only. *)
Definition default_to (v fallback : JsVal) : JsVal :=
  match v with JUndefined => fallback | _ => v end.

Module LaikaTestClient.

(** [constructor(apiKey, options = {})], started at time [now] with
    nothing sent yet. *)
Definition new (now : Z) (key : Ident) (options : ClientOptions) : Result World :=
  if negb (present key) then Throw (ValidationError "API key is required")
  else
    let ttlMs := number_or (o_cacheTtl options) (30 * 60 * 1000) in
    Ok {| config := {| apiKey := ident_or key "";
                       baseUrl := ident_or (o_baseUrl options) "https://api.laikatest.com";
                       timeout := number_or (o_timeout options) 10000;
                       cacheTtl := ttlMs |};
          assignmentCache := AssignmentCache.new (Some ttlMs);
          cleanupInterval := true;
          clock := now;
          requests := [] |}.

(** [this.assignmentCache.get(...)] at the current time. *)
Definition cache_get (experimentId : string) (userId sessionId : Ident) : M JsVal :=
  fun w =>
    let (v, c) := AssignmentCache.get (clock w) experimentId userId sessionId
                    (assignmentCache w) in
    (Ok v, set_cache c w).

(** [this.assignmentCache.store(...)] at the current time. *)
Definition cache_store (experimentId : string) (userId sessionId : Ident)
    (a : JsVal) : M unit :=
  fun w =>
    (Ok tt, set_cache (AssignmentCache.store (clock w) experimentId userId sessionId a
                         (assignmentCache w)) w).

(** [v.name] inside a method. *)
Definition prop (v : JsVal) (name : string) : M JsVal := lift (get_prop v name).

(** The callback of the cleanup interval, when the timer fires. *)
Definition on_cleanup_interval : M unit :=
  fun w =>
    if cleanupInterval w
    then (Ok tt, set_cache (AssignmentCache.cleanup (clock w) (assignmentCache w)) w)
    else (Ok tt, w).

Definition clearCache : M unit :=
  fun w => (Ok tt, set_cache (AssignmentCache.clear (assignmentCache w)) w).

Definition destroy : M unit :=
  fun w =>
    clearCache {| config := config w; assignmentCache := assignmentCache w;
                  cleanupInterval := false; clock := clock w;
                  requests := requests w |}.

Section WithRuntime.

Variable rt : Runtime.

Definition to_string : JsVal -> string := js_to_string (Number_toString rt).

(** How the [end] handler settles the promise for a response.  The message
    of the error is the [error] of the body as a string; a body whose
    [error] is an object that cannot be converted to a string (it has a
    [toString] property of its own) is not told apart from other objects. *)
Definition settle (statusCode : Z) (body : option JsVal) : Result JsVal :=
  match body with
  | None => Throw (NetworkError "Invalid JSON response")
  | Some parsed =>
      if (200 <=? statusCode) && (statusCode <? 300) then Ok parsed
      else
        match get_prop parsed "error" with
        | Throw _ => Throw (NetworkError "Invalid JSON response")
        | Ok err =>
            let errorMessage :=
              if truthy err then to_string err
              else "HTTP " +:+ to_string (JNum (num_of_Z statusCode)) in
            Throw (LaikaServiceError errorMessage (Some statusCode) (ResponseBody parsed))
        end
  end.

(** [_makeRequest(method, path, data = null)]: one exchange with the
    transport, logged, after which the clock has moved on. *)
Definition _makeRequest (method path : string) (data : JsVal) : M JsVal :=
  fun w =>
    let req := {| req_method := method;
                  req_base := baseUrl (config w);
                  req_path := path;
                  req_authorization := "Bearer " +:+ apiKey (config w);
                  req_timeout := timeout (config w);
                  req_data := data |} in
    let ex := http_request rt (clock w) (requests w) req in
    let w' := {| config := config w; assignmentCache := assignmentCache w;
                 cleanupInterval := cleanupInterval w;
                 clock := clock w + elapsed ex;
                 requests := requests w ++ [req] |} in
    match reply ex with
    | SetupFailure => (Throw TypeError, w')
    | ConnectionError => (Throw (NetworkError "Network request failed"), w')
    | TimedOut => (Throw (NetworkError "Request timeout"), w')
    | Response statusCode body => (settle statusCode body, w')
    end.

(** The [catch] clause every method ends with. *)
Definition rethrow_or_wrap {A : Type} (message : string) (error : JsError) : M A :=
  if is_ServiceError error || is_NetworkError error then throw error
  else throw (LaikaServiceError message None (Caught (error_name error))).

(** [!response.success || !response.data]. *)
Definition no_success_or_no_data (response : JsVal) : M bool :=
  let* success := prop response "success" in
  if negb (truthy success) then ret true
  else
    let* data := prop response "data" in
    ret (negb (truthy data)).

Definition prompt_path (experimentId : string) : string :=
  "/api/v1/experiments/" +:+ experimentId +:+ "/prompt".

Definition getPromptForUser (experimentId userId : Ident) : M JsVal :=
  if negb (present experimentId) then throw (ValidationError "experimentId is required")
  else if negb (present userId) then throw (ValidationError "userId is required")
  else
    let e := ident_or experimentId "" in
    let* cached := cache_get e userId None in
    if truthy cached then ret cached
    else
      let requestData :=
        JObj [("split_type", JStr "user"); ("user_id", JStr (ident_or userId ""))] in
      try_catch
        (let* response := _makeRequest "POST" (prompt_path e) requestData in
         let* invalid := no_success_or_no_data response in
         if (invalid : bool)
         then throw (LaikaServiceError "Invalid response format" None NoResponse)
         else
           let* data := prop response "data" in
           cache_store e userId None data ;;;
           ret data)
        (rethrow_or_wrap "Failed to get prompt assignment").

Definition getPromptForSession (experimentId sessionId : Ident) : M JsVal :=
  if negb (present experimentId) then throw (ValidationError "experimentId is required")
  else if negb (present sessionId) then throw (ValidationError "sessionId is required")
  else
    let e := ident_or experimentId "" in
    let* cached := cache_get e None sessionId in
    if truthy cached then ret cached
    else
      let requestData :=
        JObj [("split_type", JStr "session");
              ("session_id", JStr (ident_or sessionId ""))] in
      try_catch
        (let* response := _makeRequest "POST" (prompt_path e) requestData in
         let* invalid := no_success_or_no_data response in
         if (invalid : bool)
         then throw (LaikaServiceError "Invalid response format" None NoResponse)
         else
           let* data := prop response "data" in
           cache_store e None sessionId data ;;;
           ret data)
        (rethrow_or_wrap "Failed to get prompt assignment").

Definition getRandomPrompt (experimentId : Ident) : M JsVal :=
  if negb (present experimentId) then throw (ValidationError "experimentId is required")
  else
    let e := ident_or experimentId "" in
    let requestData := JObj [("split_type", JStr "random")] in
    try_catch
      (let* response := _makeRequest "POST" (prompt_path e) requestData in
       let* invalid := no_success_or_no_data response in
       if (invalid : bool)
       then throw (LaikaServiceError "Invalid response format" None NoResponse)
       else prop response "data")
      (rethrow_or_wrap "Failed to get prompt assignment").

Definition _findCachedAssignment (experimentId : string) (userId sessionId : Ident)
    : M JsVal :=
  let* exact := cache_get experimentId userId sessionId in
  if truthy exact then ret exact
  else
    let* byUser := (if present userId then cache_get experimentId userId None
                    else ret JNull) in
    if truthy byUser then ret byUser
    else
      let* bySession := (if present sessionId then cache_get experimentId None sessionId
                         else ret JNull) in
      if truthy bySession then ret bySession
      else ret JNull.

Definition outcome_message : string :=
  "outcome must be " +:+ quote +:+ "success" +:+ quote +:+ " or "
    +:+ quote +:+ "failure" +:+ quote.

Definition feedback_message : string :=
  "userFeedback must be " +:+ quote +:+ "positive" +:+ quote +:+ ", "
    +:+ quote +:+ "negative" +:+ quote +:+ ", or "
    +:+ quote +:+ "neutral" +:+ quote.

Definition not_found_message (experimentId : string) : string :=
  "No assignment found for experiment " +:+ experimentId
    +:+ ". Call getPrompt* method first.".

Definition identity_message : string :=
  "Either (assignmentId + experimentId) or (experimentId + userId/sessionId) must be provided".

(** The first part of [trackOutcome]: which assignment id goes into the
    event. *)
Definition resolve_assignment_id (options : TrackingOptions) : M JsVal :=
  let experimentId := t_experimentId options in
  let userId := t_userId options in
  let sessionId := t_sessionId options in
  let assignmentId := t_assignmentId options in
  if present assignmentId && present experimentId
  then ret (JStr (ident_or assignmentId ""))
  else if present experimentId && (present userId || present sessionId)
  then
    let e := ident_or experimentId "" in
    let* a := _findCachedAssignment e userId sessionId in
    if negb (truthy a)
    then throw (AssignmentNotFoundError (not_found_message e))
    else prop a "assignment_id"
  else throw (ValidationError identity_message).

Definition trackOutcome (outcome : JsVal) (options : TrackingOptions) : M JsVal :=
  if negb (truthy outcome) || negb (includes_val ["success"; "failure"] outcome)
  then throw (ValidationError outcome_message)
  else
    let score := t_score options in
    let userFeedback := t_userFeedback options in
    let* finalAssignmentId := resolve_assignment_id options in
    let eventData := [("assignment_id", finalAssignmentId); ("outcome", outcome)] in
    let* eventData :=
      (if is_defined score
       then
         if negb (is_number score) || val_lt score 0 || val_gt score 10
         then throw (ValidationError "score must be a number between 0 and 10")
         else ret (eventData ++ [("score", score)])
       else ret eventData) in
    let* eventData :=
      (if is_defined userFeedback
       then
         if negb (includes_val ["positive"; "negative"; "neutral"] userFeedback)
         then throw (ValidationError feedback_message)
         else ret (eventData ++ [("user_feedback", userFeedback)])
       else ret eventData) in
    try_catch
      (let* response := _makeRequest "POST" "/api/v1/events" (JObj eventData) in
       let* success := prop response "success" in
       if negb (truthy success)
       then throw (LaikaServiceError "Failed to track event" None NoResponse)
       else prop response "data")
      (rethrow_or_wrap "Failed to track outcome").

Definition trackSuccess (options : TrackingOptions) : M JsVal :=
  trackOutcome (JStr "success") options.

Definition trackFailure (options : TrackingOptions) : M JsVal :=
  trackOutcome (JStr "failure") options.

(** [{ ...options, userFeedback: feedback }]. *)
Definition with_userFeedback (feedback : JsVal) (options : TrackingOptions)
    : TrackingOptions :=
  {| t_experimentId := t_experimentId options;
     t_userId := t_userId options;
     t_sessionId := t_sessionId options;
     t_score := t_score options;
     t_userFeedback := feedback;
     t_assignmentId := t_assignmentId options |}.

Definition trackFeedback (feedback : JsVal) (options : TrackingOptions) : M JsVal :=
  trackOutcome (JStr "success") (with_userFeedback feedback options).

(** [_isValidISODate(dateString)]. *)
Definition _isValidISODate (dateString : string) : bool :=
  let date := Date_parse rt dateString in
  negb (time_isNaN date)
  && includes "T" dateString
  && (includes "Z" dateString || includes "+" dateString || includes "-" dateString).

(** [new Date(a) >= new Date(b)]: false as soon as one date is invalid. *)
Definition date_ge (a b : string) : bool :=
  match Date_parse rt a, Date_parse rt b with
  | Some x, Some y => x >=? y
  | _, _ => false
  end.

(** [if (value) queryParams.append(name, value)]. *)
Definition append_if_present (name : string) (value : Ident)
    (queryParams : list (string * string)) : list (string * string) :=
  if present value then queryParams ++ [(name, ident_or value "")] else queryParams.

(** [if (value !== undefined) queryParams.append(name, value.toString())]. *)
Definition append_if_defined (name : string) (value : JsVal)
    (queryParams : list (string * string)) : list (string * string) :=
  if is_defined value then queryParams ++ [(name, to_string value)] else queryParams.

(** The parameters appended to the query, in the order of the source. *)
Definition build_query (filters : EventFilters) (page limit : JsVal)
    : list (string * string) :=
  let queryParams := [] in
  let queryParams := append_if_present "start_date" (f_startDate filters) queryParams in
  let queryParams := append_if_present "end_date" (f_endDate filters) queryParams in
  let queryParams := append_if_present "user_id" (f_userId filters) queryParams in
  let queryParams := append_if_present "session_id" (f_sessionId filters) queryParams in
  let queryParams := append_if_defined "min_score" (f_minScore filters) queryParams in
  let queryParams := append_if_defined "max_score" (f_maxScore filters) queryParams in
  let queryParams := append_if_present "feedback" (f_feedback filters) queryParams in
  let queryParams :=
    if truthy (f_outcome filters)
    then queryParams ++ [("outcome", to_string (f_outcome filters))]
    else queryParams in
  queryParams ++ [("page", to_string page); ("limit", to_string limit)].

Definition events_path (experimentId : string) (queryParams : list (string * string))
    : string :=
  let queryString := URLSearchParams_toString rt queryParams in
  "/api/v1/experiments/" +:+ experimentId +:+ "/events"
    +:+ (if String.eqb queryString "" then "" else "?" +:+ queryString).

Definition iso_message (field : string) : string :=
  field +:+ " must be in ISO 8601 format (YYYY-MM-DDTHH:mm:ssZ)".

Definition getExperimentEvents (experimentId : Ident) (filters : EventFilters)
    : M JsVal :=
  if negb (present experimentId) then throw (ValidationError "experimentId is required")
  else
    let e := ident_or experimentId "" in
    let startDate := f_startDate filters in
    let endDate := f_endDate filters in
    let minScore := f_minScore filters in
    let maxScore := f_maxScore filters in
    let outcome := f_outcome filters in
    let page := default_to (f_page filters) (JNum (num_of_Z 1)) in
    let limit := default_to (f_limit filters) (JNum (num_of_Z 50)) in
    if negb (is_number page) || val_lt page 1
    then throw (ValidationError "page must be a positive number")
    else if negb (is_number limit) || val_lt limit 1 || val_gt limit 500
    then throw (ValidationError "limit must be a number between 1 and 500")
    else if present startDate && negb (_isValidISODate (ident_or startDate ""))
    then throw (ValidationError (iso_message "startDate"))
    else if present endDate && negb (_isValidISODate (ident_or endDate ""))
    then throw (ValidationError (iso_message "endDate"))
    else if present startDate && present endDate
            && date_ge (ident_or startDate "") (ident_or endDate "")
    then throw (ValidationError "startDate must be before endDate")
    else if is_defined minScore
            && (negb (is_number minScore) || val_lt minScore 0 || val_gt minScore 10)
    then throw (ValidationError "minScore must be a number between 0 and 10")
    else if is_defined maxScore
            && (negb (is_number maxScore) || val_lt maxScore 0 || val_gt maxScore 10)
    then throw (ValidationError "maxScore must be a number between 0 and 10")
    else if truthy outcome && negb (includes_val ["success"; "failure"] outcome)
    then throw (ValidationError outcome_message)
    else
      let path := events_path e (build_query filters page limit) in
      try_catch
        (let* response := _makeRequest "GET" path JNull in
         let* success := prop response "success" in
         if negb (truthy success)
         then throw (LaikaServiceError "Failed to fetch events" None NoResponse)
         else
           let* data := prop response "data" in
           let* meta := prop response "meta" in
           ret (JObj [("events", js_or data (JArr []));
                      ("meta", js_or meta
                                 (JObj [("total", JNum (num_of_Z 0));
                                        ("page", page);
                                        ("limit", limit)]))]))
        (rethrow_or_wrap "Failed to fetch experiment events").

End WithRuntime.

End LaikaTestClient.

(** ** A host to run the client on

    The test suite of the repository runs the client against a [MockServer]
    with canned responses.  The same is done here: a table of responses by
    method and path stands for the network, and the three built-in
    functions are given for the inputs the suite and the documentation
    use (date-time strings of the ISO format, numbers with a short decimal
    expansion, ASCII query parameters). *)

Module Host.

Definition digit_val (c : ascii) : option Z :=
  let n := nat_of_ascii c in
  if ((48 <=? n) && (n <=? 57))%nat then Some (Z.of_nat (n - 48)) else None.

Fixpoint read_digits (n : nat) (acc : Z) (s : string) : option (Z * string) :=
  match n with
  | O => Some (acc, s)
  | S n' =>
      match s with
      | String c rest => d ← digit_val c; read_digits n' (acc * 10 + d) rest
      | EmptyString => None
      end
  end.

Definition expect (c : ascii) (s : string) : option string :=
  match s with
  | String c' rest => if Ascii.eqb c c' then Some rest else None
  | EmptyString => None
  end.

Definition next_is (c : ascii) (s : string) : bool :=
  match s with
  | String c' _ => Ascii.eqb c c'
  | EmptyString => false
  end.

(** Days from 1970-01-01 to the given day of the proleptic Gregorian
    calendar. *)
Definition days_from_civil (y m d : Z) : Z :=
  let y' := if m <=? 2 then y - 1 else y in
  let era := y' / 400 in
  let yoe := y' - era * 400 in
  let doy := (153 * (if m >? 2 then m - 3 else m + 9) + 2) / 5 + d - 1 in
  let doe := yoe * 365 + yoe / 4 - yoe / 100 + doy in
  era * 146097 + doe - 719468.

Definition in_range (lo hi v : Z) : option unit :=
  if (lo <=? v) && (v <=? hi) then Some tt else None.

(** [-MM] and [-DD], each optional, defaulting to 1. *)
Definition read_month_day (s : string) : option (Z * Z * string) :=
  if next_is "-" s then
    s ← expect "-" s;
    '(m, s) ← read_digits 2 0 s;
    if next_is "-" s then
      s ← expect "-" s;
      '(d, s) ← read_digits 2 0 s;
      Some (m, d, s)
    else Some (m, 1, s)
  else Some (1, 1, s).

(** [:ss] and [.sss], each optional: the milliseconds they add. *)
Definition read_seconds (s : string) : option (Z * string) :=
  if next_is ":" s then
    s ← expect ":" s;
    '(sec, s) ← read_digits 2 0 s;
    _ ← in_range 0 59 sec;
    if next_is "." s then
      s ← expect "." s;
      '(ms, s) ← read_digits 3 0 s;
      Some (sec * 1000 + ms, s)
    else Some (sec * 1000, s)
  else Some (0, s).

(** [Z] or [+HH:mm] or [-HH:mm], or nothing for the local zone: the
    minutes to take off to reach UTC. *)
Definition read_offset (local : Z) (s : string) : option Z :=
  match s with
  | EmptyString => Some local
  | String c rest =>
      if Ascii.eqb c "Z" then
        match rest with EmptyString => Some 0 | _ => None end
      else if Ascii.eqb c "+" || Ascii.eqb c "-" then
        '(h, s) ← read_digits 2 0 rest;
        s ← expect ":" s;
        '(mi, s) ← read_digits 2 0 s;
        _ ← in_range 0 23 h;
        _ ← in_range 0 59 mi;
        match s with
        | EmptyString =>
            Some (if Ascii.eqb c "+" then h * 60 + mi else - (h * 60 + mi))
        | _ => None
        end
      else None
  end.

(** [Date.parse] on the date-time string format of the language, in a
    host whose local zone is [local] minutes east of UTC; anything else is
    not a date here. *)
Definition iso_parse (local : Z) (s : string) : option Z :=
  '(y, s) ← read_digits 4 0 s;
  '(m, d, s) ← read_month_day s;
  _ ← in_range 1 12 m;
  _ ← in_range 1 31 d;
  let day := days_from_civil y m d * 86400000 in
  match s with
  | EmptyString => Some day
  | String c rest =>
      if Ascii.eqb c "T" then
        '(h, s) ← read_digits 2 0 rest;
        s ← expect ":" s;
        '(mi, s) ← read_digits 2 0 s;
        _ ← in_range 0 23 h;
        _ ← in_range 0 59 mi;
        '(ms, s) ← read_seconds s;
        off ← read_offset local s;
        Some (day + h * 3600000 + mi * 60000 + ms - off * 60000)
      else None
  end.

Definition string_of_Z (z : Z) : string := NilZero.string_of_int (Z.to_int z).

Fixpoint fraction_digits (fuel : nat) (r d : Z) : string :=
  match fuel with
  | O => ""
  | S fuel' =>
      if r =? 0 then ""
      else string_of_Z (r * 10 / d) +:+ fraction_digits fuel' (r * 10 mod d) d
  end.

(** [n.toString()]: exact on integers and on fractions with at most twenty
    decimal digits. *)
Definition number_toString (n : JsNum) : string :=
  match n with
  | NaN => "NaN"
  | PosInf => "Infinity"
  | NegInf => "-Infinity"
  | Fin q =>
      let num := Qnum q in
      let den := Z.pos (Qden q) in
      let whole := Z.abs num / den in
      let r := Z.abs num mod den in
      (if (num <? 0) && negb ((whole =? 0) && (r =? 0)) then "-" else "")
        +:+ string_of_Z whole
        +:+ (if r =? 0 then "" else "." +:+ fraction_digits 20 r den)
  end.

Definition hex_digit (n : nat) : ascii :=
  ascii_of_nat (if (n <? 10)%nat then 48 + n else 55 + n).

(** One character of the [application/x-www-form-urlencoded] serializer. *)
Definition urlencode_char (c : ascii) : string :=
  let n := nat_of_ascii c in
  if ((48 <=? n) && (n <=? 57) || (65 <=? n) && (n <=? 90) || (97 <=? n) && (n <=? 122)
      || (n =? 42) || (n =? 45) || (n =? 46) || (n =? 95))%nat
  then String c EmptyString
  else if (n =? 32)%nat then "+"
  else String "%" (String (hex_digit (n / 16)) (String (hex_digit (n mod 16)) EmptyString)).

Fixpoint urlencode (s : string) : string :=
  match s with
  | EmptyString => ""
  | String c rest => urlencode_char c +:+ urlencode rest
  end.

Fixpoint searchParams_toString (params : list (string * string)) : string :=
  match params with
  | [] => ""
  | (k, v) :: rest =>
      urlencode k +:+ "=" +:+ urlencode v
        +:+ match rest with
            | [] => ""
            | _ :: _ => "&" +:+ searchParams_toString rest
            end
  end.

(** A canned answer of the mock server. *)
Inductive MockResponse : Type :=
| Canned (response : JsVal) (statusCode : Z)
| Failure.

Fixpoint lookup_response (key : string) (responses : list (string * MockResponse))
    : option MockResponse :=
  match responses with
  | [] => None
  | (k, r) :: rest => if String.eqb k key then Some r else lookup_response key rest
  end.

(** [path.split('?')[0]]. *)
Fixpoint before_query (path : string) : string :=
  match path with
  | EmptyString => ""
  | String c rest => if Ascii.eqb c "?" then "" else String c (before_query rest)
  end.

(** [MockServer.getResponse(path, method)]. *)
Definition getResponse (responses : list (string * MockResponse)) (path method : string)
    : option MockResponse :=
  match lookup_response (method +:+ ":" +:+ path) responses with
  | Some r => Some r
  | None =>
      if includes "?" path
      then lookup_response (method +:+ ":" +:+ before_query path) responses
      else None
  end.

(** The transport over a table of canned answers; every exchange takes
    [latency] milliseconds. *)
Definition mock_http (responses : list (string * MockResponse)) (latency : Z)
    (now : Z) (sent : list Request) (req : Request) : Exchange :=
  match getResponse responses (req_path req) (req_method req) with
  | None | Some Failure => {| reply := ConnectionError; elapsed := latency |}
  | Some (Canned response statusCode) =>
      {| reply := Response statusCode (Some response); elapsed := latency |}
  end.

Definition runtime (responses : list (string * MockResponse)) (latency : Z) : Runtime :=
  {| http_request := mock_http responses latency;
     Date_parse := iso_parse 0;
     Number_toString := number_toString;
     URLSearchParams_toString := searchParams_toString |}.

(** A server that gives the same answer to every request. *)
Definition constant_runtime (statusCode : Z) (body : JsVal) (latency : Z) : Runtime :=
  {| http_request := fun _ _ _ =>
       {| reply := Response statusCode (Some body); elapsed := latency |};
     Date_parse := iso_parse 0;
     Number_toString := number_toString;
     URLSearchParams_toString := searchParams_toString |}.

(** [createTestClient(mockServer)]: the client of the test suite, created
    at time [now]. *)
Definition test_world (now : Z) : World :=
  {| config := {| apiKey := "test-api-key"; baseUrl := "http://localhost:3001";
                  timeout := 1000; cacheTtl := 5000 |};
     assignmentCache := AssignmentCache.new (Some 5000);
     cleanupInterval := true;
     clock := now;
     requests := [] |}.

End Host.

(** ** What the specification calls things *)

(** An identifier as the key function sees it: absent and empty are the
    same. *)
Definition normalize (i : Ident) : Ident := if present i then i else None.

(** A string without the separator of the key. *)
Definition colon_free (s : string) : bool := negb (includes ":" s).

(** An identifier that is not the text of the sentinel. *)
Definition not_sentinel (i : Ident) : bool :=
  match i with
  | Some s => negb (String.eqb s "null")
  | None => true
  end.

Definition ident_colon_free (i : Ident) : bool :=
  match i with
  | Some s => colon_free s
  | None => true
  end.

(** What a [get] at time [now] answers, leaving aside what it does to the
    cache. *)
Definition peek (now : Z) (c : AssignmentCache.t) (experimentId : string)
    (userId sessionId : Ident) : JsVal :=
  fst (AssignmentCache.get now experimentId userId sessionId c).

(** The first truthy value of a list of lookups, or [null]. *)
Fixpoint first_match (candidates : list JsVal) : JsVal :=
  match candidates with
  | [] => JNull
  | v :: rest => if truthy v then v else first_match rest
  end.

(** The resolution order of the specification: the exact triple, then the
    user alone when there is a user, then the session alone when there is a
    session; the first match wins. *)
Definition resolution_order (now : Z) (c : AssignmentCache.t) (experimentId : string)
    (userId sessionId : Ident) : JsVal :=
  first_match
    ([peek now c experimentId userId sessionId]
       ++ (if present userId then [peek now c experimentId userId None] else [])
       ++ (if present sessionId then [peek now c experimentId None sessionId] else [])).

(** A live entry: stored under the key of the triple and not expired at
    [now]. *)
Definition live_entry (now : Z) (c : AssignmentCache.t) (experimentId : string)
    (userId sessionId : Ident) (a : JsVal) : Prop :=
  exists entry,
    AssignmentCache.cache c !! AssignmentCache._generateKey experimentId userId sessionId
      = Some entry
    /\ assignment entry = a
    /\ now <= expiresAt entry.

(** The checks of [trackOutcome], named. *)
Definition outcome_rejected (outcome : JsVal) : bool :=
  negb (truthy outcome) || negb (includes_val ["success"; "failure"] outcome).

Definition score_rejected (score : JsVal) : bool :=
  is_defined score && (negb (is_number score) || val_lt score 0 || val_gt score 10).

Definition feedback_rejected (userFeedback : JsVal) : bool :=
  is_defined userFeedback
  && negb (includes_val ["positive"; "negative"; "neutral"] userFeedback).

(** The checks of [getExperimentEvents] on [page] and [limit], named. *)
Definition page_rejected (page : JsVal) : bool :=
  negb (is_number page) || val_lt page 1.

Definition limit_rejected (limit : JsVal) : bool :=
  negb (is_number limit) || val_lt limit 1 || val_gt limit 500.

(** [v.name] is there and truthy. *)
Definition prop_truthy (v : JsVal) (name : string) : bool :=
  match get_prop v name with
  | Ok x => truthy x
  | Throw _ => false
  end.

Definition is_ok {A : Type} (r : Result A) : bool :=
  match r with Ok _ => true | Throw _ => false end.

Definition throws {A : Type} (r : Result A) (p : JsError -> bool) : bool :=
  match r with Ok _ => false | Throw e => p e end.

(** The two branches of [trackOutcome] that yield an assignment id. *)
Definition explicit_assignment (options : TrackingOptions) : bool :=
  present (t_assignmentId options) && present (t_experimentId options).

Definition has_identity (options : TrackingOptions) : bool :=
  present (t_experimentId options)
  && (present (t_userId options) || present (t_sessionId options)).

(** The assignment id that goes into the event, as a function of the cache
    found at time [now]. *)
Definition resolved_id (now : Z) (c : AssignmentCache.t) (options : TrackingOptions)
    : Result JsVal :=
  if explicit_assignment options
  then Ok (JStr (ident_or (t_assignmentId options) ""))
  else if has_identity options
  then
    let e := ident_or (t_experimentId options) "" in
    let a := resolution_order now c e (t_userId options) (t_sessionId options) in
    if truthy a then get_prop a "assignment_id"
    else Throw (AssignmentNotFoundError (LaikaTestClient.not_found_message e))
  else Throw (ValidationError LaikaTestClient.identity_message).

(** The body of the event that [trackOutcome] posts. *)
Definition event_data (finalAssignmentId outcome : JsVal) (options : TrackingOptions)
    : list (string * JsVal) :=
  [("assignment_id", finalAssignmentId); ("outcome", outcome)]
    ++ (if is_defined (t_score options) then [("score", t_score options)] else [])
    ++ (if is_defined (t_userFeedback options)
        then [("user_feedback", t_userFeedback options)] else []).

(** The request that a call of [_makeRequest] in world [w] hands to the
    transport, and the world after the exchange. *)
Definition request_of (w : World) (method path : string) (data : JsVal) : Request :=
  {| req_method := method;
     req_base := baseUrl (config w);
     req_path := path;
     req_authorization := "Bearer " +:+ apiKey (config w);
     req_timeout := timeout (config w);
     req_data := data |}.

Definition after_exchange (rt : Runtime) (w : World) (req : Request) : World :=
  {| config := config w; assignmentCache := assignmentCache w;
     cleanupInterval := cleanupInterval w;
     clock := clock w + elapsed (http_request rt (clock w) (requests w) req);
     requests := requests w ++ [req] |}.

(** What the promise of [_makeRequest] settles to, by the reply. *)
Definition settled (rt : Runtime) (r : Reply) : Result JsVal :=
  match r with
  | SetupFailure => Throw TypeError
  | ConnectionError => Throw (NetworkError "Network request failed")
  | TimedOut => Throw (NetworkError "Request timeout")
  | Response statusCode body => LaikaTestClient.settle rt statusCode body
  end.

(** The last block of [trackOutcome]: the event is posted and the envelope
    of the answer checked. *)
Definition post_event (rt : Runtime) (eventData : list (string * JsVal)) : M JsVal :=
  try_catch
    (let* response := LaikaTestClient._makeRequest rt "POST" "/api/v1/events"
                        (JObj eventData) in
     let* success := LaikaTestClient.prop response "success" in
     if negb (truthy success)
     then throw (LaikaServiceError "Failed to track event" None NoResponse)
     else LaikaTestClient.prop response "data")
    (LaikaTestClient.rethrow_or_wrap "Failed to track outcome").

(** Two worlds that differ in the contents of the cache at most, and there
    only by entries that a [get] at the present time would not return. *)
Definition same_but_evicted (w w' : World) : Prop :=
  exists c', w' = set_cache c' w
             /\ forall e u s, peek (clock w) c' e u s = peek (clock w) (assignmentCache w) e u s.

(** [a.assignment_id] of a value that has properties. *)
Definition assignment_id_of (a : JsVal) : JsVal :=
  match get_prop a "assignment_id" with
  | Ok v => v
  | Throw _ => JUndefined
  end.

(** A computation in which the cache plays no part: started on another
    cache it gives the same result and leaves that other cache in place. *)
Definition cache_oblivious {A : Type} (m : M A) : Prop :=
  forall w c, m (set_cache c w) = (fst (m w), set_cache c (snd (m w))).

(** [{ ...filters, page, limit }]. *)
Definition with_page_limit (page limit : JsVal) (filters : EventFilters) : EventFilters :=
  {| f_startDate := f_startDate filters;
     f_endDate := f_endDate filters;
     f_userId := f_userId filters;
     f_sessionId := f_sessionId filters;
     f_minScore := f_minScore filters;
     f_maxScore := f_maxScore filters;
     f_feedback := f_feedback filters;
     f_outcome := f_outcome filters;
     f_page := page;
     f_limit := limit |}.

(** No filter at all: [{}]. *)
Definition no_filters : EventFilters :=
  {| f_startDate := None; f_endDate := None; f_userId := None; f_sessionId := None;
     f_minScore := JUndefined; f_maxScore := JUndefined; f_feedback := None;
     f_outcome := JUndefined; f_page := JUndefined; f_limit := JUndefined |}.

(** [{ startDate }]. *)
Definition only_startDate (startDate : string) : EventFilters :=
  {| f_startDate := Some startDate; f_endDate := None; f_userId := None;
     f_sessionId := None; f_minScore := JUndefined; f_maxScore := JUndefined;
     f_feedback := None; f_outcome := JUndefined; f_page := JUndefined;
     f_limit := JUndefined |}.

(** ** Vocabulary for the rest of the cache and of the client *)

(** Time passing between two calls. *)
Definition advance (dt : Z) (w : World) : World :=
  {| config := config w; assignmentCache := assignmentCache w;
     cleanupInterval := cleanupInterval w; clock := clock w + dt;
     requests := requests w |}.

(** Every cached assignment is truthy. *)
Definition cache_truthy (c : AssignmentCache.t) : Prop :=
  forall key entry,
    AssignmentCache.cache c !! key = Some entry -> truthy (assignment entry) = true.

(** The four kinds of error the library declares. *)
Definition library_error (e : JsError) : bool :=
  is_ServiceError e || is_NetworkError e || is_ValidationError e
  || is_AssignmentNotFoundError e.

(** The bodies of the two requests that are cached. *)
Definition user_request (userId : Ident) : JsVal :=
  JObj [("split_type", JStr "user"); ("user_id", JStr (ident_or userId ""))].

Definition session_request (sessionId : Ident) : JsVal :=
  JObj [("split_type", JStr "session"); ("session_id", JStr (ident_or sessionId ""))].

(** The [try] block of [getPromptForUser] and [getPromptForSession]: the
    request, the check of the envelope, the store under the triple. *)
Definition fetch_and_store (rt : Runtime) (experimentId : string) (userId sessionId : Ident)
    (requestData : JsVal) : M JsVal :=
  try_catch
    (let* response := LaikaTestClient._makeRequest rt "POST"
                        (LaikaTestClient.prompt_path experimentId) requestData in
     let* invalid := LaikaTestClient.no_success_or_no_data response in
     if (invalid : bool)
     then throw (LaikaServiceError "Invalid response format" None NoResponse)
     else
       let* data := LaikaTestClient.prop response "data" in
       LaikaTestClient.cache_store experimentId userId sessionId data ;;;
       ret data)
    (LaikaTestClient.rethrow_or_wrap "Failed to get prompt assignment").

(** The reply of the transport to the request that a call of [_makeRequest]
    in world [w] makes. *)
Definition reply_to (rt : Runtime) (w : World) (method path : string) (data : JsVal)
    : Reply :=
  reply (http_request rt (clock w) (requests w) (request_of w method path data)).

(** A 2xx status. *)
Definition is_2xx (statusCode : Z) : bool := (200 <=? statusCode) && (statusCode <? 300).

(** [{ experimentId, assignmentId }] and the rest left out. *)
Definition explicit_options (experimentId assignmentId : string) : TrackingOptions :=
  {| t_experimentId := Some experimentId; t_userId := None; t_sessionId := None;
     t_score := JUndefined; t_userFeedback := JUndefined;
     t_assignmentId := Some assignmentId |}.

(** [{ experimentId, userId }] and the rest left out. *)
Definition user_options (experimentId userId : string) : TrackingOptions :=
  {| t_experimentId := Some experimentId; t_userId := Some userId; t_sessionId := None;
     t_score := JUndefined; t_userFeedback := JUndefined; t_assignmentId := None |}.

(** The date range check of [getExperimentEvents]. *)
Definition range_rejected (rt : Runtime) (filters : EventFilters) : bool :=
  present (f_startDate filters) && present (f_endDate filters)
  && LaikaTestClient.date_ge rt (ident_or (f_startDate filters) "")
       (ident_or (f_endDate filters) "").

(** The checks of [getExperimentEvents] on a score bound and on the outcome
    filter. *)
Definition bound_rejected (score : JsVal) : bool :=
  is_defined score && (negb (is_number score) || val_lt score 0 || val_gt score 10).

Definition outcome_filter_rejected (outcome : JsVal) : bool :=
  truthy outcome && negb (includes_val ["success"; "failure"] outcome).

(** The check of [getExperimentEvents] on a date filter. *)
Definition date_rejected (rt : Runtime) (date : Ident) : bool :=
  present date && negb (LaikaTestClient._isValidISODate rt (ident_or date "")).

(** The filters pass every check of [getExperimentEvents]. *)
Definition filters_accepted (rt : Runtime) (filters : EventFilters) : bool :=
  negb (page_rejected (default_to (f_page filters) (JNum (num_of_Z 1))))
  && negb (limit_rejected (default_to (f_limit filters) (JNum (num_of_Z 50))))
  && negb (date_rejected rt (f_startDate filters))
  && negb (date_rejected rt (f_endDate filters))
  && negb (range_rejected rt filters)
  && negb (bound_rejected (f_minScore filters))
  && negb (bound_rejected (f_maxScore filters))
  && negb (outcome_filter_rejected (f_outcome filters)).

(** The checks of [getExperimentEvents] that follow those on [page] and
    [limit]. *)
Definition other_filters_accepted (rt : Runtime) (filters : EventFilters) : bool :=
  negb (date_rejected rt (f_startDate filters))
  && negb (date_rejected rt (f_endDate filters))
  && negb (range_rejected rt filters)
  && negb (bound_rejected (f_minScore filters))
  && negb (bound_rejected (f_maxScore filters))
  && negb (outcome_filter_rejected (f_outcome filters)).

(** The request of [getExperimentEvents] for accepted filters. *)
Definition events_request (rt : Runtime) (w : World) (experimentId : string)
    (filters : EventFilters) : Request :=
  request_of w "GET"
    (LaikaTestClient.events_path rt experimentId
       (LaikaTestClient.build_query rt filters
          (default_to (f_page filters) (JNum (num_of_Z 1)))
          (default_to (f_limit filters) (JNum (num_of_Z 50)))))
    JNull.

(** What [getExperimentEvents] makes of a good envelope. *)
Definition normalized_events (envelope : JsVal) (filters : EventFilters) : JsVal :=
  JObj [("events", js_or (match get_prop envelope "data" with
                          | Ok v => v
                          | Throw _ => JUndefined
                          end) (JArr []));
        ("meta", js_or (match get_prop envelope "meta" with
                        | Ok v => v
                        | Throw _ => JUndefined
                        end)
                   (JObj [("total", JNum (num_of_Z 0));
                          ("page", default_to (f_page filters) (JNum (num_of_Z 1)));
                          ("limit", default_to (f_limit filters) (JNum (num_of_Z 50)))]))].

(** A computation that adds nothing to the cache and changes none of its
    entries: what is there afterwards was there before. *)
Definition cache_shrinks {A : Type} (m : M A) : Prop :=
  forall w,
    AssignmentCache.cache (assignmentCache (snd (m w)))
      ⊆ AssignmentCache.cache (assignmentCache w)
    /\ AssignmentCache.ttl (assignmentCache (snd (m w)))
       = AssignmentCache.ttl (assignmentCache w).

(** The [try] block of [getExperimentEvents]. *)
Definition events_block (rt : Runtime) (path : string) (page limit : JsVal) : M JsVal :=
  try_catch
    (let* response := LaikaTestClient._makeRequest rt "GET" path JNull in
     let* success := LaikaTestClient.prop response "success" in
     if negb (truthy success)
     then throw (LaikaServiceError "Failed to fetch events" None NoResponse)
     else
       let* data := LaikaTestClient.prop response "data" in
       let* meta := LaikaTestClient.prop response "meta" in
       ret (JObj [("events", js_or data (JArr []));
                  ("meta", js_or meta
                             (JObj [("total", JNum (num_of_Z 0));
                                    ("page", page);
                                    ("limit", limit)]))]))
    (LaikaTestClient.rethrow_or_wrap "Failed to fetch experiment events").

(** Tracking options that name an experiment and a user or a session, and
    no assignment. *)
Definition identity_only (options : TrackingOptions) : bool :=
  negb (present (t_assignmentId options)) && has_identity options.

(** ** The key function *)

Lemma includes_colon_cons (c : ascii) (s : string) :
  includes ":" (String c s) = false -> c <> ":"%char /\ includes ":" s = false.
Proof.
  cbn [includes starts_with]. destruct (Ascii.eqb_spec ":" c) as [Heq | Hne].
  - simpl. discriminate.
  - simpl. intros H. split; [congruence | exact H].
Qed.

Lemma append_nil_l (s : string) : "" +:+ s = s.
Proof. reflexivity. Qed.

Lemma append_cons (c : ascii) (a s : string) : String c a +:+ s = String c (a +:+ s).
Proof. reflexivity. Qed.

(** The first separator splits a string in one way only. *)
Lemma append_colon_inj (a b r1 r2 : string) :
  includes ":" a = false -> includes ":" b = false ->
  a +:+ ":" +:+ r1 = b +:+ ":" +:+ r2 -> a = b /\ r1 = r2.
Proof.
  revert b. induction a as [| c a IH]; intros [| d b] Ha Hb Heq;
    rewrite ?append_cons, ?append_nil_l in Heq.
  - split; [reflexivity | congruence].
  - apply includes_colon_cons in Hb as [Hd _]. congruence.
  - apply includes_colon_cons in Ha as [Hc _]. congruence.
  - apply includes_colon_cons in Ha as [_ Ha].
    apply includes_colon_cons in Hb as [_ Hb].
    injection Heq as Hcd Hrest.
    destruct (IH b Ha Hb Hrest) as [Hab Hr]. split; congruence.
Qed.

Lemma ident_or_colon_free (i : Ident) :
  ident_colon_free i = true -> includes ":" (ident_or i "null") = false.
Proof.
  destruct i as [s |]; simpl; [| reflexivity].
  unfold colon_free. intros H. destruct (String.eqb s ""); [reflexivity |].
  destruct (includes ":" s); [discriminate | reflexivity].
Qed.

Lemma ident_or_sentinel_inj (i j : Ident) :
  not_sentinel i = true -> not_sentinel j = true ->
  ident_or i "null" = ident_or j "null" -> normalize i = normalize j.
Proof.
  unfold normalize.
  destruct i as [s |], j as [t |]; simpl; intros Hi Hj Heq;
    repeat match goal with
           | |- context [String.eqb ?x ""] => destruct (String.eqb_spec x "")
           | H : context [String.eqb ?x ""] |- _ => destruct (String.eqb_spec x "")
           end; simpl in *; subst; try reflexivity; try discriminate;
    try (rewrite String.eqb_refl in *; discriminate).
Qed.

Lemma generateKey_inj (e1 e2 : string) (u1 s1 u2 s2 : Ident) :
  colon_free e1 = true -> colon_free e2 = true ->
  ident_colon_free u1 = true -> ident_colon_free u2 = true ->
  not_sentinel u1 = true -> not_sentinel u2 = true ->
  not_sentinel s1 = true -> not_sentinel s2 = true ->
  AssignmentCache._generateKey e1 u1 s1 = AssignmentCache._generateKey e2 u2 s2 ->
  e1 = e2 /\ normalize u1 = normalize u2 /\ normalize s1 = normalize s2.
Proof.
  unfold AssignmentCache._generateKey, colon_free.
  intros He1 He2 Hu1 Hu2 Nu1 Nu2 Ns1 Ns2 Heq.
  apply negb_true_iff in He1, He2.
  apply append_colon_inj in Heq as [-> Heq]; [| assumption | assumption].
  apply append_colon_inj in Heq as [Hu Hs]; try (apply ident_or_colon_free; assumption).
  repeat split; apply ident_or_sentinel_inj; assumption.
Qed.

(** C1, as stated, fails: the key is a concatenation, so an identifier that
    reads [null] collides with an absent one (a user-only triple and a
    session-only triple meet on the same key), and a colon inside an
    identifier moves the boundary between experiment and user. *)
Lemma generateKey_collisions :
  ("e1", Some "null", @None string) <> ("e1", @None string, Some "null")
  /\ AssignmentCache._generateKey "e1" (Some "null") None
     = AssignmentCache._generateKey "e1" None (Some "null")
  /\ ("a:b", Some "c", @None string) <> ("a", Some "b:c", @None string)
  /\ AssignmentCache._generateKey "a:b" (Some "c") None
     = AssignmentCache._generateKey "a" (Some "b:c") None.
Proof. repeat split; (discriminate || reflexivity). Qed.

(** C1, amended: [_generateKey] is a function of its three arguments that
    maps absent (and empty) identifiers to the sentinel [null]; on triples
    whose experiment and user identifiers contain no colon and whose user and
    session identifiers are not the text [null] it is injective, and there
    the keys of (e, u, absent), (e, absent, s) and (e, u, s) are pairwise
    different. *)
Theorem generateKey_injective_on_plain_identifiers
    (e1 e2 : string) (u1 s1 u2 s2 : Ident) :
  colon_free e1 = true -> colon_free e2 = true ->
  ident_colon_free u1 = true -> ident_colon_free u2 = true ->
  not_sentinel u1 = true -> not_sentinel u2 = true ->
  not_sentinel s1 = true -> not_sentinel s2 = true ->
  AssignmentCache._generateKey e1 u1 s1
    = AssignmentCache._generateKey e1 (normalize u1) (normalize s1)
  /\ AssignmentCache._generateKey e1 None None = e1 +:+ ":null:null"
  /\ ((e1, normalize u1, normalize s1) <> (e2, normalize u2, normalize s2) ->
      AssignmentCache._generateKey e1 u1 s1 <> AssignmentCache._generateKey e2 u2 s2)
  /\ (present u1 = true -> present s1 = true ->
      AssignmentCache._generateKey e1 u1 None <> AssignmentCache._generateKey e1 None s1
      /\ AssignmentCache._generateKey e1 u1 None <> AssignmentCache._generateKey e1 u1 s1
      /\ AssignmentCache._generateKey e1 None s1 <> AssignmentCache._generateKey e1 u1 s1).
Proof.
  intros He1 He2 Hu1 Hu2 Nu1 Nu2 Ns1 Ns2.
  split; [| split; [| split]].
  - unfold AssignmentCache._generateKey, normalize.
    destruct u1 as [a |], s1 as [b |]; simpl;
      repeat match goal with
             | |- context [String.eqb ?x ""] => destruct (String.eqb x "") eqn:?; simpl
             end; congruence.
  - reflexivity.
  - intros Hne Hkey. apply Hne.
    destruct (generateKey_inj e1 e2 u1 s1 u2 s2) as (-> & -> & ->); auto.
  - intros Pu Ps.
    assert (Hn : forall i : Ident, present i = true -> normalize i <> None).
    { intros i Hi. unfold normalize. rewrite Hi. destruct i; [discriminate |].
      discriminate Hi. }
    repeat split; intros Hkey.
    + destruct (generateKey_inj e1 e1 u1 None None s1) as (_ & Hu & _); auto.
      exact (Hn u1 Pu Hu).
    + destruct (generateKey_inj e1 e1 u1 None u1 s1) as (_ & _ & Hs); auto.
      symmetry in Hs. exact (Hn s1 Ps Hs).
    + destruct (generateKey_inj e1 e1 None s1 u1 s1) as (_ & Hu & _); auto.
      symmetry in Hu. exact (Hn u1 Pu Hu).
Qed.

Lemma generateKey_injective_on_plain_identifiers_witness :
  AssignmentCache._generateKey "exp1" (Some "user1") None
    <> AssignmentCache._generateKey "exp1" None (Some "session1")
  /\ AssignmentCache._generateKey "exp1" (Some "user1") None
     <> AssignmentCache._generateKey "exp1" (Some "user1") (Some "session1")
  /\ AssignmentCache._generateKey "exp1" None (Some "session1")
     <> AssignmentCache._generateKey "exp1" (Some "user1") (Some "session1").
Proof.
  apply (generateKey_injective_on_plain_identifiers
           "exp1" "exp1" (Some "user1") (Some "session1") (Some "user1") (Some "session1"));
    reflexivity.
Defined.

(** ** The cache *)

Lemma get_hit (now : Z) (e : string) (u s : Ident) (c : AssignmentCache.t)
    (entry : CacheEntry) :
  AssignmentCache.cache c !! AssignmentCache._generateKey e u s = Some entry ->
  now <= expiresAt entry ->
  AssignmentCache.get now e u s c = (assignment entry, c).
Proof.
  intros Hlook Hlive. unfold AssignmentCache.get. rewrite Hlook.
  destruct (Z.gtb_spec now (expiresAt entry)); [lia | reflexivity].
Qed.


Lemma get_miss (now : Z) (e : string) (u s : Ident) (c : AssignmentCache.t) :
  AssignmentCache.cache c !! AssignmentCache._generateKey e u s = None ->
  AssignmentCache.get now e u s c = (JNull, c).
Proof. intros Hlook. unfold AssignmentCache.get. rewrite Hlook. reflexivity. Qed.



(** ** The resolver *)

(** A [get] never changes what another [get] at the same time answers: it
    deletes at most an entry that was expired already. *)
Lemma peek_after_get (now : Z) (c : AssignmentCache.t) (e1 e2 : string)
    (u1 s1 u2 s2 : Ident) :
  peek now (snd (AssignmentCache.get now e1 u1 s1 c)) e2 u2 s2 = peek now c e2 u2 s2.
Proof.
  unfold peek, AssignmentCache.get.
  set (k1 := AssignmentCache._generateKey e1 u1 s1).
  set (k2 := AssignmentCache._generateKey e2 u2 s2).
  destruct (AssignmentCache.cache c !! k1) as [entry |] eqn:H1; [| reflexivity].
  destruct (Z.gtb_spec now (expiresAt entry)) as [Hexp | Hlive]; [| reflexivity].
  cbn [snd AssignmentCache.cache].
  destruct (decide (k1 = k2)) as [<- | Hne].
  - rewrite lookup_delete_eq, H1.
    destruct (Z.gtb_spec now (expiresAt entry)); [reflexivity | lia].
  - rewrite lookup_delete_ne by exact Hne.
    destruct (AssignmentCache.cache c !! k2) as [entry2 |]; [| reflexivity].
    destruct (now >? expiresAt entry2); reflexivity.
Qed.

Lemma cache_get_run (e : string) (u s : Ident) (w : World) :
  LaikaTestClient.cache_get e u s w
  = (Ok (peek (clock w) (assignmentCache w) e u s),
     set_cache (snd (AssignmentCache.get (clock w) e u s (assignmentCache w))) w).
Proof.
  unfold LaikaTestClient.cache_get, peek.
  destruct (AssignmentCache.get (clock w) e u s (assignmentCache w)); reflexivity.
Qed.

Lemma same_but_evicted_refl (w : World) : same_but_evicted w w.
Proof. exists (assignmentCache w). split; [destruct w; reflexivity | reflexivity]. Qed.

Lemma same_but_evicted_get (w w' : World) (e : string) (u s : Ident) :
  same_but_evicted w w' ->
  same_but_evicted w
    (set_cache (snd (AssignmentCache.get (clock w') e u s (assignmentCache w'))) w').
Proof.
  intros (c' & -> & Hpeek). simpl.
  exists (snd (AssignmentCache.get (clock w) e u s c')). split; [reflexivity |].
  intros e' u' s'. rewrite peek_after_get. apply Hpeek.
Qed.

Lemma same_but_evicted_requests (w w' : World) :
  same_but_evicted w w' ->
  requests w' = requests w /\ clock w' = clock w /\ config w' = config w.
Proof. intros (c' & -> & _). repeat split. Qed.

(** The resolver of the source returns what the resolution order of the
    specification says, computed on the cache as it was found, and leaves
    the world as it was up to the eviction of expired entries. *)
Lemma findCachedAssignment_run (e : string) (u s : Ident) (w : World) :
  exists w',
    LaikaTestClient._findCachedAssignment e u s w
    = (Ok (resolution_order (clock w) (assignmentCache w) e u s), w')
    /\ same_but_evicted w w'.
Proof.
  unfold LaikaTestClient._findCachedAssignment, resolution_order, bind, ret.
  rewrite cache_get_run.
  pose proof (same_but_evicted_get w w e u s (same_but_evicted_refl w)) as H1.
  set (w1 := set_cache _ w) in *.
  cbn [first_match app].
  destruct (truthy (peek (clock w) (assignmentCache w) e u s)); [eauto |].
  assert (Hsame1 : forall e' u' s',
             peek (clock w1) (assignmentCache w1) e' u' s'
             = peek (clock w) (assignmentCache w) e' u' s').
  { destruct H1 as (c' & Hw1 & Hp). rewrite Hw1. simpl. exact Hp. }
  destruct (present u) eqn:Pu.
  - rewrite cache_get_run, Hsame1.
    pose proof (same_but_evicted_get w w1 e u None H1) as H2.
    set (w2 := set_cache _ w1) in *.
    cbn [first_match app].
    destruct (truthy (peek (clock w) (assignmentCache w) e u None)); [eauto |].
    assert (Hsame2 : forall e' u' s',
               peek (clock w2) (assignmentCache w2) e' u' s'
               = peek (clock w) (assignmentCache w) e' u' s').
    { destruct H2 as (c' & Hw2 & Hp). rewrite Hw2. simpl. exact Hp. }
    destruct (present s) eqn:Ps.
    + rewrite cache_get_run, Hsame2.
      pose proof (same_but_evicted_get w w2 e None s H2) as H3.
      set (w3 := set_cache _ w2) in *.
      cbn [first_match app].
      destruct (truthy (peek (clock w) (assignmentCache w) e None s)); eauto.
    + cbn. eauto.
  - cbn [truthy first_match app].
    destruct (present s) eqn:Ps.
    + rewrite cache_get_run, Hsame1.
      pose proof (same_but_evicted_get w w1 e None s H1) as H3.
      set (w3 := set_cache _ w1) in *.
      cbn [first_match app].
      destruct (truthy (peek (clock w) (assignmentCache w) e None s)); eauto.
    + cbn. eauto.
Qed.

(** ** Tracking *)

Lemma makeRequest_run (rt : Runtime) (method path : string) (data : JsVal) (w : World) :
  LaikaTestClient._makeRequest rt method path data w
  = (settled rt (reply (http_request rt (clock w) (requests w)
                          (request_of w method path data))),
     after_exchange rt w (request_of w method path data)).
Proof.
  unfold LaikaTestClient._makeRequest, settled, after_exchange, request_of.
  destruct (reply _); reflexivity.
Qed.

Lemma resolve_assignment_id_run (options : TrackingOptions) (w : World) :
  exists w1,
    LaikaTestClient.resolve_assignment_id options w
    = (resolved_id (clock w) (assignmentCache w) options, w1)
    /\ same_but_evicted w w1
    /\ (explicit_assignment options = true \/ has_identity options = false -> w1 = w).
Proof.
  unfold LaikaTestClient.resolve_assignment_id, resolved_id, explicit_assignment,
    has_identity.
  destruct (present (t_assignmentId options) && present (t_experimentId options)) eqn:Hexp.
  - exists w. split; [reflexivity | split; [apply same_but_evicted_refl | auto]].
  - destruct (present (t_experimentId options)
              && (present (t_userId options) || present (t_sessionId options))) eqn:Hid.
    + destruct (findCachedAssignment_run (ident_or (t_experimentId options) "")
                  (t_userId options) (t_sessionId options) w) as (w1 & Hrun & Hsame).
      exists w1. unfold bind. rewrite Hrun.
      split; [| split; [exact Hsame | intros [H | H]; discriminate H]].
      destruct (truthy (resolution_order _ _ _ _ _)) eqn:Ht; simpl; [| reflexivity].
      unfold LaikaTestClient.prop, lift. reflexivity.
    + exists w. split; [reflexivity | split; [apply same_but_evicted_refl | auto]].
Qed.

Lemma trackOutcome_rejects_outcome (rt : Runtime) (outcome : JsVal)
    (options : TrackingOptions) (w : World) :
  outcome_rejected outcome = true ->
  LaikaTestClient.trackOutcome rt outcome options w
  = (Throw (ValidationError LaikaTestClient.outcome_message), w).
Proof.
  unfold outcome_rejected, LaikaTestClient.trackOutcome. intros ->. reflexivity.
Qed.

(** [trackOutcome] past the check of the outcome: the resolver runs, then
    the score and the feedback are checked, then the event is posted. *)
Lemma trackOutcome_after_resolution (rt : Runtime) (outcome : JsVal)
    (options : TrackingOptions) (w w1 : World) (r : Result JsVal) :
  outcome_rejected outcome = false ->
  LaikaTestClient.resolve_assignment_id options w = (r, w1) ->
  LaikaTestClient.trackOutcome rt outcome options w
  = match r with
    | Throw e => (Throw e, w1)
    | Ok id =>
        if score_rejected (t_score options)
        then (Throw (ValidationError "score must be a number between 0 and 10"), w1)
        else if feedback_rejected (t_userFeedback options)
        then (Throw (ValidationError LaikaTestClient.feedback_message), w1)
        else post_event rt (event_data id outcome options) w1
    end.
Proof.
  unfold outcome_rejected, LaikaTestClient.trackOutcome. intros -> Hres.
  unfold bind at 1. rewrite Hres. destruct r as [id | e]; [| reflexivity].
  unfold score_rejected, feedback_rejected, event_data, post_event.
  destruct (is_defined (t_score options)); simpl.
  - destruct (negb (is_number (t_score options)) || val_lt (t_score options) 0
              || val_gt (t_score options) 10); simpl; [reflexivity |].
    destruct (is_defined (t_userFeedback options)); simpl; [| reflexivity].
    destruct (negb (includes_val _ (t_userFeedback options))); reflexivity.
  - destruct (is_defined (t_userFeedback options)); simpl; [| reflexivity].
    destruct (negb (includes_val _ (t_userFeedback options))); reflexivity.
Qed.

(** Posting the event is one exchange with the transport and nothing else:
    the request is appended to the log and the cache is left alone. *)
Lemma post_event_run (rt : Runtime) (eventData : list (string * JsVal)) (w : World) :
  snd (post_event rt eventData w)
  = after_exchange rt w (request_of w "POST" "/api/v1/events" (JObj eventData)).
Proof.
  unfold post_event, try_catch, bind. rewrite makeRequest_run.
  destruct (settled rt _) as [response | e]; simpl.
  - unfold LaikaTestClient.prop, lift.
    destruct (get_prop response "success") as [success | e]; simpl.
    + destruct (truthy success); simpl.
      * destruct (get_prop response "data"); simpl; [reflexivity |].
        unfold LaikaTestClient.rethrow_or_wrap.
        destruct (is_ServiceError e || is_NetworkError e); reflexivity.
      * reflexivity.
    + unfold LaikaTestClient.rethrow_or_wrap.
      destruct (is_ServiceError e || is_NetworkError e); reflexivity.
  - unfold LaikaTestClient.rethrow_or_wrap.
    destruct (is_ServiceError e || is_NetworkError e); reflexivity.
Qed.

Lemma get_prop_truthy (a : JsVal) (name : string) :
  truthy a = true -> get_prop a name = Ok (match get_prop a name with
                                           | Ok v => v
                                           | Throw _ => JUndefined
                                           end).
Proof. destruct a; simpl; intros H; try discriminate H; reflexivity. Qed.

Lemma resolved_id_error (now : Z) (c : AssignmentCache.t) (options : TrackingOptions)
    (e : JsError) :
  resolved_id now c options = Throw e ->
  is_ValidationError e || is_AssignmentNotFoundError e = true.
Proof.
  unfold resolved_id.
  destruct (explicit_assignment options); [discriminate |].
  destruct (has_identity options).
  - destruct (truthy (resolution_order _ _ _ _ _)) eqn:Ht.
    + rewrite (get_prop_truthy _ _ Ht). discriminate.
    + intros [= <-]. reflexivity.
  - intros [= <-]. reflexivity.
Qed.

Lemma after_exchange_requests (rt : Runtime) (w : World) (req : Request) :
  requests (after_exchange rt w req) = requests w ++ [req]
  /\ assignmentCache (after_exchange rt w req) = assignmentCache w.
Proof. split; reflexivity. Qed.

Lemma request_of_evicted (w w1 : World) (method path : string) (data : JsVal) :
  same_but_evicted w w1 -> request_of w1 method path data = request_of w method path data.
Proof. intros (c' & -> & _). reflexivity. Qed.

(** Every call of [trackOutcome] ends in one of two ways: it throws a
    validation or a not-found error and nothing was sent, or every check
    passed and it is the posting of the event with the resolved id. *)
Lemma trackOutcome_cases (rt : Runtime) (outcome : JsVal) (options : TrackingOptions)
    (w : World) :
  (exists e w1,
      LaikaTestClient.trackOutcome rt outcome options w = (Throw e, w1)
      /\ is_ValidationError e || is_AssignmentNotFoundError e = true
      /\ same_but_evicted w w1)
  \/ (exists id w1,
        outcome_rejected outcome = false
        /\ score_rejected (t_score options) = false
        /\ feedback_rejected (t_userFeedback options) = false
        /\ resolved_id (clock w) (assignmentCache w) options = Ok id
        /\ same_but_evicted w w1
        /\ LaikaTestClient.trackOutcome rt outcome options w
           = post_event rt (event_data id outcome options) w1).
Proof.
  destruct (outcome_rejected outcome) eqn:Hout.
  - left. exists (ValidationError LaikaTestClient.outcome_message), w.
    split; [apply trackOutcome_rejects_outcome; exact Hout |].
    split; [reflexivity | apply same_but_evicted_refl].
  - destruct (resolve_assignment_id_run options w) as (w1 & Hres & Hsame & _).
    rewrite (trackOutcome_after_resolution rt outcome options w w1 _ Hout Hres).
    destruct (resolved_id (clock w) (assignmentCache w) options) as [id | e] eqn:Hid.
    + destruct (score_rejected (t_score options)) eqn:Hs.
      { left. eexists _, w1. split; [reflexivity | split; [reflexivity | exact Hsame]]. }
      destruct (feedback_rejected (t_userFeedback options)) eqn:Hf.
      { left. eexists _, w1. split; [reflexivity | split; [reflexivity | exact Hsame]]. }
      right. exists id, w1. repeat split; auto.
    + left. exists e, w1. split; [reflexivity |].
      split; [exact (resolved_id_error _ _ _ _ Hid) | exact Hsame].
Qed.

(** What a call of [trackOutcome] adds to the log: nothing, or the one
    event with the outcome and the options it was given. *)
Lemma trackOutcome_log (rt : Runtime) (outcome : JsVal) (options : TrackingOptions)
    (w : World) :
  requests (snd (LaikaTestClient.trackOutcome rt outcome options w)) = requests w
  \/ exists id,
      requests (snd (LaikaTestClient.trackOutcome rt outcome options w))
      = requests w ++ [request_of w "POST" "/api/v1/events"
                         (JObj (event_data id outcome options))].
Proof.
  destruct (trackOutcome_cases rt outcome options w)
    as [(e & w1 & Hrun & _ & Hsame) | (id & w1 & _ & _ & _ & _ & Hsame & Hrun)].
  - left. rewrite Hrun. simpl. apply (same_but_evicted_requests _ _ Hsame).
  - right. exists id. rewrite Hrun, post_event_run.
    rewrite (request_of_evicted w w1) by exact Hsame.
    cbn [requests after_exchange].
    destruct (same_but_evicted_requests _ _ Hsame) as (-> & _). reflexivity.
Qed.

Lemma peek_live (now : Z) (c : AssignmentCache.t) (e : string) (u s : Ident) (a : JsVal) :
  live_entry now c e u s a -> peek now c e u s = a.
Proof.
  intros (entry & Hlook & <- & Hlive). unfold peek.
  rewrite (get_hit now e u s c entry Hlook Hlive). reflexivity.
Qed.

Lemma has_identity_not_explicit (options : TrackingOptions) :
  present (t_assignmentId options) = false -> explicit_assignment options = false.
Proof. unfold explicit_assignment. intros ->. reflexivity. Qed.

(** C2: a call of [trackOutcome] with a valid outcome, no explicit
    assignment id, an experiment and at least one of user and session
    resolves the assignment from the cache in the order exact triple, user
    alone, session alone, and the first match wins; the event that is posted
    carries the assignment id of that match, so that when an exact-triple
    entry and a user-only entry both exist it is the id of the exact-triple
    entry that is sent. *)
Theorem trackOutcome_resolution_precedence
    (rt : Runtime) (outcome : JsVal) (options : TrackingOptions) (w : World) :
  outcome_rejected outcome = false ->
  present (t_assignmentId options) = false ->
  has_identity options = true ->
  let e := ident_or (t_experimentId options) "" in
  let u := t_userId options in
  let s := t_sessionId options in
  let found := resolution_order (clock w) (assignmentCache w) e u s in
  let posted a :=
    requests (snd (LaikaTestClient.trackOutcome rt outcome options w))
    = requests w ++ [request_of w "POST" "/api/v1/events"
                       (JObj (event_data (assignment_id_of a) outcome options))] in
  fst (LaikaTestClient._findCachedAssignment e u s w) = Ok found
  /\ (truthy found = true ->
      score_rejected (t_score options) = false ->
      feedback_rejected (t_userFeedback options) = false ->
      posted found)
  /\ (forall exact byUser,
        live_entry (clock w) (assignmentCache w) e u s exact ->
        truthy exact = true ->
        live_entry (clock w) (assignmentCache w) e u None byUser ->
        score_rejected (t_score options) = false ->
        feedback_rejected (t_userFeedback options) = false ->
        found = exact /\ posted exact).
Proof.
  intros Hout Hno Hid e u s found posted.
  assert (Hposted : truthy found = true ->
                    score_rejected (t_score options) = false ->
                    feedback_rejected (t_userFeedback options) = false ->
                    posted found).
  { intros Ht Hs Hf. subst posted. cbv beta.
    destruct (resolve_assignment_id_run options w) as (w1 & Hres & Hsame & _).
    rewrite (trackOutcome_after_resolution rt outcome options w w1 _ Hout Hres).
    unfold resolved_id. rewrite (has_identity_not_explicit _ Hno), Hid.
    fold e u s found. rewrite Ht, (get_prop_truthy _ _ Ht), Hs, Hf.
    rewrite post_event_run, (request_of_evicted w w1) by exact Hsame.
    cbn [requests after_exchange].
    destruct (same_but_evicted_requests _ _ Hsame) as (-> & _). reflexivity. }
  split; [| split].
  - destruct (findCachedAssignment_run e u s w) as (w1 & -> & _). reflexivity.
  - exact Hposted.
  - intros exact byUser Hexact Ht _ Hs Hf.
    assert (Hfound : found = exact).
    { subst found. unfold resolution_order. cbn [app first_match].
      rewrite (peek_live _ _ _ _ _ _ Hexact), Ht. reflexivity. }
    split; [exact Hfound |]. rewrite <- Hfound. apply Hposted; [| exact Hs | exact Hf].
    rewrite Hfound. exact Ht.
Qed.

Lemma trackOutcome_resolution_precedence_witness :
  let exact := JObj [("assignment_id", JStr "exact-1")] in
  let byUser := JObj [("assignment_id", JStr "user-1")] in
  let c := AssignmentCache.store 0 "e1" (Some "u1") (Some "s1") exact
             (AssignmentCache.store 0 "e1" (Some "u1") None byUser
                (AssignmentCache.new (Some 5000))) in
  let w := set_cache c (Host.test_world 10) in
  let options := mkTracking (Some "e1") (Some "u1") (Some "s1") JUndefined JUndefined None in
  requests (snd (LaikaTestClient.trackOutcome (Host.runtime [] 0) (JStr "success") options w))
  = [request_of w "POST" "/api/v1/events"
       (JObj [("assignment_id", JStr "exact-1"); ("outcome", JStr "success")])].
Proof.
  intros exact byUser c w options.
  refine (proj2 (proj2 (proj2 (trackOutcome_resolution_precedence
                                 (Host.runtime [] 0) (JStr "success") options w
                                 eq_refl eq_refl eq_refl))
                   exact byUser _ eq_refl _ eq_refl eq_refl)).
  - exists (mkEntry exact 5000). repeat split. vm_compute. discriminate.
  - exists (mkEntry byUser 5000). repeat split. vm_compute. discriminate.
Defined.

(** C5: a call of [trackOutcome] with a valid outcome, an experiment, a
    user or a session and no explicit assignment id, made when none of the
    three lookups finds a cached assignment, fails with
    [AssignmentNotFoundError]; nothing is handed to the transport, and the
    world is as before up to the eviction of expired entries. *)
Theorem trackOutcome_not_found_is_local
    (rt : Runtime) (outcome : JsVal) (options : TrackingOptions) (w : World) :
  outcome_rejected outcome = false ->
  present (t_assignmentId options) = false ->
  has_identity options = true ->
  let e := ident_or (t_experimentId options) "" in
  let u := t_userId options in
  let s := t_sessionId options in
  truthy (peek (clock w) (assignmentCache w) e u s) = false ->
  truthy (peek (clock w) (assignmentCache w) e u None) = false ->
  truthy (peek (clock w) (assignmentCache w) e None s) = false ->
  fst (LaikaTestClient.trackOutcome rt outcome options w)
  = Throw (AssignmentNotFoundError (LaikaTestClient.not_found_message e))
  /\ requests (snd (LaikaTestClient.trackOutcome rt outcome options w)) = requests w
  /\ same_but_evicted w (snd (LaikaTestClient.trackOutcome rt outcome options w)).
Proof.
  intros Hout Hno Hid e u s H1 H2 H3.
  destruct (resolve_assignment_id_run options w) as (w1 & Hres & Hsame & _).
  rewrite (trackOutcome_after_resolution rt outcome options w w1 _ Hout Hres).
  unfold resolved_id. rewrite (has_identity_not_explicit _ Hno), Hid.
  fold e u s.
  assert (Hnone : truthy (resolution_order (clock w) (assignmentCache w) e u s) = false).
  { unfold resolution_order.
    destruct (present u), (present s); cbn [app first_match];
      rewrite ?H1, ?H2, ?H3; reflexivity. }
  rewrite Hnone. cbn [fst snd].
  split; [reflexivity | split; [apply (same_but_evicted_requests _ _ Hsame) | exact Hsame]].
Qed.

Lemma trackOutcome_not_found_is_local_witness :
  let options := mkTracking (Some "exp-notfound") (Some "user-notfound") None
                   JUndefined JUndefined None in
  let r := LaikaTestClient.trackOutcome (Host.runtime [] 0) (JStr "success") options
             (Host.test_world 0) in
  fst r = Throw (AssignmentNotFoundError
                   "No assignment found for experiment exp-notfound. Call getPrompt* method first.")
  /\ requests (snd r) = [].
Proof.
  intros options r.
  destruct (trackOutcome_not_found_is_local (Host.runtime [] 0) (JStr "success") options
              (Host.test_world 0) eq_refl eq_refl eq_refl eq_refl eq_refl eq_refl)
    as (Hres & Hlog & _).
  split; [exact Hres | exact Hlog].
Defined.

(** C6, as stated, fails: the score is checked after the resolver has run.
    On the fresh client of the test suite a call with the score 15 for a
    user who has no cached assignment fails with [AssignmentNotFoundError],
    not with [ValidationError]; and when the user's entry has expired, the
    same call removes it from the cache on its way. *)
Lemma trackOutcome_score_checked_after_resolver :
  let options := mkTracking (Some "exp-1") (Some "user-1") None
                   (JNum (num_of_Z 15)) JUndefined None in
  let rt := Host.runtime [] 0 in
  score_rejected (t_score options) = true
  /\ fst (LaikaTestClient.trackOutcome rt (JStr "success") options (Host.test_world 0))
     = Throw (AssignmentNotFoundError
                "No assignment found for experiment exp-1. Call getPrompt* method first.")
  /\ let stale := set_cache
                    (AssignmentCache.store 0 "exp-1" (Some "user-1") None
                       (JObj [("assignment_id", JStr "a-1")])
                       (AssignmentCache.new (Some 5000)))
                    (Host.test_world 6000) in
     AssignmentCache.cache (assignmentCache stale) !! "exp-1:user-1:null"
       = Some (mkEntry (JObj [("assignment_id", JStr "a-1")]) 5000)
     /\ AssignmentCache.cache
          (assignmentCache
             (snd (LaikaTestClient.trackOutcome rt (JStr "success") options stale)))
          !! "exp-1:user-1:null" = None.
Proof. vm_compute. repeat split. Qed.

(** C6, amended: no call of [trackOutcome] with a rejected outcome, score
    or feedback hands anything to the transport.  A rejected outcome fails
    with [ValidationError] before the cache is touched.  The score and the
    feedback are checked once the assignment is resolved, the score first:
    the call fails with the [ValidationError] of the score or of the
    feedback when the assignment id is explicit (the cache is not touched)
    or is found in the cache; when it is not found the call fails with
    [AssignmentNotFoundError] in spite of the bad score or feedback, and
    when no identifiers are given, with the [ValidationError] that asks for
    them.  The lookups of the resolver evict at most entries that had
    expired. *)
Theorem trackOutcome_validation_never_reaches_network
    (rt : Runtime) (outcome : JsVal) (options : TrackingOptions) (w : World) :
  outcome_rejected outcome = true
  \/ score_rejected (t_score options) = true
  \/ feedback_rejected (t_userFeedback options) = true ->
  let r := LaikaTestClient.trackOutcome rt outcome options w in
  let e := ident_or (t_experimentId options) "" in
  let found := resolution_order (clock w) (assignmentCache w) e
                 (t_userId options) (t_sessionId options) in
  let rejection :=
    ValidationError (if score_rejected (t_score options)
                     then "score must be a number between 0 and 10"
                     else LaikaTestClient.feedback_message) in
  requests (snd r) = requests w
  /\ same_but_evicted w (snd r)
  /\ (throws (fst r) is_ValidationError = true
      \/ throws (fst r) is_AssignmentNotFoundError = true)
  /\ (outcome_rejected outcome = true ->
      fst r = Throw (ValidationError LaikaTestClient.outcome_message) /\ snd r = w)
  /\ (outcome_rejected outcome = false -> explicit_assignment options = true ->
      fst r = Throw rejection /\ snd r = w)
  /\ (outcome_rejected outcome = false -> explicit_assignment options = false ->
      has_identity options = true -> truthy found = true ->
      fst r = Throw rejection)
  /\ (outcome_rejected outcome = false -> explicit_assignment options = false ->
      has_identity options = true -> truthy found = false ->
      fst r = Throw (AssignmentNotFoundError (LaikaTestClient.not_found_message e)))
  /\ (outcome_rejected outcome = false -> explicit_assignment options = false ->
      has_identity options = false ->
      fst r = Throw (ValidationError LaikaTestClient.identity_message) /\ snd r = w).
Proof.
  intros Hbad r e found rejection. subst r.
  destruct (outcome_rejected outcome) eqn:Hout.
  - rewrite (trackOutcome_rejects_outcome rt outcome options w Hout). cbn [fst snd throws].
    repeat split; auto using same_but_evicted_refl; discriminate.
  - destruct Hbad as [Hbad | Hbad]; [discriminate Hbad |].
    destruct (resolve_assignment_id_run options w) as (w1 & Hres & Hsame & Hw1).
    rewrite (trackOutcome_after_resolution rt outcome options w w1 _ Hout Hres).
    assert (Hrej : forall id,
               (if score_rejected (t_score options)
                then (Throw (ValidationError "score must be a number between 0 and 10"), w1)
                else if feedback_rejected (t_userFeedback options)
                     then (Throw (ValidationError LaikaTestClient.feedback_message), w1)
                     else post_event rt (event_data id outcome options) w1)
               = (@Throw JsVal rejection, w1)).
    { intros id. subst rejection. destruct (score_rejected (t_score options)); [reflexivity |].
      destruct Hbad as [Hbad | Hbad]; [discriminate Hbad |]. rewrite Hbad. reflexivity. }
    destruct (resolved_id (clock w) (assignmentCache w) options) as [id | err] eqn:Hid.
    + rewrite (Hrej id). cbn [fst snd throws is_ValidationError].
      unfold resolved_id in Hid. fold e found in Hid.
      split; [apply (same_but_evicted_requests _ _ Hsame) |].
      split; [exact Hsame |].
      split; [left; reflexivity |].
      split; [discriminate |].
      split; [intros _ Hexp; split; [reflexivity | apply Hw1; left; exact Hexp] |].
      split; [reflexivity |].
      split.
      * intros _ Hexp Hident Ht. rewrite Hexp, Hident, Ht in Hid. discriminate Hid.
      * intros _ Hexp Hident. rewrite Hexp, Hident in Hid. discriminate Hid.
    + cbn [fst snd throws].
      pose proof (resolved_id_error _ _ _ _ Hid) as Hkind.
      unfold resolved_id in Hid. fold e found in Hid.
      split; [apply (same_but_evicted_requests _ _ Hsame) |].
      split; [exact Hsame |].
      split; [destruct err; simpl in Hkind; try discriminate Hkind; auto |].
      split; [discriminate |].
      split; [intros _ Hexp; rewrite Hexp in Hid; discriminate Hid |].
      split.
      * intros _ Hexp Hident Ht. rewrite Hexp, Hident, Ht in Hid.
        rewrite (get_prop_truthy _ _ Ht) in Hid. discriminate Hid.
      * split.
        -- intros _ Hexp Hident Ht. rewrite Hexp, Hident, Ht in Hid.
           injection Hid as <-. reflexivity.
        -- intros _ Hexp Hident. rewrite Hexp, Hident in Hid. injection Hid as <-.
           split; [reflexivity | apply Hw1; right; exact Hident].
Qed.

Lemma trackOutcome_validation_never_reaches_network_witness :
  let explicit := mkTracking (Some "exp-1") None None (JNum (num_of_Z 15)) JUndefined
                    (Some "assign-1") in
  let byUser := mkTracking (Some "exp-1") (Some "user-1") None (JNum (num_of_Z 15))
                  JUndefined None in
  let track options :=
    LaikaTestClient.trackOutcome (Host.runtime [] 0) (JStr "success") options
      (Host.test_world 0) in
  (requests (snd (track explicit)) = []
   /\ fst (track explicit)
      = Throw (ValidationError "score must be a number between 0 and 10"))
  /\ (requests (snd (track byUser)) = []
      /\ fst (track byUser)
         = Throw (AssignmentNotFoundError
                    "No assignment found for experiment exp-1. Call getPrompt* method first.")).
Proof.
  intros explicit byUser track. split.
  - destruct (trackOutcome_validation_never_reaches_network (Host.runtime [] 0)
                (JStr "success") explicit (Host.test_world 0)
                (or_intror (or_introl eq_refl)))
      as (Hlog & _ & _ & _ & Hexplicit & _).
    split; [exact Hlog | exact (proj1 (Hexplicit eq_refl eq_refl))].
  - destruct (trackOutcome_validation_never_reaches_network (Host.runtime [] 0)
                (JStr "success") byUser (Host.test_world 0)
                (or_intror (or_introl eq_refl)))
      as (Hlog & _ & _ & _ & _ & _ & Hmiss & _).
    split; [exact Hlog | exact (Hmiss eq_refl eq_refl eq_refl eq_refl)].
Defined.

(** C10: [trackFeedback] is [trackOutcome] with the outcome [success] and
    the options with [userFeedback] set to the feedback; whatever it hands
    to the transport is one event whose outcome is [success] and whose
    feedback is the one given, so it never records a failure. *)
Theorem trackFeedback_always_records_success
    (rt : Runtime) (feedback : JsVal) (options : TrackingOptions) (w : World) :
  LaikaTestClient.trackFeedback rt feedback options w
  = LaikaTestClient.trackOutcome rt (JStr "success")
      (LaikaTestClient.with_userFeedback feedback options) w
  /\ (requests (snd (LaikaTestClient.trackFeedback rt feedback options w)) = requests w
      \/ exists req,
          requests (snd (LaikaTestClient.trackFeedback rt feedback options w))
          = requests w ++ [req]
          /\ req_method req = "POST"
          /\ req_path req = "/api/v1/events"
          /\ get_prop (req_data req) "outcome" = Ok (JStr "success")
          /\ get_prop (req_data req) "outcome" <> Ok (JStr "failure")
          /\ get_prop (req_data req) "user_feedback" = Ok feedback
          /\ get_prop (req_data req) "score" = Ok (t_score options)).
Proof.
  split; [reflexivity |].
  unfold LaikaTestClient.trackFeedback.
  destruct (trackOutcome_log rt (JStr "success")
              (LaikaTestClient.with_userFeedback feedback options) w) as [Hlog | (id & Hlog)].
  - left. exact Hlog.
  - right. eexists. split; [exact Hlog |].
    cbn [req_method req_path req_data request_of].
    unfold event_data. cbn [t_score t_userFeedback LaikaTestClient.with_userFeedback].
    repeat split; try discriminate;
      destruct (t_score options), feedback; reflexivity.
Qed.

(** ** Fetching *)

Lemma oblivious_ret {A : Type} (a : A) : cache_oblivious (ret a).
Proof. intros w c. reflexivity. Qed.

Lemma oblivious_throw {A : Type} (e : JsError) : cache_oblivious (@throw A e).
Proof. intros w c. reflexivity. Qed.

Lemma oblivious_lift {A : Type} (r : Result A) : cache_oblivious (lift r).
Proof. intros w c. reflexivity. Qed.

Lemma oblivious_bind {A B : Type} (m : M A) (k : A -> M B) :
  cache_oblivious m -> (forall a, cache_oblivious (k a)) -> cache_oblivious (bind m k).
Proof.
  intros Hm Hk w c. unfold bind. rewrite Hm.
  destruct (m w) as [[a | e] w1]; cbn [fst snd]; [apply Hk | reflexivity].
Qed.

Lemma oblivious_try_catch {A : Type} (m : M A) (handler : JsError -> M A) :
  cache_oblivious m -> (forall e, cache_oblivious (handler e)) ->
  cache_oblivious (try_catch m handler).
Proof.
  intros Hm Hh w c. unfold try_catch. rewrite Hm.
  destruct (m w) as [[a | e] w1]; cbn [fst snd]; [reflexivity | apply Hh].
Qed.

Lemma oblivious_if {A : Type} (b : bool) (m1 m2 : M A) :
  cache_oblivious m1 -> cache_oblivious m2 -> cache_oblivious (if b then m1 else m2).
Proof. destruct b; auto. Qed.

Lemma oblivious_makeRequest (rt : Runtime) (method path : string) (data : JsVal) :
  cache_oblivious (LaikaTestClient._makeRequest rt method path data).
Proof.
  intros w c. unfold LaikaTestClient._makeRequest. destruct w; cbn.
  destruct (reply _); reflexivity.
Qed.

Lemma oblivious_rethrow_or_wrap {A : Type} (message : string) (e : JsError) :
  cache_oblivious (@LaikaTestClient.rethrow_or_wrap A message e).
Proof.
  unfold LaikaTestClient.rethrow_or_wrap. apply oblivious_if; apply oblivious_throw.
Qed.

Lemma oblivious_no_success_or_no_data (response : JsVal) :
  cache_oblivious (LaikaTestClient.no_success_or_no_data response).
Proof.
  unfold LaikaTestClient.no_success_or_no_data, LaikaTestClient.prop.
  apply oblivious_bind; [apply oblivious_lift |]. intros success.
  apply oblivious_if; [apply oblivious_ret |].
  apply oblivious_bind; [apply oblivious_lift |]. intros data. apply oblivious_ret.
Qed.

Lemma oblivious_getRandomPrompt (rt : Runtime) (experimentId : Ident) :
  cache_oblivious (LaikaTestClient.getRandomPrompt rt experimentId).
Proof.
  unfold LaikaTestClient.getRandomPrompt.
  apply oblivious_if; [apply oblivious_throw |].
  apply oblivious_try_catch; [| intros e; apply oblivious_rethrow_or_wrap].
  apply oblivious_bind; [apply oblivious_makeRequest |]. intros response.
  apply oblivious_bind; [apply oblivious_no_success_or_no_data |]. intros invalid.
  apply oblivious_if; [apply oblivious_throw | apply oblivious_lift].
Qed.

(** A computation in which the cache plays no part hands it back as it
    found it. *)
Lemma oblivious_cache_unchanged {A : Type} (m : M A) (w : World) :
  cache_oblivious m -> assignmentCache (snd (m w)) = assignmentCache w.
Proof.
  intros Hm. pose proof (Hm w (assignmentCache w)) as H.
  assert (Hw : set_cache (assignmentCache w) w = w) by (destruct w; reflexivity).
  rewrite Hw in H.
  destruct (m w) as [r w1]. cbn [fst snd] in *.
  injection H as H. rewrite H at 1. reflexivity.
Qed.

(** C4: [getRandomPrompt] neither reads nor writes the assignment cache.
    Started on any other cache it gives the same result and sends the same
    request; whether it succeeds or fails, the cache afterwards is the cache
    before, so every [get] answers as it did before the call, and on a
    client that had cached nothing every [get] still answers [null]. *)
Theorem getRandomPrompt_never_touches_cache
    (rt : Runtime) (experimentId : Ident) (w : World) :
  let r := LaikaTestClient.getRandomPrompt rt experimentId w in
  (forall c, LaikaTestClient.getRandomPrompt rt experimentId (set_cache c w)
             = (fst r, set_cache c (snd r)))
  /\ assignmentCache (snd r) = assignmentCache w
  /\ (forall now e u s,
        AssignmentCache.get now e u s (assignmentCache (snd r))
        = AssignmentCache.get now e u s (assignmentCache w))
  /\ (AssignmentCache.cache (assignmentCache w) = ∅ ->
      forall now e u s,
        fst (AssignmentCache.get now e u s (assignmentCache (snd r))) = JNull).
Proof.
  intros r. subst r.
  pose proof (oblivious_cache_unchanged _ w (oblivious_getRandomPrompt rt experimentId))
    as Hsame.
  split; [intros c; apply oblivious_getRandomPrompt |].
  split; [exact Hsame |].
  split; [intros now e u s; rewrite Hsame; reflexivity |].
  intros Hempty now e u s. rewrite Hsame. unfold AssignmentCache.get.
  rewrite Hempty, lookup_empty. reflexivity.
Qed.

Lemma getRandomPrompt_never_touches_cache_witness :
  let data := JObj [("prompt_content", JStr "Random prompt");
                    ("assignment_id", JStr "assign-random")] in
  let rt := Host.runtime
              [("POST:/api/v1/experiments/exp-random/prompt",
                Host.Canned (JObj [("success", JBool true); ("data", data)]) 200)] 0 in
  let r := LaikaTestClient.getRandomPrompt rt (Some "exp-random") (Host.test_world 0) in
  fst r = Ok data
  /\ fst (AssignmentCache.get 0 "exp-random" None None (assignmentCache (snd r))) = JNull.
Proof.
  intros data rt r. split; [reflexivity |].
  exact (proj2 (proj2 (proj2 (getRandomPrompt_never_touches_cache rt (Some "exp-random")
                                (Host.test_world 0))))
           eq_refl 0 "exp-random" None None).
Defined.

(** ** Envelopes *)

Lemma rethrow_or_wrap_service {A : Type} (message : string) (e : JsError) (w : World) :
  is_NetworkError e = false ->
  exists e', @LaikaTestClient.rethrow_or_wrap A message e w = (Throw e', w)
             /\ is_ServiceError e' = true.
Proof.
  unfold LaikaTestClient.rethrow_or_wrap, throw. intros Hnet. rewrite Hnet.
  destruct e; simpl in *; try discriminate Hnet; eauto.
Qed.

(** The [try] block of a fetch, with whatever it goes on to do with a good
    envelope: when the request is answered with a 2xx status and an envelope
    without a truthy [success] and a truthy [data], it throws a
    [LaikaServiceError], after the one exchange and nothing else. *)
Lemma fetch_block_bad_envelope (rt : Runtime) (statusCode : Z) (envelope : JsVal)
    (method path message : string) (data : JsVal) (k : JsVal -> M JsVal) (w : World) :
  reply_to rt w method path data = Response statusCode (Some envelope) ->
  is_2xx statusCode = true ->
  prop_truthy envelope "success" && prop_truthy envelope "data" = false ->
  exists e,
    try_catch
      (let* response := LaikaTestClient._makeRequest rt method path data in
       let* invalid := LaikaTestClient.no_success_or_no_data response in
       if (invalid : bool)
       then throw (LaikaServiceError "Invalid response format" None NoResponse)
       else k response)
      (LaikaTestClient.rethrow_or_wrap message) w
    = (Throw e, after_exchange rt w (request_of w method path data))
    /\ is_ServiceError e = true.
Proof.
  intros Hans Hst Hbad. unfold reply_to in Hans. unfold is_2xx in Hst.
  unfold try_catch, bind at 1. rewrite makeRequest_run, Hans.
  cbn [settled LaikaTestClient.settle]. rewrite Hst.
  unfold bind at 1.
  unfold LaikaTestClient.no_success_or_no_data, bind, ret, LaikaTestClient.prop, lift.
  unfold prop_truthy in Hbad.
  destruct (get_prop envelope "success") as [success | e] eqn:Hs.
  - destruct (truthy success) eqn:Ht; cbn [negb].
    + destruct (get_prop envelope "data") as [d | e] eqn:Hd.
      * cbn [andb] in Hbad. rewrite Hbad. cbn [negb].
        apply rethrow_or_wrap_service. reflexivity.
      * destruct envelope; discriminate.
    + apply rethrow_or_wrap_service. reflexivity.
  - destruct envelope; try discriminate; injection Hs as <-;
      apply rethrow_or_wrap_service; reflexivity.
Qed.

(** The last block of [getExperimentEvents]. *)
Lemma events_block_bad_envelope (rt : Runtime) (statusCode : Z) (envelope : JsVal)
    (path : string) (k : JsVal -> M JsVal) (w : World) :
  reply_to rt w "GET" path JNull = Response statusCode (Some envelope) ->
  is_2xx statusCode = true ->
  prop_truthy envelope "success" = false ->
  exists e,
    try_catch
      (let* response := LaikaTestClient._makeRequest rt "GET" path JNull in
       let* success := LaikaTestClient.prop response "success" in
       if negb (truthy success)
       then throw (LaikaServiceError "Failed to fetch events" None NoResponse)
       else k response)
      (LaikaTestClient.rethrow_or_wrap "Failed to fetch experiment events") w
    = (Throw e, after_exchange rt w (request_of w "GET" path JNull))
    /\ is_ServiceError e = true.
Proof.
  intros Hans Hst Hbad. unfold reply_to in Hans. unfold is_2xx in Hst.
  unfold try_catch, bind at 1. rewrite makeRequest_run, Hans.
  cbn [settled LaikaTestClient.settle]. rewrite Hst.
  unfold bind, LaikaTestClient.prop, lift. unfold prop_truthy in Hbad.
  destruct (get_prop envelope "success") as [success | e] eqn:Hs.
  - rewrite Hbad. cbn [negb]. apply rethrow_or_wrap_service. reflexivity.
  - destruct envelope; try discriminate; injection Hs as <-;
      apply rethrow_or_wrap_service; reflexivity.
Qed.

Lemma post_event_bad_envelope (rt : Runtime) (statusCode : Z) (envelope : JsVal)
    (eventData : list (string * JsVal)) (w : World) :
  reply_to rt w "POST" "/api/v1/events" (JObj eventData)
    = Response statusCode (Some envelope) ->
  is_2xx statusCode = true ->
  prop_truthy envelope "success" = false ->
  exists e,
    post_event rt eventData w
    = (Throw e, after_exchange rt w (request_of w "POST" "/api/v1/events" (JObj eventData)))
    /\ is_ServiceError e = true.
Proof.
  intros Hans Hst Hbad. unfold reply_to in Hans. unfold is_2xx in Hst.
  unfold post_event, try_catch, bind at 1.
  rewrite makeRequest_run, Hans. cbn [settled LaikaTestClient.settle]. rewrite Hst.
  unfold bind, LaikaTestClient.prop, lift. unfold prop_truthy in Hbad.
  destruct (get_prop envelope "success") as [success | e] eqn:Hs.
  - rewrite Hbad. cbn [negb]. apply rethrow_or_wrap_service. reflexivity.
  - destruct envelope; try discriminate; injection Hs as <-;
      apply rethrow_or_wrap_service; reflexivity.
Qed.

Lemma getExperimentEvents_cases (rt : Runtime) (experimentId : Ident)
    (filters : EventFilters) (w : World) :
  (exists m, LaikaTestClient.getExperimentEvents rt experimentId filters w
             = (Throw (ValidationError m), w))
  \/ exists path k,
      LaikaTestClient.getExperimentEvents rt experimentId filters w
      = try_catch
          (let* response := LaikaTestClient._makeRequest rt "GET" path JNull in
           let* success := LaikaTestClient.prop response "success" in
           if negb (truthy success)
           then throw (LaikaServiceError "Failed to fetch events" None NoResponse)
           else k response)
          (LaikaTestClient.rethrow_or_wrap "Failed to fetch experiment events") w.
Proof.
  unfold LaikaTestClient.getExperimentEvents.
  repeat match goal with
         | |- context [if ?b then throw (ValidationError ?m) else _] =>
             destruct b; [left; exists m; reflexivity |]
         end.
  right. eexists _, (fun response => _). reflexivity.
Qed.

(** C9, as stated, fails: the envelope is checked for truthiness.  With a
    2xx answer whose [success] is the number 1, not [true], a random fetch
    returns the data, and tracking and the events query return as well. *)
Lemma truthy_success_is_accepted :
  let data := JObj [("assignment_id", JStr "assign-1")] in
  let envelope := JObj [("success", JNum (num_of_Z 1)); ("data", data)] in
  let rt := Host.constant_runtime 200 envelope 0 in
  get_prop envelope "success" <> Ok (JBool true)
  /\ fst (LaikaTestClient.getRandomPrompt rt (Some "exp-1") (Host.test_world 0)) = Ok data
  /\ fst (LaikaTestClient.getPromptForUser rt (Some "exp-1") (Some "user-1")
            (Host.test_world 0)) = Ok data
  /\ fst (LaikaTestClient.trackOutcome rt (JStr "success")
            (mkTracking (Some "exp-1") None None JUndefined JUndefined (Some "assign-1"))
            (Host.test_world 0)) = Ok data
  /\ is_ok (fst (LaikaTestClient.getExperimentEvents rt (Some "exp-1")
                   (mkFilters None None None None JUndefined JUndefined None JUndefined
                      JUndefined JUndefined)
                   (Host.test_world 0))) = true.
Proof. vm_compute. repeat split. discriminate. Qed.

(** ** The events query *)

Lemma Qlt_bool_iff (a b : Q) : Qlt_bool a b = true <-> (a < b)%Q.
Proof.
  unfold Qlt_bool. rewrite negb_true_iff. split.
  - intros H. apply Qnot_le_lt. intros Hle. apply Qle_bool_iff in Hle. congruence.
  - intros H. destruct (Qle_bool b a) eqn:Hle; [| reflexivity].
    apply Qle_bool_iff in Hle. exfalso. exact (Qlt_not_le _ _ H Hle).
Qed.

(** C8, as stated, fails: the checks ask for a number, not for an integer.
    The page 1.5 and the limit 2.5 pass, are sent to the server, and come
    back in the default [meta]. *)
Lemma fractional_page_and_limit_accepted :
  let envelope := JObj [("success", JBool true); ("data", JArr [])] in
  let rt := Host.runtime
              [("GET:/api/v1/experiments/exp-123/events", Host.Canned envelope 200)] 0 in
  let filters := with_page_limit (JNum (Fin (3 # 2))) (JNum (Fin (5 # 2))) no_filters in
  let r := LaikaTestClient.getExperimentEvents rt (Some "exp-123") filters
             (Host.test_world 0) in
  fst r = Ok (JObj [("events", JArr []);
                    ("meta", JObj [("total", JNum (num_of_Z 0));
                                   ("page", JNum (Fin (3 # 2)));
                                   ("limit", JNum (Fin (5 # 2)))])])
  /\ map req_path (requests (snd r))
     = ["/api/v1/experiments/exp-123/events?page=1.5&limit=2.5"].
Proof. vm_compute. split; reflexivity. Qed.

(** The zone test of [_isValidISODate] looks for [Z], [+] or [-] anywhere
    in the string, and every date written with hyphens has one: a string
    that parses, has a [T] and has a hyphen is valid, zone or no zone. *)
Lemma isValidISODate_zone_check_vacuous (rt : Runtime) (dateString : string) (t : Z) :
  Date_parse rt dateString = Some t ->
  includes "T" dateString = true ->
  includes "-" dateString = true ->
  LaikaTestClient._isValidISODate rt dateString = true.
Proof.
  intros Hparse HT Hdash. unfold LaikaTestClient._isValidISODate.
  rewrite Hparse, HT, Hdash. cbn. apply orb_true_r.
Qed.

(** The part of the date check that does what it says: a start date that
    does not parse, or has no [T], or has none of [Z], [+] and [-], is
    rejected with [ValidationError] before anything is sent. *)
Lemma getExperimentEvents_rejects_startDate (rt : Runtime) (experimentId : Ident)
    (filters : EventFilters) (w : World) (startDate : string) :
  f_startDate filters = Some startDate ->
  startDate <> "" ->
  Date_parse rt startDate = None
  \/ includes "T" startDate = false
  \/ includes "Z" startDate || includes "+" startDate || includes "-" startDate = false ->
  throws (fst (LaikaTestClient.getExperimentEvents rt experimentId filters w))
    is_ValidationError = true
  /\ snd (LaikaTestClient.getExperimentEvents rt experimentId filters w) = w.
Proof.
  intros Hstart Hne Hbad. unfold LaikaTestClient.getExperimentEvents.
  destruct (present experimentId); cbn [negb]; [| split; reflexivity].
  destruct (negb (is_number _) || val_lt _ 1); [split; reflexivity |].
  destruct (negb (is_number _) || val_lt _ 1 || val_gt _ 500); [split; reflexivity |].
  rewrite Hstart. cbn [present ident_or].
  destruct (String.eqb_spec startDate ""); [contradiction |]. cbn [negb andb].
  assert (Hinvalid : LaikaTestClient._isValidISODate rt startDate = false).
  { unfold LaikaTestClient._isValidISODate.
    destruct Hbad as [-> | [-> | ->]]; cbn; rewrite ?andb_false_r; reflexivity. }
  rewrite Hinvalid. split; reflexivity.
Qed.

(** C7: a start date without a zone or offset marker is to be rejected
    with [ValidationError].  The source does not do so: [2024-01-15T10:00:00] parses, has
    a [T], and passes the zone test on the hyphens of its date, so the call
    goes to the server and returns its events. *)
Theorem getExperimentEvents_accepts_date_without_zone :
  let startDate := "2024-01-15T10:00:00" in
  let envelope := JObj [("success", JBool true); ("data", JArr [])] in
  let rt := Host.runtime
              [("GET:/api/v1/experiments/exp-123/events", Host.Canned envelope 200)] 0 in
  let r := LaikaTestClient.getExperimentEvents rt (Some "exp-123")
             (only_startDate startDate) (Host.test_world 0) in
  includes "Z" startDate || includes "+" startDate = false
  /\ LaikaTestClient._isValidISODate rt startDate = true
  /\ is_ok (fst r) = true
  /\ map req_path (requests (snd r))
     = ["/api/v1/experiments/exp-123/events?start_date=2024-01-15T10%3A00%3A00&page=1&limit=50"].
Proof. vm_compute. repeat split. Qed.

(** ** The test suite, replayed

    Some tests of [test.js], run on the embedding against the canned
    transport. *)

(** Test 4, "Assignment cache key generation". *)
Example test_key_generation :
  AssignmentCache._generateKey "exp1" (Some "user1") None = "exp1:user1:null"
  /\ AssignmentCache._generateKey "exp1" None (Some "session1") = "exp1:null:session1"
  /\ AssignmentCache._generateKey "exp1" (Some "user1") (Some "session1")
     = "exp1:user1:session1".
Proof. repeat split. Qed.

(** Test 9, "Assignment caching": the second fetch for the same user is
    answered from the cache, with no further request. *)
Example test_assignment_caching :
  let data := JObj [("prompt_content", JStr "Cached prompt");
                    ("assignment_id", JStr "cached-123")] in
  let rt := Host.runtime
              [("POST:/api/v1/experiments/exp-cache/prompt",
                Host.Canned (JObj [("success", JBool true); ("data", data)]) 200)] 5 in
  let first := LaikaTestClient.getPromptForUser rt (Some "exp-cache") (Some "user-cache")
                 (Host.test_world 0) in
  let second := LaikaTestClient.getPromptForUser rt (Some "exp-cache") (Some "user-cache")
                  (snd first) in
  fst first = Ok data
  /\ length (requests (snd first)) = 1%nat
  /\ fst second = Ok data
  /\ length (requests (snd second)) = 1%nat.
Proof. vm_compute. repeat split. Qed.

(** Test 10, "Event tracking with auto resolution". *)
Example test_tracking_with_auto_resolution :
  let data := JObj [("prompt_content", JStr "Test prompt");
                    ("assignment_id", JStr "track-123")] in
  let rt := Host.runtime
              [("POST:/api/v1/experiments/exp-track/prompt",
                Host.Canned (JObj [("success", JBool true); ("data", data)]) 200);
               ("POST:/api/v1/events",
                Host.Canned (JObj [("success", JBool true);
                                   ("data", JObj [("id", JStr "event-123")])]) 200)] 5 in
  let fetched := LaikaTestClient.getPromptForUser rt (Some "exp-track") (Some "user-track")
                   (Host.test_world 0) in
  let tracked := LaikaTestClient.trackSuccess rt
                   (mkTracking (Some "exp-track") (Some "user-track") None
                      (JNum (Fin (17 # 2))) (JStr "positive") None)
                   (snd fetched) in
  fst tracked = Ok (JObj [("id", JStr "event-123")])
  /\ map req_data (filter (fun r => req_path r = "/api/v1/events") (requests (snd tracked)))
     = [JObj [("assignment_id", JStr "track-123"); ("outcome", JStr "success");
              ("score", JNum (Fin (17 # 2))); ("user_feedback", JStr "positive")]].
Proof. vm_compute. repeat split. Qed.

(** Test 15, "Cache TTL and cleanup": with a time to live of 100 ms the
    assignment is there right after the fetch and gone 150 ms later. *)
Example test_cache_ttl :
  let data := JObj [("assignment_id", JStr "ttl-123")] in
  let rt := Host.runtime
              [("POST:/api/v1/experiments/exp-ttl/prompt",
                Host.Canned (JObj [("success", JBool true); ("data", data)]) 200)] 0 in
  let fetched := LaikaTestClient.getPromptForUser rt (Some "exp-ttl") (Some "user-ttl")
                   (set_cache (AssignmentCache.new (Some 100)) (Host.test_world 0)) in
  let c := assignmentCache (snd fetched) in
  fst (AssignmentCache.get 0 "exp-ttl" (Some "user-ttl") None c) = data
  /\ fst (AssignmentCache.get 150 "exp-ttl" (Some "user-ttl") None c) = JNull.
Proof. vm_compute. repeat split. Qed.

(** Test 17, "Get experiment events with filters". *)
Example test_events_with_filters :
  let rt := Host.runtime
              [("GET:/api/v1/experiments/exp-filters/events",
                Host.Canned (JObj [("success", JBool true); ("data", JArr []);
                                   ("meta", JObj [("total", JNum (num_of_Z 0));
                                                  ("page", JNum (num_of_Z 1));
                                                  ("limit", JNum (num_of_Z 25))])]) 200)]
              5 in
  let filters :=
    {| f_startDate := Some "2024-01-15T00:00:00Z"; f_endDate := Some "2024-01-16T00:00:00Z";
       f_userId := Some "user-123"; f_sessionId := None;
       f_minScore := JNum (num_of_Z 5); f_maxScore := JUndefined; f_feedback := None;
       f_outcome := JStr "success"; f_page := JNum (num_of_Z 1);
       f_limit := JNum (num_of_Z 25) |} in
  map req_path
    (requests (snd (LaikaTestClient.getExperimentEvents rt (Some "exp-filters") filters
                      (Host.test_world 0))))
  = ["/api/v1/experiments/exp-filters/events?start_date=2024-01-15T00%3A00%3A00Z&end_date=2024-01-16T00%3A00%3A00Z&user_id=user-123&min_score=5&outcome=success&page=1&limit=25"].
Proof. vm_compute. reflexivity. Qed.

(** Test 18, "Get experiment events validation". *)
Example test_events_validation :
  let rt := Host.runtime [] 0 in
  let run filters :=
    LaikaTestClient.getExperimentEvents rt (Some "exp-123") filters (Host.test_world 0) in
  fst (LaikaTestClient.getExperimentEvents rt (Some "") no_filters (Host.test_world 0))
  = Throw (ValidationError "experimentId is required")
  /\ fst (run (with_page_limit (JNum (num_of_Z 0)) JUndefined no_filters))
     = Throw (ValidationError "page must be a positive number")
  /\ fst (run (with_page_limit JUndefined (JNum (num_of_Z 1000)) no_filters))
     = Throw (ValidationError "limit must be a number between 1 and 500")
  /\ fst (run (only_startDate "invalid-date"))
     = Throw (ValidationError "startDate must be in ISO 8601 format (YYYY-MM-DDTHH:mm:ssZ)")
  /\ fst (run (only_startDate "2024-01-15"))
     = Throw (ValidationError "startDate must be in ISO 8601 format (YYYY-MM-DDTHH:mm:ssZ)").
Proof. vm_compute. repeat split. Qed.

(** ** More on the cache: overwriting, sweeping, reading twice *)

Lemma peek_lookup (now : Z) (c : AssignmentCache.t) (e : string) (u s : Ident) :
  peek now c e u s
  = match AssignmentCache.cache c !! AssignmentCache._generateKey e u s with
    | Some entry => if now >? expiresAt entry then JNull else assignment entry
    | None => JNull
    end.
Proof.
  unfold peek, AssignmentCache.get.
  destruct (AssignmentCache.cache c !! _) as [entry |]; [| reflexivity].
  destruct (now >? expiresAt entry); reflexivity.
Qed.

(** X1: the last [store] under a triple wins.  Two stores under the same
    triple leave the cache that the second alone would have left, so there
    is one entry for the triple, and a [get] within the time to live of the
    second store returns the second assignment. *)
Theorem store_last_write_wins
    (c : AssignmentCache.t) (t1 t2 : Z) (e : string) (u s : Ident) (a b : JsVal) :
  let c2 := AssignmentCache.store t2 e u s b (AssignmentCache.store t1 e u s a c) in
  c2 = AssignmentCache.store t2 e u s b c
  /\ (forall t, t <= t2 + AssignmentCache.ttl c -> AssignmentCache.get t e u s c2 = (b, c2)).
Proof.
  intros c2. subst c2. unfold AssignmentCache.store at 1 2 3. cbn.
  rewrite insert_insert_eq. split; [reflexivity |].
  intros t Ht.
  apply (get_hit t e u s _ (mkEntry b (t2 + AssignmentCache.ttl c))).
  - cbn. apply lookup_insert_eq.
  - cbn. lia.
Qed.

Lemma store_last_write_wins_witness :
  let c := AssignmentCache.new (Some 5000) in
  let c2 := AssignmentCache.store 20 "exp1" (Some "user1") None (JStr "second")
              (AssignmentCache.store 10 "exp1" (Some "user1") None (JStr "first") c) in
  AssignmentCache.get 30 "exp1" (Some "user1") None c2 = (JStr "second", c2).
Proof.
  intros c c2.
  apply (proj2 (store_last_write_wins c 10 20 "exp1" (Some "user1") None
                  (JStr "first") (JStr "second"))).
  cbn. lia.
Defined.

(** X2: a [store] under one key leaves the answer of [get] for every other
    key as it was. *)
Theorem store_leaves_other_keys
    (c : AssignmentCache.t) (now t : Z) (e e' : string) (u s u' s' : Ident) (a : JsVal) :
  AssignmentCache._generateKey e u s <> AssignmentCache._generateKey e' u' s' ->
  peek t (AssignmentCache.store now e u s a c) e' u' s' = peek t c e' u' s'.
Proof.
  intros Hne. rewrite !peek_lookup. unfold AssignmentCache.store. cbn.
  rewrite lookup_insert_ne by exact Hne. reflexivity.
Qed.

Lemma store_leaves_other_keys_witness :
  let c := AssignmentCache.store 0 "exp1" None (Some "session1") (JStr "kept")
             (AssignmentCache.new (Some 5000)) in
  peek 10 (AssignmentCache.store 5 "exp1" (Some "user1") None (JStr "new") c)
    "exp1" None (Some "session1")
  = peek 10 c "exp1" None (Some "session1").
Proof.
  intros c.
  apply (store_leaves_other_keys c 5 10 "exp1" "exp1" (Some "user1") None None
           (Some "session1") (JStr "new")).
  vm_compute. discriminate.
Defined.

Lemma cleanup_lookup (now : Z) (c : AssignmentCache.t) (key : string) (entry : CacheEntry) :
  AssignmentCache.cache (AssignmentCache.cleanup now c) !! key = Some entry
  <-> AssignmentCache.cache c !! key = Some entry /\ now <= expiresAt entry.
Proof.
  unfold AssignmentCache.cleanup. cbn. rewrite map_lookup_filter_Some. cbn.
  split; intros [H1 H2]; (split; [exact H1 | lia]).
Qed.

Lemma cleanup_lookup_None (now : Z) (c : AssignmentCache.t) (key : string) :
  AssignmentCache.cache (AssignmentCache.cleanup now c) !! key = None
  <-> forall entry, AssignmentCache.cache c !! key = Some entry -> expiresAt entry < now.
Proof.
  split.
  - intros Hnone entry Hlook.
    destruct (Z.lt_ge_cases (expiresAt entry) now) as [Hlt | Hge]; [exact Hlt |].
    assert (Hsome : AssignmentCache.cache (AssignmentCache.cleanup now c) !! key
                    = Some entry) by (apply cleanup_lookup; split; [exact Hlook | lia]).
    congruence.
  - intros Hall.
    destruct (AssignmentCache.cache (AssignmentCache.cleanup now c) !! key)
      as [entry |] eqn:Hlook; [| reflexivity].
    apply cleanup_lookup in Hlook as [Hlook Hlive].
    specialize (Hall entry Hlook). lia.
Qed.

(** X3: [cleanup] deletes exactly the expired entries.  After a sweep at
    time [now] an entry is in the cache if and only if it was there before
    and [now] is not past its expiry; the time to live is not touched, and
    nothing the sweep deleted could have been returned by a [get] at [now]
    or later. *)
Theorem cleanup_removes_exactly_expired (now : Z) (c : AssignmentCache.t) :
  (forall key entry,
      AssignmentCache.cache (AssignmentCache.cleanup now c) !! key = Some entry
      <-> AssignmentCache.cache c !! key = Some entry /\ now <= expiresAt entry)
  /\ AssignmentCache.ttl (AssignmentCache.cleanup now c) = AssignmentCache.ttl c
  /\ (forall t e u s,
        now <= t -> peek t (AssignmentCache.cleanup now c) e u s = peek t c e u s).
Proof.
  split; [intros key entry; apply cleanup_lookup |].
  split; [reflexivity |].
  intros t e u s Ht. rewrite !peek_lookup.
  set (key := AssignmentCache._generateKey e u s).
  destruct (AssignmentCache.cache c !! key) as [entry |] eqn:Hlook.
  - destruct (Z.lt_ge_cases (expiresAt entry) now) as [Hexp | Hlive].
    + assert (Hnone : AssignmentCache.cache (AssignmentCache.cleanup now c) !! key = None).
      { apply cleanup_lookup_None. intros entry' Hlook'. congruence. }
      rewrite Hnone. destruct (Z.gtb_spec t (expiresAt entry)); [reflexivity | lia].
    + assert (Hsome : AssignmentCache.cache (AssignmentCache.cleanup now c) !! key
                      = Some entry) by (apply cleanup_lookup; split; [exact Hlook | lia]).
      rewrite Hsome. reflexivity.
  - assert (Hnone : AssignmentCache.cache (AssignmentCache.cleanup now c) !! key = None).
    { apply cleanup_lookup_None. intros entry' Hlook'. congruence. }
    rewrite Hnone. reflexivity.
Qed.

Lemma cleanup_removes_exactly_expired_witness :
  let c := AssignmentCache.store 0 "exp1" (Some "old") None (JStr "stale")
             (AssignmentCache.store 4000 "exp1" (Some "new") None (JStr "fresh")
                (AssignmentCache.new (Some 5000))) in
  peek 6000 (AssignmentCache.cleanup 6000 c) "exp1" (Some "new") None
  = peek 6000 c "exp1" (Some "new") None.
Proof.
  intros c.
  apply (proj2 (proj2 (cleanup_removes_exactly_expired 6000 c))). lia.
Defined.

(** X4: sweeps compose.  A sweep after an earlier sweep leaves what the
    later sweep alone would have left, so sweeping twice at the same time is
    sweeping once; and after a sweep at [now] a [get] at [now] has nothing
    left to delete: it leaves the cache as it is. *)
Theorem cleanup_composes (t1 t2 : Z) (c : AssignmentCache.t) :
  t1 <= t2 ->
  AssignmentCache.cleanup t2 (AssignmentCache.cleanup t1 c) = AssignmentCache.cleanup t2 c
  /\ AssignmentCache.cleanup t2 (AssignmentCache.cleanup t2 c) = AssignmentCache.cleanup t2 c
  /\ (forall e u s,
        snd (AssignmentCache.get t2 e u s (AssignmentCache.cleanup t2 c))
        = AssignmentCache.cleanup t2 c).
Proof.
  intros Hle.
  assert (Hcomp : forall a b, a <= b ->
             AssignmentCache.cleanup b (AssignmentCache.cleanup a c)
             = AssignmentCache.cleanup b c).
  { intros a b Hab.
    assert (Hmap : AssignmentCache.cache
                     (AssignmentCache.cleanup b (AssignmentCache.cleanup a c))
                   = AssignmentCache.cache (AssignmentCache.cleanup b c)).
    { apply map_eq. intros key. apply option_eq. intros entry.
      rewrite !cleanup_lookup. split.
      - intros [[H1 _] H2]. split; assumption.
      - intros [H1 H2]. repeat split; [exact H1 | lia | exact H2]. }
    unfold AssignmentCache.cleanup in *. cbn in *. rewrite Hmap. reflexivity. }
  split; [apply Hcomp; exact Hle |].
  split; [apply Hcomp; lia |].
  intros e u s. unfold AssignmentCache.get.
  destruct (AssignmentCache.cache (AssignmentCache.cleanup t2 c) !! _) as [entry |] eqn:Hlook;
    [| reflexivity].
  apply cleanup_lookup in Hlook as [_ Hlive].
  destruct (Z.gtb_spec t2 (expiresAt entry)); [lia | reflexivity].
Qed.

Lemma cleanup_composes_witness :
  let c := AssignmentCache.store 0 "exp1" (Some "old") None (JStr "stale")
             (AssignmentCache.store 4000 "exp1" (Some "new") None (JStr "fresh")
                (AssignmentCache.new (Some 5000))) in
  AssignmentCache.cleanup 9500 (AssignmentCache.cleanup 6000 c)
  = AssignmentCache.cleanup 9500 c.
Proof.
  intros c. apply (proj1 (cleanup_composes 6000 9500 c ltac:(lia))).
Defined.

(** X5: a [get] deletes at most the entry it was asked for, and only when
    that entry has expired: every other key keeps its entry, the time to
    live is kept, and a second [get] for the same triple at the same time
    answers the same and changes nothing. *)
Theorem get_deletes_only_its_expired_key
    (now : Z) (e : string) (u s : Ident) (c : AssignmentCache.t) :
  let key := AssignmentCache._generateKey e u s in
  let c' := snd (AssignmentCache.get now e u s c) in
  (forall k, k <> key -> AssignmentCache.cache c' !! k = AssignmentCache.cache c !! k)
  /\ (AssignmentCache.cache c' !! key = AssignmentCache.cache c !! key
      \/ (AssignmentCache.cache c' !! key = None
          /\ exists entry, AssignmentCache.cache c !! key = Some entry
                           /\ expiresAt entry < now))
  /\ AssignmentCache.ttl c' = AssignmentCache.ttl c
  /\ AssignmentCache.get now e u s c' = (fst (AssignmentCache.get now e u s c), c').
Proof.
  intros key c'. subst c'. unfold AssignmentCache.get. fold key.
  destruct (AssignmentCache.cache c !! key) as [entry |] eqn:Hlook.
  - destruct (Z.gtb_spec now (expiresAt entry)) as [Hexp | Hlive]; cbn.
    + split; [intros k Hk; apply lookup_delete_ne; congruence |].
      split; [right; split; [apply lookup_delete_eq | eauto] |].
      split; [reflexivity |].
      rewrite lookup_delete_eq. reflexivity.
    + split; [reflexivity |]. split; [left; exact Hlook |]. split; [reflexivity |].
      rewrite Hlook. destruct (Z.gtb_spec now (expiresAt entry)); [lia | reflexivity].
  - cbn. split; [reflexivity |]. split; [left; exact Hlook |]. split; [reflexivity |].
    rewrite Hlook. reflexivity.
Qed.

Lemma get_deletes_only_its_expired_key_witness :
  let c := AssignmentCache.store 0 "exp1" (Some "old") None (JStr "stale")
             (AssignmentCache.store 4000 "exp1" (Some "new") None (JStr "fresh")
                (AssignmentCache.new (Some 5000))) in
  AssignmentCache.cache (snd (AssignmentCache.get 6000 "exp1" (Some "old") None c))
    !! "exp1:new:null"
  = AssignmentCache.cache c !! "exp1:new:null".
Proof.
  intros c.
  apply (proj1 (get_deletes_only_its_expired_key 6000 "exp1" (Some "old") None c)).
  discriminate.
Defined.

(** X6: what a [get] answers can only be lost with time.  For two times
    in order, the later [get] answers [null] or answers what the earlier one
    answered: an entry that is gone stays gone, and an entry that is still
    there has not changed. *)
Theorem get_answers_fade_with_time
    (t1 t2 : Z) (c : AssignmentCache.t) (e : string) (u s : Ident) :
  t1 <= t2 ->
  peek t2 c e u s = JNull \/ peek t2 c e u s = peek t1 c e u s.
Proof.
  intros Hle. rewrite !peek_lookup.
  destruct (AssignmentCache.cache c !! _) as [entry |]; [| left; reflexivity].
  destruct (Z.gtb_spec t2 (expiresAt entry)); [left; reflexivity |].
  destruct (Z.gtb_spec t1 (expiresAt entry)); [lia | right; reflexivity].
Qed.

Lemma get_answers_fade_with_time_witness :
  let c := AssignmentCache.store 0 "exp1" (Some "user1") None (JStr "a")
             (AssignmentCache.new (Some 100)) in
  peek 150 c "exp1" (Some "user1") None = JNull
  \/ peek 150 c "exp1" (Some "user1") None = peek 50 c "exp1" (Some "user1") None.
Proof.
  intros c. apply (get_answers_fade_with_time 50 150 c "exp1" (Some "user1") None). lia.
Defined.

(** ** Fetching through the cache *)

Lemma set_cache_same (w : World) : set_cache (assignmentCache w) w = w.
Proof. destruct w; reflexivity. Qed.

Lemma rethrow_or_wrap_kind {A : Type} (message : string) (e : JsError) (w : World) :
  exists e', @LaikaTestClient.rethrow_or_wrap A message e w = (Throw e', w)
             /\ is_ServiceError e' || is_NetworkError e' = true.
Proof.
  unfold LaikaTestClient.rethrow_or_wrap, throw.
  destruct (is_ServiceError e || is_NetworkError e) eqn:Hkind; eauto.
Qed.

(** Whatever a [try] block does, what comes out of the [catch] clause of
    the methods is a service error or a network error. *)
Lemma try_catch_kind {A : Type} (m : M A) (message : string) (w : World) (e : JsError) :
  fst (try_catch m (LaikaTestClient.rethrow_or_wrap message) w) = Throw e ->
  is_ServiceError e || is_NetworkError e = true.
Proof.
  unfold try_catch. destruct (m w) as [[a | e0] w1]; [discriminate |].
  destruct (rethrow_or_wrap_kind (A := A) message e0 w1) as (e' & -> & Hkind).
  intros [= <-]. exact Hkind.
Qed.

Lemma getPromptForUser_unfold (rt : Runtime) (experimentId userId : Ident) (w : World) :
  present experimentId = true -> present userId = true ->
  LaikaTestClient.getPromptForUser rt experimentId userId w
  = (let* cached := LaikaTestClient.cache_get (ident_or experimentId "") userId None in
     if truthy cached then ret cached
     else fetch_and_store rt (ident_or experimentId "") userId None
            (user_request userId)) w.
Proof.
  intros He Hu. unfold LaikaTestClient.getPromptForUser. rewrite He, Hu. reflexivity.
Qed.

Lemma getPromptForSession_unfold (rt : Runtime) (experimentId sessionId : Ident)
    (w : World) :
  present experimentId = true -> present sessionId = true ->
  LaikaTestClient.getPromptForSession rt experimentId sessionId w
  = (let* cached := LaikaTestClient.cache_get (ident_or experimentId "") None sessionId in
     if truthy cached then ret cached
     else fetch_and_store rt (ident_or experimentId "") None sessionId
            (session_request sessionId)) w.
Proof.
  intros He Hs. unfold LaikaTestClient.getPromptForSession. rewrite He, Hs. reflexivity.
Qed.

(** The block fetches and stores, or throws and stores nothing. *)
Lemma fetch_and_store_cases (rt : Runtime) (e : string) (u s : Ident) (requestData : JsVal)
    (w : World) :
  let w1 := after_exchange rt w
              (request_of w "POST" (LaikaTestClient.prompt_path e) requestData) in
  (exists err,
      fetch_and_store rt e u s requestData w = (Throw err, w1)
      /\ is_ServiceError err || is_NetworkError err = true)
  \/ (exists data,
        truthy data = true
        /\ fetch_and_store rt e u s requestData w
           = (Ok data,
              set_cache (AssignmentCache.store (clock w1) e u s data (assignmentCache w)) w1)).
Proof.
  intros w1. remember (fetch_and_store rt e u s requestData w) as r eqn:Hr.
  unfold fetch_and_store, try_catch, bind at 1 in Hr. rewrite makeRequest_run in Hr.
  fold w1 in Hr.
  destruct (settled rt _) as [response | e0].
  - unfold bind at 1 in Hr.
    unfold LaikaTestClient.no_success_or_no_data, bind at 1, ret,
      LaikaTestClient.prop, lift in Hr.
    destruct (get_prop response "success") as [success | e0] eqn:Hs.
    + destruct (truthy success); cbn [negb] in Hr.
      * unfold bind at 1 in Hr.
        destruct (get_prop response "data") as [data | e0] eqn:Hd.
        -- destruct (truthy data) eqn:Ht; cbn [negb] in Hr.
           ++ right. exists data. split; [exact Ht |]. rewrite Hr.
              unfold bind, LaikaTestClient.cache_store. reflexivity.
           ++ left. rewrite Hr. apply rethrow_or_wrap_kind.
        -- left. rewrite Hr. apply rethrow_or_wrap_kind.
      * left. rewrite Hr. apply rethrow_or_wrap_kind.
    + left. rewrite Hr. apply rethrow_or_wrap_kind.
  - left. rewrite Hr. apply rethrow_or_wrap_kind.
Qed.

(** The block on a good answer. *)
Lemma fetch_and_store_ok (rt : Runtime) (e : string) (u s : Ident) (requestData : JsVal)
    (w : World) (statusCode : Z) (envelope data : JsVal) :
  reply_to rt w "POST" (LaikaTestClient.prompt_path e) requestData
    = Response statusCode (Some envelope) ->
  is_2xx statusCode = true ->
  prop_truthy envelope "success" = true ->
  get_prop envelope "data" = Ok data ->
  truthy data = true ->
  let w1 := after_exchange rt w
              (request_of w "POST" (LaikaTestClient.prompt_path e) requestData) in
  fetch_and_store rt e u s requestData w
  = (Ok data, set_cache (AssignmentCache.store (clock w1) e u s data (assignmentCache w)) w1).
Proof.
  intros Hreply Hst Hsucc Hdata Ht w1.
  unfold reply_to in Hreply. unfold is_2xx in Hst. unfold prop_truthy in Hsucc.
  unfold fetch_and_store, try_catch, bind at 1. rewrite makeRequest_run, Hreply.
  cbn [settled LaikaTestClient.settle]. rewrite Hst.
  unfold bind at 1.
  unfold LaikaTestClient.no_success_or_no_data, bind at 1, ret, LaikaTestClient.prop, lift.
  destruct (get_prop envelope "success") as [success | e0]; [| discriminate Hsucc].
  rewrite Hsucc. cbn [negb]. unfold bind at 1. rewrite Hdata, Ht. cbn [negb].
  unfold bind, LaikaTestClient.cache_store. reflexivity.
Qed.

Lemma cache_get_live (e : string) (u s : Ident) (w : World) (a : JsVal) :
  live_entry (clock w) (assignmentCache w) e u s a ->
  LaikaTestClient.cache_get e u s w = (Ok a, w).
Proof.
  intros (entry & Hlook & <- & Hlive). unfold LaikaTestClient.cache_get.
  rewrite (get_hit _ _ _ _ _ entry Hlook Hlive). rewrite set_cache_same. reflexivity.
Qed.

Lemma getPromptForUser_hit (rt : Runtime) (experimentId userId : Ident) (w : World)
    (a : JsVal) :
  present experimentId = true -> present userId = true ->
  live_entry (clock w) (assignmentCache w) (ident_or experimentId "") userId None a ->
  truthy a = true ->
  LaikaTestClient.getPromptForUser rt experimentId userId w = (Ok a, w).
Proof.
  intros He Hu Hlive Ht. rewrite (getPromptForUser_unfold rt _ _ w He Hu).
  unfold bind. rewrite (cache_get_live _ _ _ _ _ Hlive), Ht. reflexivity.
Qed.

Lemma getPromptForSession_hit (rt : Runtime) (experimentId sessionId : Ident) (w : World)
    (a : JsVal) :
  present experimentId = true -> present sessionId = true ->
  live_entry (clock w) (assignmentCache w) (ident_or experimentId "") None sessionId a ->
  truthy a = true ->
  LaikaTestClient.getPromptForSession rt experimentId sessionId w = (Ok a, w).
Proof.
  intros He Hs Hlive Ht. rewrite (getPromptForSession_unfold rt _ _ w He Hs).
  unfold bind. rewrite (cache_get_live _ _ _ _ _ Hlive), Ht. reflexivity.
Qed.

(** X7: a fetch for a user, or for a session, whose assignment is in the
    cache and has not expired returns that assignment and does nothing else:
    no request is made and the world is left exactly as it was. *)
Theorem cached_fetch_is_served_locally
    (rt : Runtime) (experimentId : Ident) (w : World) (a : JsVal) :
  present experimentId = true ->
  truthy a = true ->
  let e := ident_or experimentId "" in
  (forall userId,
      present userId = true ->
      live_entry (clock w) (assignmentCache w) e userId None a ->
      LaikaTestClient.getPromptForUser rt experimentId userId w = (Ok a, w))
  /\ (forall sessionId,
        present sessionId = true ->
        live_entry (clock w) (assignmentCache w) e None sessionId a ->
        LaikaTestClient.getPromptForSession rt experimentId sessionId w = (Ok a, w)).
Proof.
  intros He Ht e. split.
  - intros u Hu Hlive. apply getPromptForUser_hit; assumption.
  - intros s Hs Hlive. apply getPromptForSession_hit; assumption.
Qed.

Lemma cached_fetch_is_served_locally_witness :
  let a := JObj [("assignment_id", JStr "cached-123")] in
  let w := set_cache (AssignmentCache.store 0 "exp-cache" (Some "user-cache") None a
                        (AssignmentCache.new (Some 5000)))
             (Host.test_world 100) in
  LaikaTestClient.getPromptForUser (Host.runtime [] 0) (Some "exp-cache")
    (Some "user-cache") w = (Ok a, w).
Proof.
  intros a w.
  apply (proj1 (cached_fetch_is_served_locally (Host.runtime [] 0) (Some "exp-cache") w a
                  eq_refl eq_refl) (Some "user-cache") eq_refl).
  exists (mkEntry a 5000). repeat split. vm_compute. discriminate.
Defined.

Lemma reply_to_set_cache (rt : Runtime) (c : AssignmentCache.t) (w : World)
    (method path : string) (data : JsVal) :
  reply_to rt (set_cache c w) method path data = reply_to rt w method path data.
Proof. reflexivity. Qed.

Lemma get_keeps_ttl (now : Z) (e : string) (u s : Ident) (c : AssignmentCache.t) :
  AssignmentCache.ttl (snd (AssignmentCache.get now e u s c)) = AssignmentCache.ttl c.
Proof.
  unfold AssignmentCache.get.
  destruct (AssignmentCache.cache c !! _) as [entry |]; [| reflexivity].
  destruct (now >? expiresAt entry); reflexivity.
Qed.

(** A miss followed by a good answer: the data is returned, one request
    was made, and the data sits in the cache under the triple until its time
    to live has passed. *)
Lemma fetch_through_cache_run (rt : Runtime) (e : string) (u s : Ident)
    (requestData : JsVal) (w : World) (statusCode : Z) (envelope data : JsVal) :
  truthy (peek (clock w) (assignmentCache w) e u s) = false ->
  reply_to rt w "POST" (LaikaTestClient.prompt_path e) requestData
    = Response statusCode (Some envelope) ->
  is_2xx statusCode = true ->
  prop_truthy envelope "success" = true ->
  get_prop envelope "data" = Ok data ->
  truthy data = true ->
  exists w2,
    (let* cached := LaikaTestClient.cache_get e u s in
     if truthy cached then ret cached
     else fetch_and_store rt e u s requestData) w
    = (Ok data, w2)
    /\ requests w2
       = requests w ++ [request_of w "POST" (LaikaTestClient.prompt_path e) requestData]
    /\ AssignmentCache.cache (assignmentCache w2) !! AssignmentCache._generateKey e u s
       = Some (mkEntry data (clock w2 + AssignmentCache.ttl (assignmentCache w)))
    /\ (forall dt, dt <= AssignmentCache.ttl (assignmentCache w) ->
          live_entry (clock (advance dt w2)) (assignmentCache (advance dt w2)) e u s data).
Proof.
  intros Hmiss Hreply Hst Hsucc Hdata Ht.
  unfold bind. rewrite cache_get_run, Hmiss.
  set (w0 := set_cache _ w).
  rewrite (fetch_and_store_ok rt e u s requestData w0 statusCode envelope data
             Hreply Hst Hsucc Hdata Ht).
  eexists. split; [reflexivity |].
  assert (Hlook : AssignmentCache.cache
                    (AssignmentCache.store
                       (clock (after_exchange rt w0
                                 (request_of w0 "POST" (LaikaTestClient.prompt_path e)
                                    requestData)))
                       e u s data (assignmentCache w0))
                    !! AssignmentCache._generateKey e u s
                  = Some (mkEntry data
                            (clock (after_exchange rt w0
                                      (request_of w0 "POST"
                                         (LaikaTestClient.prompt_path e) requestData))
                             + AssignmentCache.ttl (assignmentCache w)))).
  { unfold AssignmentCache.store. cbn [AssignmentCache.cache].
    rewrite lookup_insert_eq. subst w0. cbn [assignmentCache set_cache].
    rewrite get_keeps_ttl. reflexivity. }
  split; [reflexivity |].
  split; [exact Hlook |].
  intros dt Hdt. eexists. split; [exact Hlook |]. split; [reflexivity |].
  cbn [expiresAt clock advance set_cache]. lia.
Qed.

(** X8: the round trip of a user fetch.  On a miss that the server answers
    with a 2xx status, a truthy [success] and truthy [data], the call returns
    the data after exactly one request and stores it under
    (experiment, user, absent) with the expiry set to the time of the answer
    plus the time to live; and a second fetch for the same user, any time up
    to the time to live later, returns the same data without a request. *)
Theorem getPromptForUser_fetch_then_cached
    (rt : Runtime) (experimentId userId : Ident) (w : World)
    (statusCode : Z) (envelope data : JsVal) :
  present experimentId = true ->
  present userId = true ->
  let e := ident_or experimentId "" in
  let req := request_of w "POST" (LaikaTestClient.prompt_path e) (user_request userId) in
  truthy (peek (clock w) (assignmentCache w) e userId None) = false ->
  reply (http_request rt (clock w) (requests w) req) = Response statusCode (Some envelope) ->
  is_2xx statusCode = true ->
  prop_truthy envelope "success" = true ->
  get_prop envelope "data" = Ok data ->
  truthy data = true ->
  let r := LaikaTestClient.getPromptForUser rt experimentId userId w in
  fst r = Ok data
  /\ requests (snd r) = requests w ++ [req]
  /\ AssignmentCache.cache (assignmentCache (snd r))
       !! AssignmentCache._generateKey e userId None
     = Some (mkEntry data (clock (snd r) + AssignmentCache.ttl (assignmentCache w)))
  /\ (forall dt, dt <= AssignmentCache.ttl (assignmentCache w) ->
        LaikaTestClient.getPromptForUser rt experimentId userId (advance dt (snd r))
        = (Ok data, advance dt (snd r))).
Proof.
  intros He Hu e req Hmiss Hreply Hst Hsucc Hdata Ht r. subst r req e.
  rewrite (getPromptForUser_unfold rt _ _ w He Hu).
  destruct (fetch_through_cache_run rt (ident_or experimentId "") userId None
              (user_request userId) w
              statusCode envelope data Hmiss Hreply Hst Hsucc Hdata Ht)
    as (w2 & -> & Hlog & Hlook & Hlive).
  cbn [fst snd]. repeat split; try assumption.
  intros dt Hdt. apply getPromptForUser_hit; auto.
Qed.

Lemma getPromptForUser_fetch_then_cached_witness :
  let data := JObj [("prompt_content", JStr "Cached prompt");
                    ("assignment_id", JStr "cached-123")] in
  let envelope := JObj [("success", JBool true); ("data", data)] in
  let rt := Host.runtime
              [("POST:/api/v1/experiments/exp-cache/prompt", Host.Canned envelope 200)] 5 in
  let r := LaikaTestClient.getPromptForUser rt (Some "exp-cache") (Some "user-cache")
             (Host.test_world 0) in
  fst r = Ok data
  /\ LaikaTestClient.getPromptForUser rt (Some "exp-cache") (Some "user-cache")
       (advance 5000 (snd r))
     = (Ok data, advance 5000 (snd r)).
Proof.
  intros data envelope rt r.
  destruct (getPromptForUser_fetch_then_cached rt (Some "exp-cache") (Some "user-cache")
              (Host.test_world 0) 200 envelope data
              eq_refl eq_refl eq_refl eq_refl eq_refl eq_refl eq_refl eq_refl)
    as (Hres & _ & _ & Hagain).
  split; [exact Hres |]. apply Hagain. cbn. lia.
Defined.

(** X9: the round trip of a session fetch: as for a user, with the data
    stored under (experiment, absent, session). *)
Theorem getPromptForSession_fetch_then_cached
    (rt : Runtime) (experimentId sessionId : Ident) (w : World)
    (statusCode : Z) (envelope data : JsVal) :
  present experimentId = true ->
  present sessionId = true ->
  let e := ident_or experimentId "" in
  let req := request_of w "POST" (LaikaTestClient.prompt_path e)
               (session_request sessionId) in
  truthy (peek (clock w) (assignmentCache w) e None sessionId) = false ->
  reply (http_request rt (clock w) (requests w) req) = Response statusCode (Some envelope) ->
  is_2xx statusCode = true ->
  prop_truthy envelope "success" = true ->
  get_prop envelope "data" = Ok data ->
  truthy data = true ->
  let r := LaikaTestClient.getPromptForSession rt experimentId sessionId w in
  fst r = Ok data
  /\ requests (snd r) = requests w ++ [req]
  /\ AssignmentCache.cache (assignmentCache (snd r))
       !! AssignmentCache._generateKey e None sessionId
     = Some (mkEntry data (clock (snd r) + AssignmentCache.ttl (assignmentCache w)))
  /\ (forall dt, dt <= AssignmentCache.ttl (assignmentCache w) ->
        LaikaTestClient.getPromptForSession rt experimentId sessionId (advance dt (snd r))
        = (Ok data, advance dt (snd r))).
Proof.
  intros He Hs e req Hmiss Hreply Hst Hsucc Hdata Ht r. subst r req e.
  rewrite (getPromptForSession_unfold rt _ _ w He Hs).
  destruct (fetch_through_cache_run rt (ident_or experimentId "") None sessionId
              (session_request sessionId) w
              statusCode envelope data Hmiss Hreply Hst Hsucc Hdata Ht)
    as (w2 & -> & Hlog & Hlook & Hlive).
  cbn [fst snd]. repeat split; try assumption.
  intros dt Hdt. apply getPromptForSession_hit; auto.
Qed.

Lemma getPromptForSession_fetch_then_cached_witness :
  let data := JObj [("prompt_content", JStr "You are a session assistant");
                    ("assignment_id", JStr "assign-789")] in
  let envelope := JObj [("success", JBool true); ("data", data)] in
  let rt := Host.runtime
              [("POST:/api/v1/experiments/exp-456/prompt", Host.Canned envelope 200)] 5 in
  let r := LaikaTestClient.getPromptForSession rt (Some "exp-456") (Some "session-abc")
             (Host.test_world 0) in
  fst r = Ok data
  /\ LaikaTestClient.getPromptForSession rt (Some "exp-456") (Some "session-abc")
       (advance 100 (snd r))
     = (Ok data, advance 100 (snd r)).
Proof.
  intros data envelope rt r.
  destruct (getPromptForSession_fetch_then_cached rt (Some "exp-456") (Some "session-abc")
              (Host.test_world 0) 200 envelope data
              eq_refl eq_refl eq_refl eq_refl eq_refl eq_refl eq_refl eq_refl)
    as (Hres & _ & _ & Hagain).
  split; [exact Hres |]. apply Hagain. cbn. lia.
Defined.

(** ** What the operations do to the cache *)

Lemma shrinks_ret {A : Type} (a : A) : cache_shrinks (ret a).
Proof. intros w. split; reflexivity. Qed.

Lemma shrinks_throw {A : Type} (e : JsError) : cache_shrinks (@throw A e).
Proof. intros w. split; reflexivity. Qed.

Lemma shrinks_lift {A : Type} (r : Result A) : cache_shrinks (lift r).
Proof. intros w. split; reflexivity. Qed.

Lemma shrinks_bind {A B : Type} (m : M A) (k : A -> M B) :
  cache_shrinks m -> (forall a, cache_shrinks (k a)) -> cache_shrinks (bind m k).
Proof.
  intros Hm Hk w. unfold bind. specialize (Hm w).
  destruct (m w) as [[a | e] w1]; cbn [snd] in *; [| exact Hm].
  destruct Hm as [Hsub Httl]. destruct (Hk a w1) as [Hsub' Httl'].
  split; [etransitivity; eassumption | congruence].
Qed.

Lemma shrinks_try_catch {A : Type} (m : M A) (handler : JsError -> M A) :
  cache_shrinks m -> (forall e, cache_shrinks (handler e)) ->
  cache_shrinks (try_catch m handler).
Proof.
  intros Hm Hh w. unfold try_catch. specialize (Hm w).
  destruct (m w) as [[a | e] w1]; cbn [snd] in *; [exact Hm |].
  destruct Hm as [Hsub Httl]. destruct (Hh e w1) as [Hsub' Httl'].
  split; [etransitivity; eassumption | congruence].
Qed.

Lemma shrinks_if {A : Type} (b : bool) (m1 m2 : M A) :
  cache_shrinks m1 -> cache_shrinks m2 -> cache_shrinks (if b then m1 else m2).
Proof. destruct b; auto. Qed.

Lemma get_submap (now : Z) (e : string) (u s : Ident) (c : AssignmentCache.t) :
  AssignmentCache.cache (snd (AssignmentCache.get now e u s c)) ⊆ AssignmentCache.cache c.
Proof.
  unfold AssignmentCache.get.
  destruct (AssignmentCache.cache c !! _) as [entry |]; [| reflexivity].
  destruct (now >? expiresAt entry); cbn; [apply delete_subseteq | reflexivity].
Qed.

Lemma shrinks_cache_get (e : string) (u s : Ident) :
  cache_shrinks (LaikaTestClient.cache_get e u s).
Proof.
  intros w. rewrite cache_get_run. cbn [snd assignmentCache set_cache].
  split; [apply get_submap | apply get_keeps_ttl].
Qed.

Lemma shrinks_makeRequest (rt : Runtime) (method path : string) (data : JsVal) :
  cache_shrinks (LaikaTestClient._makeRequest rt method path data).
Proof. intros w. rewrite makeRequest_run. split; reflexivity. Qed.

Lemma shrinks_rethrow_or_wrap {A : Type} (message : string) (e : JsError) :
  cache_shrinks (@LaikaTestClient.rethrow_or_wrap A message e).
Proof.
  unfold LaikaTestClient.rethrow_or_wrap. apply shrinks_if; apply shrinks_throw.
Qed.

Lemma shrinks_no_success_or_no_data (response : JsVal) :
  cache_shrinks (LaikaTestClient.no_success_or_no_data response).
Proof.
  unfold LaikaTestClient.no_success_or_no_data, LaikaTestClient.prop.
  apply shrinks_bind; [apply shrinks_lift |]. intros success.
  apply shrinks_if; [apply shrinks_ret |].
  apply shrinks_bind; [apply shrinks_lift |]. intros data. apply shrinks_ret.
Qed.

Lemma shrinks_getRandomPrompt (rt : Runtime) (experimentId : Ident) :
  cache_shrinks (LaikaTestClient.getRandomPrompt rt experimentId).
Proof.
  unfold LaikaTestClient.getRandomPrompt.
  apply shrinks_if; [apply shrinks_throw |].
  apply shrinks_try_catch; [| intros e; apply shrinks_rethrow_or_wrap].
  apply shrinks_bind; [apply shrinks_makeRequest |]. intros response.
  apply shrinks_bind; [apply shrinks_no_success_or_no_data |]. intros invalid.
  apply shrinks_if; [apply shrinks_throw | apply shrinks_lift].
Qed.

Lemma shrinks_findCachedAssignment (e : string) (u s : Ident) :
  cache_shrinks (LaikaTestClient._findCachedAssignment e u s).
Proof.
  unfold LaikaTestClient._findCachedAssignment.
  apply shrinks_bind; [apply shrinks_cache_get |]. intros exact.
  apply shrinks_if; [apply shrinks_ret |].
  apply shrinks_bind; [apply shrinks_if; [apply shrinks_cache_get | apply shrinks_ret] |].
  intros byUser. apply shrinks_if; [apply shrinks_ret |].
  apply shrinks_bind; [apply shrinks_if; [apply shrinks_cache_get | apply shrinks_ret] |].
  intros bySession. apply shrinks_if; apply shrinks_ret.
Qed.

Lemma shrinks_resolve_assignment_id (options : TrackingOptions) :
  cache_shrinks (LaikaTestClient.resolve_assignment_id options).
Proof.
  unfold LaikaTestClient.resolve_assignment_id.
  apply shrinks_if; [apply shrinks_ret |].
  apply shrinks_if; [| apply shrinks_throw].
  apply shrinks_bind; [apply shrinks_findCachedAssignment |]. intros a.
  apply shrinks_if; [apply shrinks_throw | apply shrinks_lift].
Qed.

Lemma shrinks_trackOutcome (rt : Runtime) (outcome : JsVal) (options : TrackingOptions) :
  cache_shrinks (LaikaTestClient.trackOutcome rt outcome options).
Proof.
  unfold LaikaTestClient.trackOutcome.
  apply shrinks_if; [apply shrinks_throw |].
  apply shrinks_bind; [apply shrinks_resolve_assignment_id |]. intros id.
  apply shrinks_bind.
  { apply shrinks_if; [| apply shrinks_ret].
    apply shrinks_if; [apply shrinks_throw | apply shrinks_ret]. }
  intros eventData. apply shrinks_bind.
  { apply shrinks_if; [| apply shrinks_ret].
    apply shrinks_if; [apply shrinks_throw | apply shrinks_ret]. }
  intros eventData'.
  apply shrinks_try_catch; [| intros e; apply shrinks_rethrow_or_wrap].
  apply shrinks_bind; [apply shrinks_makeRequest |]. intros response.
  apply shrinks_bind; [apply shrinks_lift |]. intros success.
  apply shrinks_if; [apply shrinks_throw | apply shrinks_lift].
Qed.

Lemma shrinks_getExperimentEvents (rt : Runtime) (experimentId : Ident)
    (filters : EventFilters) :
  cache_shrinks (LaikaTestClient.getExperimentEvents rt experimentId filters).
Proof.
  unfold LaikaTestClient.getExperimentEvents.
  repeat (apply shrinks_if; [apply shrinks_throw |]).
  apply shrinks_try_catch; [| intros e; apply shrinks_rethrow_or_wrap].
  apply shrinks_bind; [apply shrinks_makeRequest |]. intros response.
  apply shrinks_bind; [apply shrinks_lift |]. intros success.
  apply shrinks_if; [apply shrinks_throw |].
  apply shrinks_bind; [apply shrinks_lift |]. intros data.
  apply shrinks_bind; [apply shrinks_lift |]. intros meta. apply shrinks_ret.
Qed.

(** A fetch through the cache shrinks the cache, or returns truthy data
    that it has stored on top of a shrunk cache. *)
Lemma fetch_through_cache_cases (rt : Runtime) (e : string) (u s : Ident)
    (requestData : JsVal) (w : World) :
  let r := (let* cached := LaikaTestClient.cache_get e u s in
            if truthy cached then ret cached
            else fetch_and_store rt e u s requestData) w in
  (AssignmentCache.cache (assignmentCache (snd r))
     ⊆ AssignmentCache.cache (assignmentCache w)
   /\ AssignmentCache.ttl (assignmentCache (snd r)) = AssignmentCache.ttl (assignmentCache w))
  \/ (exists data now c0,
        truthy data = true
        /\ fst r = Ok data
        /\ AssignmentCache.cache c0 ⊆ AssignmentCache.cache (assignmentCache w)
        /\ AssignmentCache.ttl c0 = AssignmentCache.ttl (assignmentCache w)
        /\ assignmentCache (snd r) = AssignmentCache.store now e u s data c0).
Proof.
  intros r. subst r. unfold bind. rewrite cache_get_run.
  set (w0 := set_cache _ w).
  assert (Hw0 : AssignmentCache.cache (assignmentCache w0)
                  ⊆ AssignmentCache.cache (assignmentCache w)
                /\ AssignmentCache.ttl (assignmentCache w0)
                   = AssignmentCache.ttl (assignmentCache w)).
  { subst w0. cbn [assignmentCache set_cache]. split; [apply get_submap | apply get_keeps_ttl]. }
  destruct (truthy (peek _ _ _ _ _)); [left; exact Hw0 |].
  destruct (fetch_and_store_cases rt e u s requestData w0)
    as [(err & -> & _) | (data & Ht & ->)].
  - left. exact Hw0.
  - right. eexists data, _, (assignmentCache w0).
    split; [exact Ht |]. split; [reflexivity |].
    split; [apply Hw0 |]. split; [apply Hw0 | reflexivity].
Qed.

Lemma truthy_submap (c c' : AssignmentCache.t) :
  AssignmentCache.cache c' ⊆ AssignmentCache.cache c -> cache_truthy c -> cache_truthy c'.
Proof.
  intros Hsub Hc key entry Hlook.
  apply (Hc key entry). exact (lookup_weaken _ _ _ _ Hlook Hsub).
Qed.

Lemma truthy_store (now : Z) (e : string) (u s : Ident) (a : JsVal) (c : AssignmentCache.t) :
  truthy a = true -> cache_truthy c -> cache_truthy (AssignmentCache.store now e u s a c).
Proof.
  intros Ha Hc key entry. unfold AssignmentCache.store. cbn.
  rewrite lookup_insert_Some. intros [[_ <-] | [_ Hlook]]; [exact Ha | exact (Hc _ _ Hlook)].
Qed.

Lemma shrinks_truthy {A : Type} (m : M A) (w : World) :
  cache_shrinks m -> cache_truthy (assignmentCache w) ->
  cache_truthy (assignmentCache (snd (m w))).
Proof. intros Hm Hc. exact (truthy_submap _ _ (proj1 (Hm w)) Hc). Qed.



(** X11: the operations of the client keep every cached assignment
    truthy: if the cache holds truthy assignments only, it still does after
    any of the fetches, the tracking calls, the events query, a firing of
    the cleanup timer, [clearCache] and [destroy].  With that, a [get] that
    answers a falsy value answers [null]. *)
Theorem client_keeps_cached_assignments_truthy (rt : Runtime) (w : World) :
  cache_truthy (assignmentCache w) ->
  (forall e u, cache_truthy
                 (assignmentCache (snd (LaikaTestClient.getPromptForUser rt e u w))))
  /\ (forall e s, cache_truthy
                    (assignmentCache (snd (LaikaTestClient.getPromptForSession rt e s w))))
  /\ (forall e, cache_truthy (assignmentCache (snd (LaikaTestClient.getRandomPrompt rt e w))))
  /\ (forall outcome options,
        cache_truthy
          (assignmentCache (snd (LaikaTestClient.trackOutcome rt outcome options w))))
  /\ (forall e filters,
        cache_truthy
          (assignmentCache (snd (LaikaTestClient.getExperimentEvents rt e filters w))))
  /\ cache_truthy (assignmentCache (snd (LaikaTestClient.on_cleanup_interval w)))
  /\ cache_truthy (assignmentCache (snd (LaikaTestClient.clearCache w)))
  /\ cache_truthy (assignmentCache (snd (LaikaTestClient.destroy w)))
  /\ (forall now e u s,
        truthy (peek now (assignmentCache w) e u s) = false ->
        peek now (assignmentCache w) e u s = JNull).
Proof.
  intros Hc.
  assert (Hfetch : forall e u s requestData,
             cache_truthy
               (assignmentCache
                  (snd ((let* cached := LaikaTestClient.cache_get e u s in
                         if truthy cached then ret cached
                         else fetch_and_store rt e u s requestData) w)))).
  { intros e u s rd.
    destruct (fetch_through_cache_cases rt e u s rd w)
      as [[Hsub _] | (data & now & c0 & Ht & _ & Hsub & _ & ->)].
    - exact (truthy_submap _ _ Hsub Hc).
    - apply truthy_store; [exact Ht | exact (truthy_submap _ _ Hsub Hc)]. }
  split.
  { intros e u. unfold LaikaTestClient.getPromptForUser.
    destruct (present e); [| exact Hc]. destruct (present u); [| exact Hc].
    apply (Hfetch (ident_or e "") u None (user_request u)). }
  split.
  { intros e s. unfold LaikaTestClient.getPromptForSession.
    destruct (present e); [| exact Hc]. destruct (present s); [| exact Hc].
    apply (Hfetch (ident_or e "") None s (session_request s)). }
  split; [intros e; apply shrinks_truthy; [apply shrinks_getRandomPrompt | exact Hc] |].
  split; [intros outcome options; apply shrinks_truthy;
          [apply shrinks_trackOutcome | exact Hc] |].
  split; [intros e filters; apply shrinks_truthy;
          [apply shrinks_getExperimentEvents | exact Hc] |].
  split.
  { unfold LaikaTestClient.on_cleanup_interval.
    destruct (cleanupInterval w); [| exact Hc].
    cbn [snd assignmentCache set_cache]. intros key entry Hlook.
    apply cleanup_lookup in Hlook as [Hlook _]. exact (Hc _ _ Hlook). }
  split; [intros key entry Hlook; cbn in Hlook; rewrite lookup_empty in Hlook;
          discriminate |].
  split; [intros key entry Hlook; cbn in Hlook; rewrite lookup_empty in Hlook;
          discriminate |].
  intros now e u s. rewrite peek_lookup.
  destruct (AssignmentCache.cache (assignmentCache w) !! _) as [entry |] eqn:Hlook;
    [| reflexivity].
  destruct (now >? expiresAt entry); [reflexivity |].
  rewrite (Hc _ _ Hlook). discriminate.
Qed.

Lemma client_keeps_cached_assignments_truthy_witness :
  let data := JObj [("assignment_id", JStr "assign-123")] in
  let rt := Host.constant_runtime 200 (JObj [("success", JBool true); ("data", data)]) 0 in
  cache_truthy
    (assignmentCache (snd (LaikaTestClient.getPromptForUser rt (Some "exp-1")
                             (Some "user-1") (Host.test_world 0)))).
Proof.
  intros data rt.
  apply (client_keeps_cached_assignments_truthy rt (Host.test_world 0)).
  intros key entry Hlook. cbn in Hlook. rewrite lookup_empty in Hlook. discriminate Hlook.
Defined.

(** ** Errors and the request pipeline *)

Lemma kind_is_library (e : JsError) :
  is_ServiceError e || is_NetworkError e = true -> library_error e = true.
Proof. unfold library_error. intros ->. reflexivity. Qed.

Lemma post_event_kind (rt : Runtime) (eventData : list (string * JsVal)) (w : World)
    (e : JsError) :
  fst (post_event rt eventData w) = Throw e -> is_ServiceError e || is_NetworkError e = true.
Proof. unfold post_event. apply try_catch_kind. Qed.

(** X12: on arguments of the declared types (identifiers and dates that
    are strings or are left out, an [options] or [filters] object), and
    whatever the transport does, an operation of the client that throws
    throws one of the four errors of the library; a [TypeError] raised while
    a request is set up or an envelope is read never reaches the caller as
    such.  Arguments outside these types are not covered: [null] in place of
    the [options] or [filters] object and a date that is not a string make
    the source throw a [TypeError] of its own before its [try] block. *)
Theorem operations_throw_library_errors_only (rt : Runtime) (w : World) (err : JsError) :
  (forall e u, fst (LaikaTestClient.getPromptForUser rt e u w) = Throw err ->
               library_error err = true)
  /\ (forall e s, fst (LaikaTestClient.getPromptForSession rt e s w) = Throw err ->
                  library_error err = true)
  /\ (forall e, fst (LaikaTestClient.getRandomPrompt rt e w) = Throw err ->
                library_error err = true)
  /\ (forall outcome options,
        fst (LaikaTestClient.trackOutcome rt outcome options w) = Throw err ->
        library_error err = true)
  /\ (forall options, fst (LaikaTestClient.trackSuccess rt options w) = Throw err ->
                      library_error err = true)
  /\ (forall options, fst (LaikaTestClient.trackFailure rt options w) = Throw err ->
                      library_error err = true)
  /\ (forall feedback options,
        fst (LaikaTestClient.trackFeedback rt feedback options w) = Throw err ->
        library_error err = true)
  /\ (forall e filters,
        fst (LaikaTestClient.getExperimentEvents rt e filters w) = Throw err ->
        library_error err = true).
Proof.
  assert (Hfetch : forall e u s requestData,
             fst ((let* cached := LaikaTestClient.cache_get e u s in
                   if truthy cached then ret cached
                   else fetch_and_store rt e u s requestData) w) = Throw err ->
             library_error err = true).
  { intros e u s rd. unfold bind. rewrite cache_get_run.
    destruct (truthy (peek _ _ _ _ _)); [discriminate |].
    unfold fetch_and_store. intros H. apply kind_is_library.
    exact (try_catch_kind _ _ _ _ H). }
  assert (Htrack : forall outcome options,
             fst (LaikaTestClient.trackOutcome rt outcome options w) = Throw err ->
             library_error err = true).
  { intros outcome options.
    destruct (trackOutcome_cases rt outcome options w)
      as [(e0 & w1 & -> & Hkind & _) | (id & w1 & _ & _ & _ & _ & _ & ->)].
    - intros [= <-]. unfold library_error.
      destruct e0; simpl in *; try discriminate Hkind; reflexivity.
    - intros H. apply kind_is_library. exact (post_event_kind _ _ _ _ H). }
  split.
  { intros e u. unfold LaikaTestClient.getPromptForUser.
    destruct (present e); [| intros [= <-]; reflexivity].
    destruct (present u); [| intros [= <-]; reflexivity].
    apply (Hfetch (ident_or e "") u None (user_request u)). }
  split.
  { intros e s. unfold LaikaTestClient.getPromptForSession.
    destruct (present e); [| intros [= <-]; reflexivity].
    destruct (present s); [| intros [= <-]; reflexivity].
    apply (Hfetch (ident_or e "") None s (session_request s)). }
  split.
  { intros e. unfold LaikaTestClient.getRandomPrompt.
    destruct (present e); [| intros [= <-]; reflexivity].
    intros H. apply kind_is_library. exact (try_catch_kind _ _ _ _ H). }
  split; [exact Htrack |].
  split; [intros options; apply Htrack |].
  split; [intros options; apply Htrack |].
  split; [intros feedback options; apply Htrack |].
  intros e filters.
  destruct (getExperimentEvents_cases rt e filters w) as [(m & ->) | (path & k & ->)].
  - intros [= <-]. reflexivity.
  - intros H. apply kind_is_library. exact (try_catch_kind _ _ _ _ H).
Qed.

Lemma operations_throw_library_errors_only_witness :
  library_error (LaikaServiceError "Failed to get prompt assignment" None
                   (Caught "TypeError")) = true
  /\ fst (LaikaTestClient.getRandomPrompt (Host.constant_runtime 200 JNull 0)
            (Some "exp-1") (Host.test_world 0))
     = Throw (LaikaServiceError "Failed to get prompt assignment" None (Caught "TypeError")).
Proof.
  assert (Hrun : fst (LaikaTestClient.getRandomPrompt (Host.constant_runtime 200 JNull 0)
                        (Some "exp-1") (Host.test_world 0))
                 = Throw (LaikaServiceError "Failed to get prompt assignment" None
                            (Caught "TypeError"))) by reflexivity.
  split; [| exact Hrun].
  exact (proj1 (proj2 (proj2 (operations_throw_library_errors_only
                                (Host.constant_runtime 200 JNull 0) (Host.test_world 0) _)))
           (Some "exp-1") Hrun).
Defined.

(** X13: how [_makeRequest] classifies an exchange.  Every call hands
    exactly one request to the transport and leaves the cache alone.  It
    resolves, with the parsed body, exactly when the status is in
    [200, 300) and the body parses.  A [LaikaServiceError] always carries the
    status, which is then outside [200, 300), and the parsed body; its
    message is the [error] field of the body when that is truthy.  A body
    that does not parse is a [NetworkError] whatever the status, and so is a
    body that parses to [null] under a status outside [200, 300). *)
Theorem makeRequest_classifies_the_exchange
    (rt : Runtime) (method path : string) (data : JsVal) (w : World) :
  let r := LaikaTestClient._makeRequest rt method path data w in
  let answer := reply_to rt w method path data in
  requests (snd r) = requests w ++ [request_of w method path data]
  /\ assignmentCache (snd r) = assignmentCache w
  /\ (forall v, fst r = Ok v
                <-> exists statusCode,
                      answer = Response statusCode (Some v) /\ is_2xx statusCode = true)
  /\ (forall message code response,
        fst r = Throw (LaikaServiceError message code response) ->
        exists statusCode body,
          answer = Response statusCode (Some body)
          /\ is_2xx statusCode = false
          /\ code = Some statusCode
          /\ response = ResponseBody body
          /\ (forall err, get_prop body "error" = Ok err -> truthy err = true ->
                          message = LaikaTestClient.to_string rt err))
  /\ (forall statusCode,
        answer = Response statusCode None ->
        fst r = Throw (NetworkError "Invalid JSON response"))
  /\ (forall statusCode,
        answer = Response statusCode (Some JNull) -> is_2xx statusCode = false ->
        fst r = Throw (NetworkError "Invalid JSON response")).
Proof.
  intros r answer. subst r answer. rewrite makeRequest_run. unfold reply_to.
  cbn [fst snd]. split; [reflexivity |]. split; [reflexivity |].
  destruct (reply _) as [| | | statusCode body]; cbn [settled].
  - repeat split; try discriminate. intros (st & H & _). discriminate H.
  - repeat split; try discriminate. intros (st & H & _). discriminate H.
  - repeat split; try discriminate. intros (st & H & _). discriminate H.
  - unfold LaikaTestClient.settle, is_2xx.
    destruct body as [parsed |].
    + destruct ((200 <=? statusCode) && (statusCode <? 300)) eqn:Hst.
      * split.
        { intros v. split.
          - intros [= <-]. exists statusCode. split; [reflexivity | exact Hst].
          - intros (st & [= <- <-] & _). reflexivity. }
        split; [discriminate |]. split; [discriminate |].
        intros st [= -> ->] Hno. congruence.
      * split.
        { intros v. split.
          - destruct (get_prop parsed "error"); discriminate.
          - intros (st & [= <- <-] & Hyes). congruence. }
        split.
        { intros message code response.
          destruct (get_prop parsed "error") as [err |] eqn:Herr; [| discriminate].
          intros [= <- <- <-]. exists statusCode, parsed.
          repeat split; try assumption.
          intros err' Heq Ht. assert (err' = err) by congruence. subst err'.
          rewrite Ht. reflexivity. }
        split; [discriminate |].
        intros st [= -> ->] _. reflexivity.
    + split.
      { intros v. split; [discriminate | intros (st & H & _); discriminate H]. }
      split; [discriminate |]. split; [reflexivity |]. discriminate.
Qed.

Lemma makeRequest_classifies_the_exchange_witness :
  let body := JObj [("success", JBool false); ("error", JStr "Experiment not found")] in
  let rt := Host.constant_runtime 404 body 0 in
  fst (LaikaTestClient._makeRequest rt "POST" "/api/v1/events" JNull (Host.test_world 0))
  = Throw (LaikaServiceError "Experiment not found" (Some 404) (ResponseBody body)).
Proof.
  intros body rt.
  assert (Hrun : fst (LaikaTestClient._makeRequest rt "POST" "/api/v1/events" JNull
                        (Host.test_world 0))
                 = Throw (LaikaServiceError "Experiment not found" (Some 404)
                            (ResponseBody body))) by reflexivity.
  destruct (proj1 (proj2 (proj2 (proj2
              (makeRequest_classifies_the_exchange rt "POST" "/api/v1/events" JNull
                 (Host.test_world 0))))) _ _ _ Hrun)
    as (st & parsed & _ & _ & _ & _ & _).
  exact Hrun.
Defined.

(** ** More on tracking *)

(** Once the outcome, the score and the feedback pass and an id is
    resolved, the event is posted: one request, with that id. *)
Lemma trackOutcome_posts (rt : Runtime) (outcome : JsVal) (options : TrackingOptions)
    (w : World) (id : JsVal) :
  outcome_rejected outcome = false ->
  resolved_id (clock w) (assignmentCache w) options = Ok id ->
  score_rejected (t_score options) = false ->
  feedback_rejected (t_userFeedback options) = false ->
  exists w1,
    same_but_evicted w w1
    /\ LaikaTestClient.trackOutcome rt outcome options w
       = post_event rt (event_data id outcome options) w1
    /\ requests (snd (LaikaTestClient.trackOutcome rt outcome options w))
       = requests w ++ [request_of w "POST" "/api/v1/events"
                          (JObj (event_data id outcome options))].
Proof.
  intros Hout Hid Hs Hf.
  destruct (resolve_assignment_id_run options w) as (w1 & Hres & Hsame & _).
  exists w1. split; [exact Hsame |].
  rewrite (trackOutcome_after_resolution rt outcome options w w1 _ Hout Hres).
  rewrite Hid, Hs, Hf. split; [reflexivity |].
  rewrite post_event_run, (request_of_evicted w w1) by exact Hsame.
  cbn [requests after_exchange].
  destruct (same_but_evicted_requests _ _ Hsame) as (-> & _). reflexivity.
Qed.

Lemma post_event_ok (rt : Runtime) (eventData : list (string * JsVal)) (w : World)
    (statusCode : Z) (envelope data : JsVal) :
  reply_to rt w "POST" "/api/v1/events" (JObj eventData)
    = Response statusCode (Some envelope) ->
  is_2xx statusCode = true ->
  prop_truthy envelope "success" = true ->
  get_prop envelope "data" = Ok data ->
  fst (post_event rt eventData w) = Ok data.
Proof.
  intros Hreply Hst Hsucc Hdata.
  unfold reply_to in Hreply. unfold is_2xx in Hst. unfold prop_truthy in Hsucc.
  unfold post_event, try_catch, bind at 1. rewrite makeRequest_run, Hreply.
  cbn [settled LaikaTestClient.settle]. rewrite Hst.
  unfold bind, LaikaTestClient.prop, lift.
  destruct (get_prop envelope "success") as [success | e0]; [| discriminate Hsucc].
  rewrite Hsucc, Hdata. reflexivity.
Qed.

Lemma oblivious_resolve_explicit (options : TrackingOptions) :
  explicit_assignment options = true ->
  cache_oblivious (LaikaTestClient.resolve_assignment_id options).
Proof.
  unfold explicit_assignment, LaikaTestClient.resolve_assignment_id. intros ->.
  apply oblivious_ret.
Qed.

(** X14: with an explicit assignment id and an experiment id,
    [trackOutcome] never consults the cache: on any other cache it gives the
    same result and sends the same request, it leaves the cache exactly as
    it was, and what it posts, if anything, carries the explicit id, whatever
    the cache holds for the user or the session named beside it. *)
Theorem explicit_assignment_bypasses_cache
    (rt : Runtime) (outcome : JsVal) (options : TrackingOptions) (w : World) :
  explicit_assignment options = true ->
  let r := LaikaTestClient.trackOutcome rt outcome options w in
  (forall c, LaikaTestClient.trackOutcome rt outcome options (set_cache c w)
             = (fst r, set_cache c (snd r)))
  /\ assignmentCache (snd r) = assignmentCache w
  /\ (requests (snd r) = requests w
      \/ requests (snd r)
         = requests w ++ [request_of w "POST" "/api/v1/events"
                            (JObj (event_data (JStr (ident_or (t_assignmentId options) ""))
                                     outcome options))]).
Proof.
  intros Hexp r. subst r.
  assert (Hobl : cache_oblivious (LaikaTestClient.trackOutcome rt outcome options)).
  { unfold LaikaTestClient.trackOutcome.
    apply oblivious_if; [apply oblivious_throw |].
    apply oblivious_bind; [apply oblivious_resolve_explicit; exact Hexp |]. intros id.
    apply oblivious_bind.
    { apply oblivious_if; [| apply oblivious_ret].
      apply oblivious_if; [apply oblivious_throw | apply oblivious_ret]. }
    intros eventData. apply oblivious_bind.
    { apply oblivious_if; [| apply oblivious_ret].
      apply oblivious_if; [apply oblivious_throw | apply oblivious_ret]. }
    intros eventData'.
    apply oblivious_try_catch; [| intros e; apply oblivious_rethrow_or_wrap].
    apply oblivious_bind; [apply oblivious_makeRequest |]. intros response.
    apply oblivious_bind; [apply oblivious_lift |]. intros success.
    apply oblivious_if; [apply oblivious_throw | apply oblivious_lift]. }
  split; [intros c; apply Hobl |].
  split; [apply (oblivious_cache_unchanged _ w Hobl) |].
  destruct (trackOutcome_cases rt outcome options w)
    as [(e0 & w1 & Hrun & _ & Hsame) | (id & w1 & Hout & Hs & Hf & Hid & _ & _)].
  - left. rewrite Hrun. apply (same_but_evicted_requests _ _ Hsame).
  - right. unfold resolved_id in Hid. rewrite Hexp in Hid. injection Hid as <-.
    destruct (trackOutcome_posts rt outcome options w _ Hout
                ltac:(unfold resolved_id; rewrite Hexp; reflexivity) Hs Hf)
      as (w2 & _ & _ & Hlog).
    exact Hlog.
Qed.

Lemma explicit_assignment_bypasses_cache_witness :
  let w := set_cache (AssignmentCache.store 0 "exp-1" (Some "user-1") None
                        (JObj [("assignment_id", JStr "cached-1")])
                        (AssignmentCache.new (Some 5000)))
             (Host.test_world 10) in
  let options := mkTracking (Some "exp-1") (Some "user-1") None JUndefined JUndefined
                   (Some "explicit-1") in
  let r := LaikaTestClient.trackOutcome (Host.runtime [] 0) (JStr "success") options w in
  assignmentCache (snd r) = assignmentCache w
  /\ map req_data (requests (snd r))
     = [JObj [("assignment_id", JStr "explicit-1"); ("outcome", JStr "success")]].
Proof.
  intros w options r.
  destruct (explicit_assignment_bypasses_cache (Host.runtime [] 0) (JStr "success")
              options w eq_refl) as (_ & Hcache & _).
  split; [exact Hcache | reflexivity].
Defined.

(** X15: the convenience wrappers fix the outcome.  Each of
    [trackSuccess] and [trackFailure] hands at most one request to the
    transport, and the event in it has the outcome [success], respectively
    [failure], and the score and the feedback of the options. *)
Theorem wrappers_fix_the_outcome (rt : Runtime) (options : TrackingOptions) (w : World) :
  let posted (r : Result JsVal * World) (outcome : string) :=
    requests (snd r) = requests w
    \/ exists req,
        requests (snd r) = requests w ++ [req]
        /\ req_method req = "POST"
        /\ req_path req = "/api/v1/events"
        /\ get_prop (req_data req) "outcome" = Ok (JStr outcome)
        /\ get_prop (req_data req) "score" = Ok (t_score options)
        /\ get_prop (req_data req) "user_feedback" = Ok (t_userFeedback options) in
  posted (LaikaTestClient.trackSuccess rt options w) "success"
  /\ posted (LaikaTestClient.trackFailure rt options w) "failure".
Proof.
  intros posted. subst posted. cbv beta.
  unfold LaikaTestClient.trackSuccess, LaikaTestClient.trackFailure.
  split.
  - destruct (trackOutcome_log rt (JStr "success") options w) as [Hlog | (id & Hlog)];
      [left; exact Hlog |].
    right. eexists. split; [exact Hlog |].
    cbn [req_method req_path req_data request_of]. unfold event_data.
    repeat split; destruct (t_score options), (t_userFeedback options); reflexivity.
  - destruct (trackOutcome_log rt (JStr "failure") options w) as [Hlog | (id & Hlog)];
      [left; exact Hlog |].
    right. eexists. split; [exact Hlog |].
    cbn [req_method req_path req_data request_of]. unfold event_data.
    repeat split; destruct (t_score options), (t_userFeedback options); reflexivity.
Qed.

Lemma generateKey_absent_session (e : string) (u s : Ident) :
  present s = false ->
  AssignmentCache._generateKey e u s = AssignmentCache._generateKey e u None.
Proof.
  unfold AssignmentCache._generateKey. destruct s as [x |]; [| reflexivity].
  cbn. destruct (String.eqb x ""); [reflexivity | discriminate].
Qed.

(** X16: fetch, then track.  After a fetch for a user that the server
    answered with a 2xx status, a truthy [success] and truthy [data], a
    [trackOutcome] for the same experiment and user, with no session and no
    explicit id and with a valid outcome, score and feedback, made any time
    up to the time to live later, posts one event that carries the
    [assignment_id] of the fetched data. *)
Theorem fetch_then_track_posts_fetched_assignment
    (rt : Runtime) (experimentId userId : Ident) (w : World)
    (statusCode : Z) (envelope data : JsVal)
    (outcome : JsVal) (options : TrackingOptions) (dt : Z) :
  present experimentId = true ->
  present userId = true ->
  let e := ident_or experimentId "" in
  let req := request_of w "POST" (LaikaTestClient.prompt_path e) (user_request userId) in
  truthy (peek (clock w) (assignmentCache w) e userId None) = false ->
  reply (http_request rt (clock w) (requests w) req) = Response statusCode (Some envelope) ->
  is_2xx statusCode = true ->
  prop_truthy envelope "success" = true ->
  get_prop envelope "data" = Ok data ->
  truthy data = true ->
  outcome_rejected outcome = false ->
  t_experimentId options = experimentId ->
  t_userId options = userId ->
  present (t_sessionId options) = false ->
  present (t_assignmentId options) = false ->
  score_rejected (t_score options) = false ->
  feedback_rejected (t_userFeedback options) = false ->
  dt <= AssignmentCache.ttl (assignmentCache w) ->
  let w2 := advance dt (snd (LaikaTestClient.getPromptForUser rt experimentId userId w)) in
  requests (snd (LaikaTestClient.trackOutcome rt outcome options w2))
  = requests w2 ++ [request_of w2 "POST" "/api/v1/events"
                      (JObj (event_data (assignment_id_of data) outcome options))].
Proof.
  intros He Hu e req Hmiss Hreply Hst Hsucc Hdata Ht Hout Hte Htu Hts Hta Hs Hf Hdt w2.
  subst w2 req e.
  rewrite (getPromptForUser_unfold rt _ _ w He Hu).
  destruct (fetch_through_cache_run rt (ident_or experimentId "") userId None
              (user_request userId) w statusCode envelope data
              Hmiss Hreply Hst Hsucc Hdata Ht)
    as (w2 & -> & _ & _ & Hlive).
  cbn [snd]. specialize (Hlive dt Hdt).
  set (w3 := advance dt w2) in *.
  assert (Hid : resolved_id (clock w3) (assignmentCache w3) options
                = Ok (assignment_id_of data)).
  { unfold resolved_id. rewrite (has_identity_not_explicit _ Hta).
    unfold has_identity. rewrite Hte, Htu, He, Hu. cbn [andb orb].
    assert (Hfound : resolution_order (clock w3) (assignmentCache w3)
                       (ident_or experimentId "") userId (t_sessionId options) = data).
    { unfold resolution_order. cbn [app first_match].
      assert (Hpeek : peek (clock w3) (assignmentCache w3) (ident_or experimentId "")
                        userId (t_sessionId options) = data).
      { rewrite peek_lookup, (generateKey_absent_session _ _ _ Hts), <- peek_lookup.
        apply peek_live. exact Hlive. }
      rewrite Hpeek, Ht. reflexivity. }
    rewrite Hfound, Ht. unfold assignment_id_of. apply get_prop_truthy. exact Ht. }
  destruct (trackOutcome_posts rt outcome options w3 _ Hout Hid Hs Hf) as (w4 & _ & _ & Hlog).
  exact Hlog.
Qed.

Lemma fetch_then_track_posts_fetched_assignment_witness :
  let data := JObj [("prompt_content", JStr "Test prompt");
                    ("assignment_id", JStr "track-123")] in
  let envelope := JObj [("success", JBool true); ("data", data)] in
  let rt := Host.runtime
              [("POST:/api/v1/experiments/exp-track/prompt", Host.Canned envelope 200)] 5 in
  let w2 := advance 1000
              (snd (LaikaTestClient.getPromptForUser rt (Some "exp-track")
                      (Some "user-track") (Host.test_world 0))) in
  map req_data
    (requests (snd (LaikaTestClient.trackOutcome rt (JStr "failure")
                      (user_options "exp-track" "user-track") w2)))
  = [user_request (Some "user-track");
     JObj [("assignment_id", JStr "track-123"); ("outcome", JStr "failure")]].
Proof.
  intros data envelope rt w2.
  pose proof (fetch_then_track_posts_fetched_assignment rt (Some "exp-track")
                (Some "user-track") (Host.test_world 0) 200 envelope data (JStr "failure")
                (user_options "exp-track" "user-track") 1000
                eq_refl eq_refl eq_refl eq_refl eq_refl eq_refl eq_refl eq_refl eq_refl
                eq_refl eq_refl eq_refl eq_refl eq_refl eq_refl ltac:(cbn; lia)) as H.
  cbv zeta in H. subst w2. rewrite H. reflexivity.
Defined.

(** X17: the bounds of the score.  With a valid outcome and an explicit
    assignment, [trackOutcome] fails with the score error exactly when the
    score is given and is not a number, or is a number below 0 or above 10:
    0 and 10 themselves pass, a score left out passes, and so does [NaN],
    which compares false with both bounds. *)
Theorem trackOutcome_score_bounds
    (rt : Runtime) (outcome : JsVal) (options : TrackingOptions) (w : World) :
  outcome_rejected outcome = false ->
  explicit_assignment options = true ->
  (fst (LaikaTestClient.trackOutcome rt outcome options w)
   = Throw (ValidationError "score must be a number between 0 and 10")
   <-> score_rejected (t_score options) = true)
  /\ (forall q, score_rejected (JNum (Fin q)) = true <-> (q < 0)%Q \/ (10 < q)%Q)
  /\ score_rejected (JNum NaN) = false
  /\ score_rejected JUndefined = false
  /\ (forall v, is_defined v = true -> is_number v = false -> score_rejected v = true).
Proof.
  intros Hout Hexp.
  split; [| split; [| split; [| split]]].
  - destruct (resolve_assignment_id_run options w) as (w1 & Hres & _ & _).
    rewrite (trackOutcome_after_resolution rt outcome options w w1 _ Hout Hres).
    unfold resolved_id. rewrite Hexp.
    destruct (score_rejected (t_score options)); [split; reflexivity |].
    split; [| discriminate].
    destruct (feedback_rejected (t_userFeedback options)); [vm_compute; discriminate |].
    intros H. apply post_event_kind in H. discriminate H.
  - intros q. unfold score_rejected. cbn. rewrite orb_true_iff, !Qlt_bool_iff.
    reflexivity.
  - reflexivity.
  - reflexivity.
  - intros v Hd Hn. unfold score_rejected. rewrite Hd, Hn. reflexivity.
Qed.

Lemma trackOutcome_score_bounds_witness :
  fst (LaikaTestClient.trackOutcome (Host.runtime [] 0) (JStr "success")
         (mkTracking (Some "exp-1") None None (JNum (Fin (21 # 2))) JUndefined
            (Some "assign-1"))
         (Host.test_world 0))
  = Throw (ValidationError "score must be a number between 0 and 10").
Proof.
  apply (proj1 (trackOutcome_score_bounds (Host.runtime [] 0) (JStr "success")
                  (mkTracking (Some "exp-1") None None (JNum (Fin (21 # 2))) JUndefined
                     (Some "assign-1"))
                  (Host.test_world 0) eq_refl eq_refl)).
  reflexivity.
Defined.

(** ** Construction and teardown *)

Lemma cache_get_empty (e : string) (u s : Ident) (w : World) :
  AssignmentCache.cache (assignmentCache w) = ∅ ->
  LaikaTestClient.cache_get e u s w = (Ok JNull, w).
Proof.
  intros Hempty. unfold LaikaTestClient.cache_get.
  rewrite get_miss by (rewrite Hempty; apply lookup_empty).
  rewrite set_cache_same. reflexivity.
Qed.

(** On an empty cache tracking by identity finds nothing, asks nothing of
    the transport and changes nothing. *)
Lemma trackOutcome_on_empty_cache (rt : Runtime) (outcome : JsVal)
    (options : TrackingOptions) (w : World) :
  AssignmentCache.cache (assignmentCache w) = ∅ ->
  outcome_rejected outcome = false ->
  identity_only options = true ->
  LaikaTestClient.trackOutcome rt outcome options w
  = (Throw (AssignmentNotFoundError
             (LaikaTestClient.not_found_message (ident_or (t_experimentId options) ""))),
     w).
Proof.
  intros Hempty Hout Hid. unfold identity_only in Hid.
  apply andb_true_iff in Hid as [Hno Hident]. apply negb_true_iff in Hno.
  assert (Hres : LaikaTestClient.resolve_assignment_id options w
                 = (Throw (AssignmentNotFoundError
                             (LaikaTestClient.not_found_message
                                (ident_or (t_experimentId options) ""))), w)).
  { unfold LaikaTestClient.resolve_assignment_id. rewrite Hno. cbn [andb].
    unfold has_identity in Hident. rewrite Hident.
    unfold bind, LaikaTestClient._findCachedAssignment, bind.
    destruct (present (t_userId options)), (present (t_sessionId options));
      repeat first [ rewrite (cache_get_empty _ _ _ w Hempty)
                   | progress cbn -[LaikaTestClient.cache_get
                                    LaikaTestClient.not_found_message ident_or] ];
      reflexivity. }
  rewrite (trackOutcome_after_resolution rt outcome options w w _ Hout Hres). reflexivity.
Qed.

(** X18: the constructor.  Without an API key (absent or empty) it throws
    [ValidationError]; with one it gives a client with an empty cache, a
    running cleanup timer and nothing sent.  The time to live of the cache is
    the [cacheTtl] option, and 30 minutes when the option is left out or is
    0.  On the new client every tracking call by identity fails with
    [AssignmentNotFoundError], sends nothing and changes nothing. *)
Theorem new_client_starts_empty (now : Z) (key : Ident) (options : ClientOptions) :
  (present key = false ->
   LaikaTestClient.new now key options = Throw (ValidationError "API key is required"))
  /\ (present key = true ->
      exists w,
        LaikaTestClient.new now key options = Ok w
        /\ AssignmentCache.cache (assignmentCache w) = ∅
        /\ requests w = []
        /\ cleanupInterval w = true
        /\ AssignmentCache.ttl (assignmentCache w) = cacheTtl (config w)
        /\ (o_cacheTtl options = None \/ o_cacheTtl options = Some 0 ->
            cacheTtl (config w) = 1800000)
        /\ (forall t, o_cacheTtl options = Some t -> t <> 0 -> cacheTtl (config w) = t)
        /\ (forall rt outcome tracking,
              outcome_rejected outcome = false ->
              identity_only tracking = true ->
              LaikaTestClient.trackOutcome rt outcome tracking w
              = (Throw (AssignmentNotFoundError
                          (LaikaTestClient.not_found_message
                             (ident_or (t_experimentId tracking) ""))), w))).
Proof.
  unfold LaikaTestClient.new. split; intros Hkey; rewrite Hkey; cbn [negb]; [reflexivity |].
  eexists. split; [reflexivity |]. cbn.
  split; [reflexivity |]. split; [reflexivity |]. split; [reflexivity |].
  split; [reflexivity |].
  split; [intros [-> | ->]; reflexivity |].
  split.
  - intros t -> Ht. cbn. destruct (Z.eqb_spec t 0); [contradiction | reflexivity].
  - intros rt outcome tracking Hout Hid.
    apply trackOutcome_on_empty_cache; [reflexivity | exact Hout | exact Hid].
Qed.

Lemma new_client_starts_empty_witness :
  exists w,
    LaikaTestClient.new 0 (Some "test-key") (mkOptions None None (Some 0)) = Ok w
    /\ cacheTtl (config w) = 1800000.
Proof.
  destruct (proj2 (new_client_starts_empty 0 (Some "test-key") (mkOptions None None (Some 0)))
              eq_refl) as (w & Hnew & _ & _ & _ & _ & Httl & _).
  exists w. split; [exact Hnew | apply Httl; right; reflexivity].
Defined.

(** X19: teardown.  [destroy] empties the cache and stops the cleanup
    timer, and touches nothing else; it can be called again with no further
    effect, and a late firing of the timer does nothing.  [clearCache]
    empties the cache and leaves the timer running.  After either, a tracking
    call by identity fails with [AssignmentNotFoundError] and sends nothing:
    what was fetched before is forgotten. *)
Theorem destroy_clears_and_is_idempotent (w : World) :
  let d := snd (LaikaTestClient.destroy w) in
  let c := snd (LaikaTestClient.clearCache w) in
  AssignmentCache.cache (assignmentCache d) = ∅
  /\ cleanupInterval d = false
  /\ (requests d, clock d, config d, AssignmentCache.ttl (assignmentCache d))
     = (requests w, clock w, config w, AssignmentCache.ttl (assignmentCache w))
  /\ LaikaTestClient.destroy d = (Ok tt, d)
  /\ LaikaTestClient.on_cleanup_interval d = (Ok tt, d)
  /\ AssignmentCache.cache (assignmentCache c) = ∅
  /\ (requests c, clock c, config c, cleanupInterval c,
      AssignmentCache.ttl (assignmentCache c))
     = (requests w, clock w, config w, cleanupInterval w,
        AssignmentCache.ttl (assignmentCache w))
  /\ (forall rt outcome tracking w',
        w' = d \/ w' = c ->
        outcome_rejected outcome = false ->
        identity_only tracking = true ->
        LaikaTestClient.trackOutcome rt outcome tracking w'
        = (Throw (AssignmentNotFoundError
                    (LaikaTestClient.not_found_message
                       (ident_or (t_experimentId tracking) ""))), w')).
Proof.
  intros d c. subst d c. cbn.
  repeat (split; [reflexivity |]).
  intros rt outcome tracking w' [-> | ->] Hout Hid;
    apply trackOutcome_on_empty_cache; auto.
Qed.

Lemma destroy_clears_and_is_idempotent_witness :
  let w := set_cache (AssignmentCache.store 0 "exp-1" (Some "user-1") None
                        (JObj [("assignment_id", JStr "a-1")])
                        (AssignmentCache.new (Some 5000)))
             (Host.test_world 10) in
  let d := snd (LaikaTestClient.destroy w) in
  fst (LaikaTestClient.trackOutcome (Host.runtime [] 0) (JStr "success")
         (user_options "exp-1" "user-1") d)
  = Throw (AssignmentNotFoundError
             "No assignment found for experiment exp-1. Call getPrompt* method first.").
Proof.
  intros w d.
  rewrite (proj2 (proj2 (proj2 (proj2 (proj2 (proj2 (proj2
             (destroy_clears_and_is_idempotent w)))))))
             (Host.runtime [] 0) (JStr "success") (user_options "exp-1" "user-1") d
             (or_introl eq_refl) eq_refl eq_refl).
  reflexivity.
Defined.

(** ** More on the events query *)

Lemma getExperimentEvents_accepted (rt : Runtime) (experimentId : Ident)
    (filters : EventFilters) (w : World) :
  present experimentId = true ->
  filters_accepted rt filters = true ->
  LaikaTestClient.getExperimentEvents rt experimentId filters w
  = events_block rt
      (LaikaTestClient.events_path rt (ident_or experimentId "")
         (LaikaTestClient.build_query rt filters
            (default_to (f_page filters) (JNum (num_of_Z 1)))
            (default_to (f_limit filters) (JNum (num_of_Z 50)))))
      (default_to (f_page filters) (JNum (num_of_Z 1)))
      (default_to (f_limit filters) (JNum (num_of_Z 50))) w.
Proof.
  intros He Hacc. unfold filters_accepted in Hacc.
  repeat (apply andb_true_iff in Hacc as [Hacc ?]).
  repeat match goal with
         | H : negb _ = true |- _ => apply negb_true_iff in H
         end.
  unfold page_rejected, limit_rejected, date_rejected, range_rejected, bound_rejected,
    outcome_filter_rejected in *.
  unfold LaikaTestClient.getExperimentEvents. rewrite He. cbn [negb].
  repeat match goal with
         | H : ?c = false |- context [if ?c then _ else _] => rewrite H
         end.
  reflexivity.
Qed.

Lemma getExperimentEvents_rejected (rt : Runtime) (experimentId : Ident)
    (filters : EventFilters) (w : World) :
  present experimentId = false \/ filters_accepted rt filters = false ->
  exists m,
    LaikaTestClient.getExperimentEvents rt experimentId filters w
    = (Throw (ValidationError m), w).
Proof.
  intros Hbad. unfold LaikaTestClient.getExperimentEvents.
  destruct (present experimentId); cbn [negb]; [| eauto].
  destruct Hbad as [Hbad | Hbad]; [discriminate Hbad |].
  unfold filters_accepted, page_rejected, limit_rejected, date_rejected, range_rejected,
    bound_rejected, outcome_filter_rejected in Hbad.
  repeat match goal with
         | |- context [if ?c then throw (ValidationError ?m) else _] =>
             destruct c eqn:?; [eauto |]
         end.
  cbn in Hbad. discriminate Hbad.
Qed.

Lemma rethrow_or_wrap_world {A : Type} (message : string) (e : JsError) (w : World) :
  snd (@LaikaTestClient.rethrow_or_wrap A message e w) = w.
Proof.
  destruct (rethrow_or_wrap_kind (A := A) message e w) as (e' & -> & _). reflexivity.
Qed.

Lemma events_block_run (rt : Runtime) (path : string) (page limit : JsVal) (w : World) :
  snd (events_block rt path page limit w)
  = after_exchange rt w (request_of w "GET" path JNull).
Proof.
  unfold events_block, try_catch, bind at 1. rewrite makeRequest_run.
  destruct (settled rt _) as [response | e]; [| apply rethrow_or_wrap_world].
  unfold bind, LaikaTestClient.prop, lift, ret.
  destruct (get_prop response "success") as [success | e];
    [| apply rethrow_or_wrap_world].
  destruct (truthy success); cbn [negb]; [| apply rethrow_or_wrap_world].
  destruct (get_prop response "data") as [data | e]; [| apply rethrow_or_wrap_world].
  destruct (get_prop response "meta") as [meta | e]; [| apply rethrow_or_wrap_world].
  reflexivity.
Qed.

Lemma oblivious_getExperimentEvents (rt : Runtime) (experimentId : Ident)
    (filters : EventFilters) :
  cache_oblivious (LaikaTestClient.getExperimentEvents rt experimentId filters).
Proof.
  unfold LaikaTestClient.getExperimentEvents.
  repeat (apply oblivious_if; [apply oblivious_throw |]).
  apply oblivious_try_catch; [| intros e; apply oblivious_rethrow_or_wrap].
  apply oblivious_bind; [apply oblivious_makeRequest |]. intros response.
  apply oblivious_bind; [apply oblivious_lift |]. intros success.
  apply oblivious_if; [apply oblivious_throw |].
  apply oblivious_bind; [apply oblivious_lift |]. intros data.
  apply oblivious_bind; [apply oblivious_lift |]. intros meta. apply oblivious_ret.
Qed.

(** X20: the events query sends one request or none.  With an experiment
    id and filters that pass every check it hands exactly one [GET] to the
    transport, for the events path of the experiment with the query built
    from the filters, and no body; otherwise it throws [ValidationError] and
    leaves the world as it was.  In both cases the cache plays no part: the
    call gives the same result on any cache and leaves the cache alone. *)
Theorem getExperimentEvents_sends_one_query_or_none
    (rt : Runtime) (experimentId : Ident) (filters : EventFilters) (w : World) :
  let r := LaikaTestClient.getExperimentEvents rt experimentId filters w in
  (present experimentId = true -> filters_accepted rt filters = true ->
   requests (snd r)
   = requests w ++ [events_request rt w (ident_or experimentId "") filters]
   /\ throws (fst r) is_ValidationError = false)
  /\ (present experimentId = false \/ filters_accepted rt filters = false ->
      throws (fst r) is_ValidationError = true /\ snd r = w)
  /\ (forall c, LaikaTestClient.getExperimentEvents rt experimentId filters (set_cache c w)
                = (fst r, set_cache c (snd r)))
  /\ assignmentCache (snd r) = assignmentCache w.
Proof.
  intros r. subst r.
  split; [| split; [| split]].
  - intros He Hacc. rewrite (getExperimentEvents_accepted rt _ _ w He Hacc).
    split; [rewrite events_block_run; reflexivity |].
    destruct (fst (events_block rt _ _ _ w)) as [v | e] eqn:Hres; [reflexivity |].
    unfold events_block in Hres. apply try_catch_kind in Hres.
    destruct e; simpl in *; try discriminate Hres; reflexivity.
  - intros Hbad. destruct (getExperimentEvents_rejected rt _ _ w Hbad) as (m & ->).
    split; reflexivity.
  - intros c. apply oblivious_getExperimentEvents.
  - apply (oblivious_cache_unchanged _ w (oblivious_getExperimentEvents rt _ _)).
Qed.

Lemma getExperimentEvents_sends_one_query_or_none_witness :
  let r := LaikaTestClient.getExperimentEvents (Host.runtime [] 0) (Some "exp-1")
             no_filters (Host.test_world 0) in
  map req_path (requests (snd r)) = ["/api/v1/experiments/exp-1/events?page=1&limit=50"]
  /\ throws (fst r) is_ValidationError = false.
Proof.
  intros r.
  destruct (proj1 (getExperimentEvents_sends_one_query_or_none (Host.runtime [] 0)
                     (Some "exp-1") no_filters (Host.test_world 0)) eq_refl eq_refl)
    as [Hlog Hnot].
  split; [| exact Hnot]. subst r. rewrite Hlog. reflexivity.
Defined.

(** X21: what the events query returns.  For accepted filters and a 2xx
    answer with a truthy [success], the result is an object with exactly the
    two fields [events] and [meta]: [events] is the [data] of the answer, or
    the empty array when [data] is absent or falsy; [meta] is the [meta] of
    the answer, or a total of 0 with the page and the limit of the call (1
    and 50 when left out) when the server sent none. *)
Theorem getExperimentEvents_normalizes_the_answer
    (rt : Runtime) (experimentId : Ident) (filters : EventFilters) (w : World)
    (statusCode : Z) (envelope : JsVal) :
  present experimentId = true ->
  filters_accepted rt filters = true ->
  reply (http_request rt (clock w) (requests w)
           (events_request rt w (ident_or experimentId "") filters))
    = Response statusCode (Some envelope) ->
  is_2xx statusCode = true ->
  prop_truthy envelope "success" = true ->
  fst (LaikaTestClient.getExperimentEvents rt experimentId filters w)
    = Ok (normalized_events envelope filters)
  /\ (prop_truthy envelope "data" = false ->
      get_prop (normalized_events envelope filters) "events" = Ok (JArr []))
  /\ (prop_truthy envelope "meta" = false ->
      get_prop (normalized_events envelope filters) "meta"
      = Ok (JObj [("total", JNum (num_of_Z 0));
                  ("page", default_to (f_page filters) (JNum (num_of_Z 1)));
                  ("limit", default_to (f_limit filters) (JNum (num_of_Z 50)))])).
Proof.
  intros He Hacc Hreply Hst Hsucc.
  unfold events_request in Hreply. unfold is_2xx in Hst.
  split; [| split].
  - rewrite (getExperimentEvents_accepted rt _ _ w He Hacc).
    unfold events_block, try_catch, bind at 1. rewrite makeRequest_run, Hreply.
    cbn [settled LaikaTestClient.settle]. rewrite Hst.
    unfold bind, LaikaTestClient.prop, lift, ret, normalized_events.
    unfold prop_truthy in Hsucc.
    destruct envelope; try discriminate Hsucc. cbn [get_prop] in *.
    rewrite Hsucc. reflexivity.
  - unfold prop_truthy, normalized_events. cbn [get_prop assoc String.eqb].
    destruct (get_prop envelope "data") as [v | e]; unfold js_or.
    + intros ->. reflexivity.
    + intros _. reflexivity.
  - unfold prop_truthy, normalized_events. cbn.
    destruct (get_prop envelope "meta") as [v | e]; unfold js_or.
    + intros ->. reflexivity.
    + intros _. reflexivity.
Qed.

Lemma getExperimentEvents_normalizes_the_answer_witness :
  let envelope := JObj [("success", JBool true)] in
  let rt := Host.constant_runtime 200 envelope 0 in
  fst (LaikaTestClient.getExperimentEvents rt (Some "exp-1")
         (with_page_limit (JNum (num_of_Z 2)) (JNum (num_of_Z 25)) no_filters)
         (Host.test_world 0))
  = Ok (JObj [("events", JArr []);
              ("meta", JObj [("total", JNum (num_of_Z 0)); ("page", JNum (num_of_Z 2));
                             ("limit", JNum (num_of_Z 25))])]).
Proof.
  intros envelope rt.
  exact (proj1 (getExperimentEvents_normalizes_the_answer rt (Some "exp-1")
                  (with_page_limit (JNum (num_of_Z 2)) (JNum (num_of_Z 25)) no_filters)
                  (Host.test_world 0) 200 envelope
                  eq_refl eq_refl eq_refl eq_refl eq_refl)).
Defined.

(** X22: the remaining filter checks.  The events query throws
    [ValidationError], sends nothing and changes nothing when both dates are
    given and parse and the start is not strictly before the end (equal
    dates are rejected), when [minScore] or [maxScore] is given and is not a
    number or lies outside [0, 10], and when an outcome filter is given that
    is neither [success] nor [failure].  The two score bounds are checked
    each on its own. *)
Theorem getExperimentEvents_rejects_bad_filters
    (rt : Runtime) (experimentId : Ident) (filters : EventFilters) (w : World) :
  (exists startDate endDate t1 t2,
      f_startDate filters = Some startDate /\ f_endDate filters = Some endDate
      /\ startDate <> "" /\ endDate <> ""
      /\ Date_parse rt startDate = Some t1 /\ Date_parse rt endDate = Some t2
      /\ t2 <= t1)
  \/ bound_rejected (f_minScore filters) = true
  \/ bound_rejected (f_maxScore filters) = true
  \/ outcome_filter_rejected (f_outcome filters) = true ->
  (throws (fst (LaikaTestClient.getExperimentEvents rt experimentId filters w))
     is_ValidationError = true
   /\ snd (LaikaTestClient.getExperimentEvents rt experimentId filters w) = w)
  /\ (forall q, bound_rejected (JNum (Fin q)) = true <-> (q < 0)%Q \/ (10 < q)%Q)
  /\ (forall v, is_defined v = true -> is_number v = false -> bound_rejected v = true)
  /\ (forall s, outcome_filter_rejected (JStr s) = true
                <-> s <> "" /\ s <> "success" /\ s <> "failure").
Proof.
  intros Hbad. split; [| split; [| split]].
  - assert (Hrej : filters_accepted rt filters = false).
    { unfold filters_accepted.
      destruct Hbad as [(a & b & t1 & t2 & Ha & Hb & Hna & Hnb & Hpa & Hpb & Hle)
                       | [Hmin | [Hmax | Hout]]].
      - assert (Hrange : range_rejected rt filters = true).
        { unfold range_rejected, LaikaTestClient.date_ge. rewrite Ha, Hb.
          cbn [present ident_or].
          destruct (String.eqb_spec a ""); [contradiction |].
          destruct (String.eqb_spec b ""); [contradiction |].
          rewrite Hpa, Hpb. cbn. apply Z.geb_le. exact Hle. }
        rewrite Hrange. cbn. rewrite !andb_false_r. reflexivity.
      - rewrite Hmin. cbn. rewrite !andb_false_r. reflexivity.
      - rewrite Hmax. cbn. rewrite !andb_false_r. reflexivity.
      - rewrite Hout. cbn. rewrite !andb_false_r. reflexivity. }
    destruct (getExperimentEvents_rejected rt experimentId filters w (or_intror Hrej))
      as (m & ->).
    split; reflexivity.
  - intros q. unfold bound_rejected. cbn. rewrite orb_true_iff, !Qlt_bool_iff.
    reflexivity.
  - intros v Hd Hn. unfold bound_rejected. rewrite Hd, Hn. reflexivity.
  - intros s. unfold outcome_filter_rejected. cbn.
    destruct (String.eqb_spec s ""), (String.eqb_spec s "success"),
      (String.eqb_spec s "failure"); cbn; split; try discriminate; try tauto;
      intros (H1 & H2 & H3); congruence.
Qed.

Lemma getExperimentEvents_rejects_bad_filters_witness :
  let filters :=
    {| f_startDate := Some "2024-01-16T00:00:00Z"; f_endDate := Some "2024-01-16T00:00:00Z";
       f_userId := None; f_sessionId := None; f_minScore := JUndefined;
       f_maxScore := JUndefined; f_feedback := None; f_outcome := JUndefined;
       f_page := JUndefined; f_limit := JUndefined |} in
  let r := LaikaTestClient.getExperimentEvents (Host.runtime [] 0) (Some "exp-123") filters
             (Host.test_world 0) in
  throws (fst r) is_ValidationError = true /\ snd r = Host.test_world 0.
Proof.
  intros filters r.
  refine (proj1 (getExperimentEvents_rejects_bad_filters (Host.runtime [] 0)
                   (Some "exp-123") filters (Host.test_world 0) _)).
  left. exists "2024-01-16T00:00:00Z", "2024-01-16T00:00:00Z", 1705363200000, 1705363200000.
  repeat split; discriminate.
Defined.

(** ** Round trips that always reach the transport *)

Lemma reply_to_evicted (rt : Runtime) (w w1 : World) (method path : string) (data : JsVal) :
  same_but_evicted w w1 -> reply_to rt w1 method path data = reply_to rt w method path data.
Proof. intros (c' & -> & _). reflexivity. Qed.

(** X23: a random fetch is always a round trip.  With an experiment id,
    [getRandomPrompt] hands exactly one request to the transport each time
    it is called, also right after an identical call, with the body
    [{ split_type: 'random' }]; on a 2xx answer with a truthy [success] and
    truthy [data] it returns the data. *)
Theorem getRandomPrompt_is_always_a_round_trip
    (rt : Runtime) (experimentId : Ident) (w : World) :
  present experimentId = true ->
  let e := ident_or experimentId "" in
  let body := JObj [("split_type", JStr "random")] in
  let sent (w0 : World) := request_of w0 "POST" (LaikaTestClient.prompt_path e) body in
  let r := LaikaTestClient.getRandomPrompt rt experimentId w in
  requests (snd r) = requests w ++ [sent w]
  /\ requests (snd (LaikaTestClient.getRandomPrompt rt experimentId (snd r)))
     = requests w ++ [sent w; sent w]
  /\ (forall statusCode envelope data,
        reply (http_request rt (clock w) (requests w) (sent w))
          = Response statusCode (Some envelope) ->
        is_2xx statusCode = true ->
        prop_truthy envelope "success" = true ->
        get_prop envelope "data" = Ok data ->
        truthy data = true ->
        fst r = Ok data).
Proof.
  intros He e body sent r.
  assert (Hworld : forall w0,
             snd (LaikaTestClient.getRandomPrompt rt experimentId w0)
             = after_exchange rt w0 (sent w0)).
  { intros w0. unfold LaikaTestClient.getRandomPrompt. rewrite He. cbn [negb].
    unfold try_catch, bind at 1. rewrite makeRequest_run.
    destruct (settled rt _) as [response | e0]; [| apply rethrow_or_wrap_world].
    unfold bind, LaikaTestClient.no_success_or_no_data, bind, ret,
      LaikaTestClient.prop, lift, throw.
    destruct (get_prop response "success") as [s0 | e1]; [| apply rethrow_or_wrap_world].
    destruct (truthy s0); cbn [negb]; [| apply rethrow_or_wrap_world].
    destruct (get_prop response "data") as [d | e1]; [| apply rethrow_or_wrap_world].
    destruct (truthy d); cbn [negb]; [reflexivity | apply rethrow_or_wrap_world]. }
  subst r. split; [rewrite Hworld; reflexivity |].
  split; [rewrite !Hworld; cbn [requests after_exchange]; rewrite <- app_assoc; reflexivity |].
  intros statusCode envelope data Hreply Hst Hsucc Hdata Ht.
  unfold is_2xx in Hst. unfold prop_truthy in Hsucc.
  unfold LaikaTestClient.getRandomPrompt. rewrite He. cbn [negb].
  unfold try_catch, bind at 1. rewrite makeRequest_run. fold e body. fold (sent w).
  rewrite Hreply. cbn [settled LaikaTestClient.settle]. rewrite Hst.
  unfold bind, LaikaTestClient.no_success_or_no_data, bind, ret, LaikaTestClient.prop, lift.
  destruct (get_prop envelope "success") as [s0 | e0]; [| discriminate Hsucc].
  rewrite Hsucc, Hdata, Ht. reflexivity.
Qed.

Lemma getRandomPrompt_is_always_a_round_trip_witness :
  let data := JObj [("prompt_content", JStr "Random prompt")] in
  let rt := Host.runtime
              [("POST:/api/v1/experiments/exp-random/prompt",
                Host.Canned (JObj [("success", JBool true); ("data", data)]) 200)] 0 in
  let r := LaikaTestClient.getRandomPrompt rt (Some "exp-random") (Host.test_world 0) in
  fst r = Ok data
  /\ length (requests (snd (LaikaTestClient.getRandomPrompt rt (Some "exp-random") (snd r))))
     = 2%nat.
Proof.
  intros data rt r.
  destruct (getRandomPrompt_is_always_a_round_trip rt (Some "exp-random")
              (Host.test_world 0) eq_refl) as (_ & Htwice & Hok).
  split.
  - apply (Hok 200 (JObj [("success", JBool true); ("data", data)]) data); reflexivity.
  - subst r. rewrite Htwice. reflexivity.
Defined.

(** X24: what [trackOutcome] returns.  When the outcome, the score and
    the feedback pass and an assignment id is resolved, and the server
    answers the event with a 2xx status and a truthy [success], the call
    returns the [data] of that answer as it came (or [undefined] when there
    is none). *)
Theorem trackOutcome_returns_the_acknowledgement
    (rt : Runtime) (outcome : JsVal) (options : TrackingOptions) (w : World)
    (id : JsVal) (statusCode : Z) (envelope data : JsVal) :
  outcome_rejected outcome = false ->
  resolved_id (clock w) (assignmentCache w) options = Ok id ->
  score_rejected (t_score options) = false ->
  feedback_rejected (t_userFeedback options) = false ->
  reply (http_request rt (clock w) (requests w)
           (request_of w "POST" "/api/v1/events" (JObj (event_data id outcome options))))
    = Response statusCode (Some envelope) ->
  is_2xx statusCode = true ->
  prop_truthy envelope "success" = true ->
  get_prop envelope "data" = Ok data ->
  fst (LaikaTestClient.trackOutcome rt outcome options w) = Ok data.
Proof.
  intros Hout Hid Hs Hf Hreply Hst Hsucc Hdata.
  destruct (trackOutcome_posts rt outcome options w id Hout Hid Hs Hf)
    as (w1 & Hsame & -> & _).
  apply (post_event_ok rt _ w1 statusCode envelope data); try assumption.
  rewrite (reply_to_evicted rt w w1) by exact Hsame. exact Hreply.
Qed.

Lemma trackOutcome_returns_the_acknowledgement_witness :
  let envelope := JObj [("success", JBool true);
                        ("data", JObj [("id", JStr "event-123")])] in
  let rt := Host.runtime [("POST:/api/v1/events", Host.Canned envelope 200)] 0 in
  fst (LaikaTestClient.trackOutcome rt (JStr "success")
         (explicit_options "exp-1" "assign-1") (Host.test_world 0))
  = Ok (JObj [("id", JStr "event-123")]).
Proof.
  intros envelope rt.
  apply (trackOutcome_returns_the_acknowledgement rt (JStr "success")
           (explicit_options "exp-1" "assign-1") (Host.test_world 0)
           (JStr "assign-1") 200 envelope); reflexivity.
Defined.

(** A block that starts with a request rethrows the network error of a
    transport that failed, after the one exchange. *)
Lemma block_network_failure {A : Type} (rt : Runtime) (method path message : string)
    (data : JsVal) (k : JsVal -> M A) (w : World) :
  (reply_to rt w method path data = ConnectionError
   \/ reply_to rt w method path data = TimedOut) ->
  exists m,
    try_catch (bind (LaikaTestClient._makeRequest rt method path data) k)
      (LaikaTestClient.rethrow_or_wrap message) w
    = (Throw (NetworkError m), after_exchange rt w (request_of w method path data)).
Proof.
  unfold reply_to. intros Hfail. unfold try_catch, bind. rewrite makeRequest_run.
  destruct Hfail as [-> | ->]; cbn; eauto.
Qed.

Lemma fetch_through_cache_network_failure (rt : Runtime) (e : string) (u s : Ident)
    (requestData : JsVal) (w : World) :
  (forall now sent req,
      reply (http_request rt now sent req) = ConnectionError
      \/ reply (http_request rt now sent req) = TimedOut) ->
  let r := (let* cached := LaikaTestClient.cache_get e u s in
            if truthy cached then ret cached
            else fetch_and_store rt e u s requestData) w in
  requests (snd r) = requests w
  \/ (throws (fst r) is_NetworkError = true
      /\ (exists req, requests (snd r) = requests w ++ [req])
      /\ AssignmentCache.cache (assignmentCache (snd r))
           ⊆ AssignmentCache.cache (assignmentCache w)).
Proof.
  intros Hfail r. subst r. unfold bind. rewrite cache_get_run.
  destruct (truthy (peek _ _ _ _ _)); [left; reflexivity | right].
  set (w0 := set_cache _ w).
  destruct (block_network_failure rt "POST" (LaikaTestClient.prompt_path e)
              "Failed to get prompt assignment" requestData
              (fun response =>
                 let* invalid := LaikaTestClient.no_success_or_no_data response in
                 if (invalid : bool)
                 then throw (LaikaServiceError "Invalid response format" None NoResponse)
                 else
                   let* data := LaikaTestClient.prop response "data" in
                   LaikaTestClient.cache_store e u s data ;;; ret data)
              w0 (Hfail _ _ _)) as (m & Hrun).
  unfold fetch_and_store. rewrite Hrun. cbn [fst snd throws is_NetworkError].
  split; [reflexivity |]. split; [eexists; reflexivity |].
  subst w0. cbn [assignmentCache after_exchange set_cache]. apply get_submap.
Qed.

(** X25: a transport that fails is a [NetworkError] for the caller.  When
    the transport answers with its [error] event or its [timeout] event,
    every operation that reached the transport throws a [NetworkError];
    nothing is retried (the one request is the only one logged) and nothing
    is added to the cache. *)
Theorem transport_failure_is_network_error (rt : Runtime) (w : World) :
  (forall now sent req,
      reply (http_request rt now sent req) = ConnectionError
      \/ reply (http_request rt now sent req) = TimedOut) ->
  let failed (r : Result JsVal * World) :=
    requests (snd r) = requests w
    \/ (throws (fst r) is_NetworkError = true
        /\ (exists req, requests (snd r) = requests w ++ [req])
        /\ AssignmentCache.cache (assignmentCache (snd r))
             ⊆ AssignmentCache.cache (assignmentCache w)) in
  (forall e u, failed (LaikaTestClient.getPromptForUser rt e u w))
  /\ (forall e s, failed (LaikaTestClient.getPromptForSession rt e s w))
  /\ (forall e, failed (LaikaTestClient.getRandomPrompt rt e w))
  /\ (forall outcome options, failed (LaikaTestClient.trackOutcome rt outcome options w))
  /\ (forall e filters, failed (LaikaTestClient.getExperimentEvents rt e filters w)).
Proof.
  intros Hfail failed. subst failed. cbv beta.
  split; [| split; [| split; [| split]]].
  - intros e u. unfold LaikaTestClient.getPromptForUser.
    destruct (present e); [| left; reflexivity].
    destruct (present u); [| left; reflexivity].
    apply (fetch_through_cache_network_failure rt (ident_or e "") u None (user_request u)
             w Hfail).
  - intros e s. unfold LaikaTestClient.getPromptForSession.
    destruct (present e); [| left; reflexivity].
    destruct (present s); [| left; reflexivity].
    apply (fetch_through_cache_network_failure rt (ident_or e "") None s
             (session_request s) w Hfail).
  - intros e. pose proof (proj1 (shrinks_getRandomPrompt rt e w)) as Hsub.
    revert Hsub. unfold LaikaTestClient.getRandomPrompt.
    destruct (present e); [| left; reflexivity].
    cbn [negb]. intros Hsub. right.
    destruct (block_network_failure rt "POST"
                (LaikaTestClient.prompt_path (ident_or e ""))
                "Failed to get prompt assignment" (JObj [("split_type", JStr "random")])
                (fun response =>
                   let* invalid := LaikaTestClient.no_success_or_no_data response in
                   if (invalid : bool)
                   then throw (LaikaServiceError "Invalid response format" None NoResponse)
                   else LaikaTestClient.prop response "data")
                w (Hfail _ _ _)) as (m & Hrun).
    split; [rewrite Hrun; reflexivity |].
    split; [rewrite Hrun; eexists; reflexivity | exact Hsub].
  - intros outcome options.
    pose proof (proj1 (shrinks_trackOutcome rt outcome options w)) as Hsub.
    destruct (trackOutcome_cases rt outcome options w)
      as [(e0 & w1 & Hrun & _ & Hsame) | (id & w1 & _ & _ & _ & _ & Hsame & Hrun)].
    + left. rewrite Hrun. apply (same_but_evicted_requests _ _ Hsame).
    + right. split; [| split; [| exact Hsub]].
      * rewrite Hrun. unfold post_event.
        destruct (block_network_failure rt "POST" "/api/v1/events"
                    "Failed to track outcome" (JObj (event_data id outcome options))
                    (fun response =>
                       let* success := LaikaTestClient.prop response "success" in
                       if negb (truthy success)
                       then throw (LaikaServiceError "Failed to track event" None NoResponse)
                       else LaikaTestClient.prop response "data")
                    w1 (Hfail _ _ _)) as (m & ->).
        reflexivity.
      * rewrite Hrun, post_event_run. cbn [requests after_exchange].
        destruct (same_but_evicted_requests _ _ Hsame) as (-> & _). eexists; reflexivity.
  - intros e filters.
    pose proof (proj1 (shrinks_getExperimentEvents rt e filters w)) as Hsub.
    destruct (getExperimentEvents_cases rt e filters w) as [(m & Hrun) | (path & k & Hrun)].
    + left. rewrite Hrun. reflexivity.
    + right.
      destruct (block_network_failure rt "GET" path "Failed to fetch experiment events"
                  JNull
                  (fun response =>
                     let* success := LaikaTestClient.prop response "success" in
                     if negb (truthy success)
                     then throw (LaikaServiceError "Failed to fetch events" None NoResponse)
                     else k response)
                  w (Hfail _ _ _)) as (m & Hblock).
      split; [| split; [| exact Hsub]].
      * rewrite Hrun. unfold bind in Hblock |- *. rewrite Hblock. reflexivity.
      * rewrite Hrun. unfold bind in Hblock |- *. rewrite Hblock. eexists; reflexivity.
Qed.

Lemma transport_failure_is_network_error_witness :
  let r := LaikaTestClient.getPromptForUser (Host.runtime [] 0) (Some "exp-network")
             (Some "user-1") (Host.test_world 0) in
  fst r = Throw (NetworkError "Network request failed")
  /\ AssignmentCache.cache (assignmentCache (snd r))
       ⊆ AssignmentCache.cache (assignmentCache (Host.test_world 0)).
Proof.
  intros r. split; [reflexivity |].
  assert (Hfail : forall now sent req,
             reply (http_request (Host.runtime [] 0) now sent req) = ConnectionError
             \/ reply (http_request (Host.runtime [] 0) now sent req) = TimedOut).
  { intros now sent req. left. cbn. unfold Host.mock_http, Host.getResponse. cbn.
    destruct (includes "?" (req_path req)); reflexivity. }
  destruct (proj1 (transport_failure_is_network_error (Host.runtime [] 0)
                     (Host.test_world 0) Hfail)
              (Some "exp-network") (Some "user-1")) as [Hlog | (_ & _ & Hsub)].
  - discriminate Hlog.
  - exact Hsub.
Defined.

(** ** The envelope of a 2xx answer, operation by operation *)

Lemma envelope_data (envelope : JsVal) :
  prop_truthy envelope "success" && prop_truthy envelope "data" = true ->
  exists data, get_prop envelope "data" = Ok data /\ truthy data = true
               /\ prop_truthy envelope "success" = true.
Proof.
  intros H. apply andb_true_iff in H as [Hs Hd]. unfold prop_truthy in Hd.
  destruct (get_prop envelope "data") as [data | e]; [| discriminate Hd].
  exists data. auto.
Qed.

(** A fetch through the cache that misses and is answered with a bad
    envelope: one exchange, then a [LaikaServiceError]. *)
Lemma fetch_through_cache_bad_envelope (rt : Runtime) (e : string) (u s : Ident)
    (requestData : JsVal) (w : World) (statusCode : Z) (envelope : JsVal) :
  truthy (peek (clock w) (assignmentCache w) e u s) = false ->
  reply_to rt w "POST" (LaikaTestClient.prompt_path e) requestData
    = Response statusCode (Some envelope) ->
  is_2xx statusCode = true ->
  prop_truthy envelope "success" && prop_truthy envelope "data" = false ->
  exists err w2,
    (let* cached := LaikaTestClient.cache_get e u s in
     if truthy cached then ret cached
     else fetch_and_store rt e u s requestData) w
    = (Throw err, w2)
    /\ is_ServiceError err = true
    /\ requests w2
       = requests w ++ [request_of w "POST" (LaikaTestClient.prompt_path e) requestData].
Proof.
  intros Hmiss Hreply Hst Hbad.
  unfold bind. rewrite cache_get_run, Hmiss. unfold fetch_and_store.
  match goal with
  | |- context [try_catch _ _ ?w1] =>
      destruct (fetch_block_bad_envelope rt statusCode envelope "POST"
                  (LaikaTestClient.prompt_path e) "Failed to get prompt assignment"
                  requestData
                  (fun response =>
                     let* data := LaikaTestClient.prop response "data" in
                     LaikaTestClient.cache_store e u s data ;;; ret data)
                  w1 Hreply Hst Hbad) as (err & Hrun & Herr)
  end.
  rewrite Hrun. eexists _, _. split; [reflexivity |]. split; [exact Herr | reflexivity].
Qed.

(** A random fetch that is answered with a 2xx status. *)
Lemma getRandomPrompt_answered (rt : Runtime) (experimentId : Ident) (w : World)
    (statusCode : Z) (envelope : JsVal) :
  present experimentId = true ->
  reply_to rt w "POST" (LaikaTestClient.prompt_path (ident_or experimentId ""))
    (JObj [("split_type", JStr "random")])
    = Response statusCode (Some envelope) ->
  is_2xx statusCode = true ->
  requests (snd (LaikaTestClient.getRandomPrompt rt experimentId w))
  = requests w ++ [request_of w "POST"
                     (LaikaTestClient.prompt_path (ident_or experimentId ""))
                     (JObj [("split_type", JStr "random")])]
  /\ (if prop_truthy envelope "success" && prop_truthy envelope "data"
      then fst (LaikaTestClient.getRandomPrompt rt experimentId w) = get_prop envelope "data"
      else throws (fst (LaikaTestClient.getRandomPrompt rt experimentId w)) is_ServiceError
           = true).
Proof.
  intros He Hreply Hst.
  destruct (prop_truthy envelope "success" && prop_truthy envelope "data") eqn:Hgood.
  - destruct (envelope_data envelope Hgood) as (data & Hdata & Ht & Hsucc).
    unfold reply_to in Hreply. unfold is_2xx in Hst. unfold prop_truthy in Hsucc.
    remember (LaikaTestClient.getRandomPrompt rt experimentId w) as r eqn:Hr.
    unfold LaikaTestClient.getRandomPrompt in Hr. rewrite He in Hr. cbn [negb] in Hr.
    unfold try_catch, bind at 1 in Hr. rewrite makeRequest_run, Hreply in Hr.
    cbn [settled LaikaTestClient.settle] in Hr. rewrite Hst in Hr.
    unfold bind, LaikaTestClient.no_success_or_no_data, bind, ret, LaikaTestClient.prop, lift
      in Hr.
    destruct (get_prop envelope "success") as [s0 | e0]; [| discriminate Hsucc].
    rewrite Hsucc, Hdata, Ht in Hr. cbn [negb] in Hr.
    subst r. split; [reflexivity | symmetry; exact Hdata].
  - unfold LaikaTestClient.getRandomPrompt. rewrite He. cbn [negb].
    destruct (fetch_block_bad_envelope rt statusCode envelope "POST"
                (LaikaTestClient.prompt_path (ident_or experimentId ""))
                "Failed to get prompt assignment"
                (JObj [("split_type", JStr "random")])
                (fun response => LaikaTestClient.prop response "data") w
                Hreply Hst Hgood) as (err & -> & Herr).
    split; [reflexivity | exact Herr].
Qed.

(** The events query with accepted filters that is answered with a 2xx
    status and a truthy [success]. *)
Lemma events_block_ok (rt : Runtime) (path : string) (filters : EventFilters) (w : World)
    (statusCode : Z) (envelope : JsVal) :
  reply_to rt w "GET" path JNull = Response statusCode (Some envelope) ->
  is_2xx statusCode = true ->
  prop_truthy envelope "success" = true ->
  fst (events_block rt path
         (default_to (f_page filters) (JNum (num_of_Z 1)))
         (default_to (f_limit filters) (JNum (num_of_Z 50))) w)
  = Ok (normalized_events envelope filters).
Proof.
  intros Hreply Hst Hsucc. unfold reply_to in Hreply. unfold is_2xx in Hst.
  unfold events_block, try_catch, bind at 1. rewrite makeRequest_run, Hreply.
  cbn [settled LaikaTestClient.settle]. rewrite Hst.
  unfold bind, LaikaTestClient.prop, lift, ret, normalized_events.
  unfold prop_truthy in Hsucc.
  destruct envelope; try discriminate Hsucc. cbn [get_prop] in *.
  rewrite Hsucc. reflexivity.
Qed.

(** C9, amended: an operation whose request is answered with a 2xx status
    hands that one request to the transport and no other, and what it does
    next depends on the truthiness of the envelope alone.  When [success] is
    falsy (absent, [false], [null], 0, the empty string; or the envelope has
    no properties at all), the operation fails with a [LaikaServiceError]
    and returns nothing; for the three fetches the same holds when [data] is
    absent or otherwise falsy.  In every other case, so also when [success]
    is truthy without being [true], the answer is accepted: a fetch returns
    the [data], [trackOutcome] returns the [data], and the events query
    returns the events and the meta of the envelope. *)
Theorem malformed_envelope_is_service_error
    (rt : Runtime) (w : World) (statusCode : Z) (envelope : JsVal) :
  is_2xx statusCode = true ->
  let answered (req : Request) :=
    reply (http_request rt (clock w) (requests w) req)
    = Response statusCode (Some envelope) in
  let fetched (r : Result JsVal * World) (req : Request) :=
    requests (snd r) = requests w ++ [req]
    /\ (if prop_truthy envelope "success" && prop_truthy envelope "data"
        then fst r = get_prop envelope "data"
        else throws (fst r) is_ServiceError = true) in
  let acknowledged (r : Result JsVal * World) (req : Request) (result : Result JsVal) :=
    requests (snd r) = requests w ++ [req]
    /\ (if prop_truthy envelope "success"
        then fst r = result
        else throws (fst r) is_ServiceError = true) in
  (forall experimentId userId,
      present experimentId = true -> present userId = true ->
      let e := ident_or experimentId "" in
      truthy (peek (clock w) (assignmentCache w) e userId None) = false ->
      let req := request_of w "POST" (LaikaTestClient.prompt_path e)
                   (user_request userId) in
      answered req ->
      fetched (LaikaTestClient.getPromptForUser rt experimentId userId w) req)
  /\ (forall experimentId sessionId,
        present experimentId = true -> present sessionId = true ->
        let e := ident_or experimentId "" in
        truthy (peek (clock w) (assignmentCache w) e None sessionId) = false ->
        let req := request_of w "POST" (LaikaTestClient.prompt_path e)
                     (session_request sessionId) in
        answered req ->
        fetched (LaikaTestClient.getPromptForSession rt experimentId sessionId w) req)
  /\ (forall experimentId,
        present experimentId = true ->
        let req := request_of w "POST"
                     (LaikaTestClient.prompt_path (ident_or experimentId ""))
                     (JObj [("split_type", JStr "random")]) in
        answered req ->
        fetched (LaikaTestClient.getRandomPrompt rt experimentId w) req)
  /\ (forall outcome options id,
        outcome_rejected outcome = false ->
        resolved_id (clock w) (assignmentCache w) options = Ok id ->
        score_rejected (t_score options) = false ->
        feedback_rejected (t_userFeedback options) = false ->
        let req := request_of w "POST" "/api/v1/events"
                     (JObj (event_data id outcome options)) in
        answered req ->
        acknowledged (LaikaTestClient.trackOutcome rt outcome options w) req
          (get_prop envelope "data"))
  /\ (forall experimentId filters,
        present experimentId = true ->
        filters_accepted rt filters = true ->
        let req := events_request rt w (ident_or experimentId "") filters in
        answered req ->
        acknowledged (LaikaTestClient.getExperimentEvents rt experimentId filters w) req
          (Ok (normalized_events envelope filters)))
  /\ (forall v props,
        In v [JUndefined; JNull; JBool false; JNum (num_of_Z 0); JStr ""] ->
        prop_truthy (JObj (("success", v) :: props)) "success" = false)
  /\ prop_truthy (JObj []) "success" = false
  /\ (forall props, prop_truthy (JObj (("success", JNum (num_of_Z 1)) :: props)) "success"
                    = true).
Proof.
  intros Hst answered fetched acknowledged.
  split; [| split; [| split; [| split; [| split; [| split; [| split]]]]]].
  - intros experimentId userId He Hu e Hmiss req Hreply. subst fetched. cbv beta.
    rewrite (getPromptForUser_unfold rt _ _ w He Hu). fold e.
    destruct (prop_truthy envelope "success" && prop_truthy envelope "data") eqn:Hgood.
    + destruct (envelope_data envelope Hgood) as (data & Hdata & Ht & Hsucc).
      destruct (fetch_through_cache_run rt e userId None (user_request userId) w
                  statusCode envelope data Hmiss Hreply Hst Hsucc Hdata Ht)
        as (w2 & -> & Hlog & _).
      split; [exact Hlog | symmetry; exact Hdata].
    + destruct (fetch_through_cache_bad_envelope rt e userId None (user_request userId) w
                  statusCode envelope Hmiss Hreply Hst Hgood)
        as (err & w2 & -> & Herr & Hlog).
      split; [exact Hlog | exact Herr].
  - intros experimentId sessionId He Hs e Hmiss req Hreply. subst fetched. cbv beta.
    rewrite (getPromptForSession_unfold rt _ _ w He Hs). fold e.
    destruct (prop_truthy envelope "success" && prop_truthy envelope "data") eqn:Hgood.
    + destruct (envelope_data envelope Hgood) as (data & Hdata & Ht & Hsucc).
      destruct (fetch_through_cache_run rt e None sessionId (session_request sessionId) w
                  statusCode envelope data Hmiss Hreply Hst Hsucc Hdata Ht)
        as (w2 & -> & Hlog & _).
      split; [exact Hlog | symmetry; exact Hdata].
    + destruct (fetch_through_cache_bad_envelope rt e None sessionId
                  (session_request sessionId) w statusCode envelope Hmiss Hreply Hst Hgood)
        as (err & w2 & -> & Herr & Hlog).
      split; [exact Hlog | exact Herr].
  - intros experimentId He req Hreply. subst fetched. cbv beta.
    exact (getRandomPrompt_answered rt experimentId w statusCode envelope He Hreply Hst).
  - intros outcome options id Hout Hid Hscore Hfeedback req Hreply.
    subst acknowledged. cbv beta.
    destruct (trackOutcome_posts rt outcome options w id Hout Hid Hscore Hfeedback)
      as (w1 & Hsame & Hrun & Hlog).
    split; [exact Hlog |].
    assert (Hreply1 : reply_to rt w1 "POST" "/api/v1/events"
                        (JObj (event_data id outcome options))
                      = Response statusCode (Some envelope)).
    { rewrite (reply_to_evicted rt w w1) by exact Hsame. exact Hreply. }
    rewrite Hrun.
    destruct (prop_truthy envelope "success") eqn:Hsucc.
    + unfold prop_truthy in Hsucc.
      destruct (get_prop envelope "data") as [data | err] eqn:Hdata.
      * apply (post_event_ok rt _ w1 statusCode envelope data); try assumption.
      * destruct envelope; discriminate.
    + destruct (post_event_bad_envelope rt statusCode envelope
                  (event_data id outcome options) w1 Hreply1 Hst Hsucc)
        as (err & -> & Herr).
      exact Herr.
  - intros experimentId filters He Hacc req Hreply. subst acknowledged. cbv beta.
    rewrite (getExperimentEvents_accepted rt _ _ w He Hacc).
    split; [rewrite events_block_run; reflexivity |].
    destruct (prop_truthy envelope "success") eqn:Hsucc.
    + apply (events_block_ok rt _ filters w statusCode envelope Hreply Hst Hsucc).
    + unfold events_block.
      match goal with
      | |- context [try_catch (bind _ (fun response => bind _ (fun success =>
                      if _ then _ else @?k response))) _ _] =>
          destruct (events_block_bad_envelope rt statusCode envelope _ k w
                      Hreply Hst Hsucc) as (err & Hrun & Herr)
      end.
      cbv beta in Hrun. rewrite Hrun. exact Herr.
  - intros v props Hin. cbn in Hin.
    destruct Hin as [<- | [<- | [<- | [<- | [<- | []]]]]]; reflexivity.
  - reflexivity.
  - intros props. reflexivity.
Qed.

Lemma malformed_envelope_is_service_error_witness :
  let refused := JObj [("success", JBool false); ("error", JStr "nothing here")] in
  let data := JObj [("assignment_id", JStr "assign-1")] in
  let accepted := JObj [("success", JStr "yes"); ("data", data)] in
  let w := Host.test_world 0 in
  (throws (fst (LaikaTestClient.getPromptForUser (Host.constant_runtime 200 refused 0)
                  (Some "exp-1") (Some "user-1") w)) is_ServiceError = true
   /\ throws (fst (LaikaTestClient.trackOutcome (Host.constant_runtime 200 refused 0)
                     (JStr "success") (explicit_options "exp-1" "assign-1") w))
        is_ServiceError = true)
  /\ fst (LaikaTestClient.getPromptForUser (Host.constant_runtime 200 accepted 0)
            (Some "exp-1") (Some "user-1") w) = Ok data.
Proof.
  intros refused data accepted w. split.
  - destruct (malformed_envelope_is_service_error (Host.constant_runtime 200 refused 0) w
                200 refused eq_refl) as (Huser & _ & _ & Htrack & _).
    split.
    + exact (proj2 (Huser (Some "exp-1") (Some "user-1") eq_refl eq_refl eq_refl eq_refl)).
    + exact (proj2 (Htrack (JStr "success") (explicit_options "exp-1" "assign-1")
                      (JStr "assign-1") eq_refl eq_refl eq_refl eq_refl eq_refl)).
  - destruct (malformed_envelope_is_service_error (Host.constant_runtime 200 accepted 0) w
                200 accepted eq_refl) as (Huser & _).
    exact (proj2 (Huser (Some "exp-1") (Some "user-1") eq_refl eq_refl eq_refl eq_refl)).
Defined.

(** ** Page and limit, accepted and rejected *)

Lemma filters_accepted_split (rt : Runtime) (filters : EventFilters) :
  filters_accepted rt filters
  = negb (page_rejected (default_to (f_page filters) (JNum (num_of_Z 1))))
    && negb (limit_rejected (default_to (f_limit filters) (JNum (num_of_Z 50))))
    && other_filters_accepted rt filters.
Proof.
  unfold filters_accepted, other_filters_accepted. rewrite !andb_assoc. reflexivity.
Qed.

(** The last two parameters of the query are the page and the limit. *)
Lemma build_query_ends_with_page_limit (rt : Runtime) (filters : EventFilters)
    (page limit : JsVal) :
  exists params,
    LaikaTestClient.build_query rt filters page limit
    = params ++ [("page", LaikaTestClient.to_string rt page);
                 ("limit", LaikaTestClient.to_string rt limit)].
Proof. unfold LaikaTestClient.build_query. eexists. reflexivity. Qed.

(** Past the checks on [page] and [limit], no error of
    [getExperimentEvents] is one of theirs. *)
Lemma getExperimentEvents_page_limit_errors (rt : Runtime) (experimentId : Ident)
    (filters : EventFilters) (w : World) :
  present experimentId = true ->
  let page := default_to (f_page filters) (JNum (num_of_Z 1)) in
  let limit := default_to (f_limit filters) (JNum (num_of_Z 50)) in
  let r := LaikaTestClient.getExperimentEvents rt experimentId filters w in
  (fst r = Throw (ValidationError "page must be a positive number")
   <-> page_rejected page = true)
  /\ (fst r = Throw (ValidationError "limit must be a number between 1 and 500")
      <-> page_rejected page = false /\ limit_rejected limit = true).
Proof.
  intros He page limit r.
  remember r as r0 eqn:Hr. subst r.
  unfold LaikaTestClient.getExperimentEvents in Hr. rewrite He in Hr. cbn [negb] in Hr.
  fold page limit in Hr.
  change (negb (is_number page) || val_lt page 1) with (page_rejected page) in Hr.
  change (negb (is_number limit) || val_lt limit 1 || val_gt limit 500)
    with (limit_rejected limit) in Hr.
  destruct (page_rejected page) eqn:Hp.
  { subst r0. cbn [fst throw]. split; split; auto; try discriminate.
    intros [H _]. discriminate H. }
  destruct (limit_rejected limit) eqn:Hl.
  { subst r0. cbn [fst throw]. split; split; auto; discriminate. }
  assert (Hother : forall m, fst r0 = Throw (ValidationError m) ->
                             m <> "page must be a positive number"
                             /\ m <> "limit must be a number between 1 and 500").
  { intros m Hm. subst r0. revert Hm.
    repeat match goal with
           | |- context [if ?b then throw (ValidationError ?m') else _] =>
               destruct b;
               [cbn [fst throw]; intros [= <-]; split; intros H; vm_compute in H;
                discriminate H |]
           end.
    intros Hm. apply try_catch_kind in Hm. discriminate Hm. }
  split; split.
  - intros H. destruct (Hother _ H) as [H1 _]. contradiction H1. reflexivity.
  - discriminate.
  - intros H. destruct (Hother _ H) as [_ H2]. contradiction H2. reflexivity.
  - intros [_ H]. discriminate H.
Qed.

(** C8, amended: [getExperimentEvents] fails with [ValidationError], and
    does nothing else, for every page that is not of type number or is a
    number below 1, and for every limit that is not of type number or is a
    number below 1 or above 500; the error that names the page is thrown for
    such a page and no other, and the one that names the limit for such a
    limit, once the page has passed.  A number within these bounds is
    accepted whether it is an integer or not: when the other filters pass
    their checks the call throws no [ValidationError] and sends its one
    request, with the page and the limit as the last two parameters of the
    query.  A finite number is rejected exactly when it is out of the
    bounds.  A page left out is 1 and a limit left out is 50. *)
Theorem getExperimentEvents_page_limit
    (rt : Runtime) (experimentId : Ident) (filters : EventFilters) (w : World) :
  let page := default_to (f_page filters) (JNum (num_of_Z 1)) in
  let limit := default_to (f_limit filters) (JNum (num_of_Z 50)) in
  let r := LaikaTestClient.getExperimentEvents rt experimentId filters w in
  (page_rejected page = true \/ limit_rejected limit = true ->
   throws (fst r) is_ValidationError = true /\ snd r = w)
  /\ (present experimentId = true ->
      (fst r = Throw (ValidationError "page must be a positive number")
       <-> page_rejected page = true)
      /\ (fst r = Throw (ValidationError "limit must be a number between 1 and 500")
          <-> page_rejected page = false /\ limit_rejected limit = true))
  /\ (present experimentId = true ->
      other_filters_accepted rt filters = true ->
      throws (fst r) is_ValidationError = page_rejected page || limit_rejected limit)
  /\ (present experimentId = true ->
      page_rejected page = false -> limit_rejected limit = false ->
      other_filters_accepted rt filters = true ->
      requests (snd r)
      = requests w ++ [events_request rt w (ident_or experimentId "") filters]
      /\ exists params,
          LaikaTestClient.build_query rt filters page limit
          = params ++ [("page", LaikaTestClient.to_string rt page);
                       ("limit", LaikaTestClient.to_string rt limit)])
  /\ (forall q, page_rejected (JNum (Fin q)) = true <-> (q < 1)%Q)
  /\ (forall q, limit_rejected (JNum (Fin q)) = true <-> (q < 1)%Q \/ (500 < q)%Q)
  /\ (forall v, is_number v = false -> page_rejected v = true /\ limit_rejected v = true)
  /\ (f_page filters = JUndefined -> page = JNum (num_of_Z 1))
  /\ (f_limit filters = JUndefined -> limit = JNum (num_of_Z 50))
  /\ (f_page filters = JUndefined -> f_limit filters = JUndefined ->
      r = LaikaTestClient.getExperimentEvents rt experimentId
            (with_page_limit (JNum (num_of_Z 1)) (JNum (num_of_Z 50)) filters) w).
Proof.
  intros page limit r.
  split; [| split; [| split; [| split; [| split; [| split; [| split; [| split;
    [| split]]]]]]]].
  - intros Hbad. subst r. unfold LaikaTestClient.getExperimentEvents.
    destruct (present experimentId); cbn [negb]; [| split; reflexivity].
    fold page limit. unfold page_rejected, limit_rejected in Hbad.
    destruct (negb (is_number page) || val_lt page 1); [split; reflexivity |].
    destruct Hbad as [Hbad | Hbad]; [discriminate Hbad |].
    rewrite Hbad. split; reflexivity.
  - intros He. exact (getExperimentEvents_page_limit_errors rt experimentId filters w He).
  - intros He Hother. subst r.
    destruct (page_rejected page || limit_rejected limit) eqn:Hrej.
    + assert (Hacc : filters_accepted rt filters = false).
      { rewrite filters_accepted_split. fold page limit.
        apply orb_true_iff in Hrej as [-> | ->]; cbn; rewrite ?andb_false_r; reflexivity. }
      destruct (getExperimentEvents_rejected rt experimentId filters w (or_intror Hacc))
        as (m & ->).
      reflexivity.
    + apply orb_false_iff in Hrej as [Hp Hl].
      assert (Hacc : filters_accepted rt filters = true).
      { rewrite filters_accepted_split. fold page limit. rewrite Hp, Hl, Hother.
        reflexivity. }
      rewrite (getExperimentEvents_accepted rt _ _ w He Hacc).
      destruct (fst (events_block rt _ _ _ w)) as [v | e] eqn:Hres; [reflexivity |].
      unfold events_block in Hres. apply try_catch_kind in Hres.
      destruct e; simpl in *; try discriminate Hres; reflexivity.
  - intros He Hp Hl Hother. subst r.
    assert (Hacc : filters_accepted rt filters = true).
    { rewrite filters_accepted_split. fold page limit. rewrite Hp, Hl, Hother.
      reflexivity. }
    rewrite (getExperimentEvents_accepted rt _ _ w He Hacc).
    split; [rewrite events_block_run; reflexivity |].
    apply build_query_ends_with_page_limit.
  - intros q. unfold page_rejected. cbn. apply Qlt_bool_iff.
  - intros q. unfold limit_rejected. cbn. rewrite orb_true_iff, !Qlt_bool_iff.
    reflexivity.
  - intros v Hv. unfold page_rejected, limit_rejected. rewrite Hv. split; reflexivity.
  - intros Hp. subst page. rewrite Hp. reflexivity.
  - intros Hl. subst limit. rewrite Hl. reflexivity.
  - intros Hp Hl. subst r. unfold LaikaTestClient.getExperimentEvents.
    destruct filters; cbn in Hp, Hl; subst. reflexivity.
Qed.

Lemma getExperimentEvents_page_limit_witness :
  let query page limit :=
    LaikaTestClient.getExperimentEvents (Host.runtime [] 0) (Some "exp-123")
      (with_page_limit page limit no_filters) (Host.test_world 0) in
  (throws (fst (query (JNum (num_of_Z 0)) JUndefined)) is_ValidationError = true
   /\ snd (query (JNum (num_of_Z 0)) JUndefined) = Host.test_world 0)
  /\ throws (fst (query (JNum (Fin (7 # 2))) (JNum (Fin (5 # 2))))) is_ValidationError
     = false
  /\ map req_path (requests (snd (query (JNum (Fin (7 # 2))) (JNum (Fin (5 # 2))))))
     = ["/api/v1/experiments/exp-123/events?page=3.5&limit=2.5"].
Proof.
  intros query.
  split; [| split].
  - exact (proj1 (getExperimentEvents_page_limit (Host.runtime [] 0) (Some "exp-123")
                    (with_page_limit (JNum (num_of_Z 0)) JUndefined no_filters)
                    (Host.test_world 0))
             (or_introl eq_refl)).
  - exact (proj1 (proj2 (proj2 (getExperimentEvents_page_limit (Host.runtime [] 0)
                                  (Some "exp-123")
                                  (with_page_limit (JNum (Fin (7 # 2))) (JNum (Fin (5 # 2)))
                                     no_filters)
                                  (Host.test_world 0))))
             eq_refl eq_refl).
  - destruct (proj1 (proj2 (proj2 (proj2
                (getExperimentEvents_page_limit (Host.runtime [] 0) (Some "exp-123")
                   (with_page_limit (JNum (Fin (7 # 2))) (JNum (Fin (5 # 2))) no_filters)
                   (Host.test_world 0)))))
                eq_refl eq_refl eq_refl eq_refl) as [Hlog _].
    subst query. cbv beta. rewrite Hlog. reflexivity.
Defined.
